(** * BlogFlow AI: the orchestration core, embedded and verified

    A shallow embedding of the pipeline of [main.py], the shared
    [MemoryBank] of [memory.py] and the four agents under [agents/].

    Conventions of the embedding.
    - Python [str] is modelled by [string]; every character stands for the
      code point of the same number (0..255).
    - Python [float] is modelled by an exact rational ([Q]), kept in
      lowest terms; rounding and overflow are not modelled.
    - A [Dict[str, Any]] that the code builds and updates key by key (an
      editor feedback record) is a [gmap string value], allocated in a heap
      and passed around by reference, as Python does.  The dicts that are
      built at once and only read (research brief, SEO data, meta tags) are
      records.
    - Exceptions are outcomes: [IndexError], [KeyError], [ValueError] and
      the failure of the generation client are raised where Python raises
      them and caught where the code has a [try].
    - The text generation client is opaque: its answers are given by an
      oracle indexed by the number of calls made so far.  Prompts only feed
      the client and are therefore not built.
    - The [while] loop of the controller runs on fuel; an outcome
      [OutOfFuel] is no answer.
    - The world keeps a log of what the store shows after each write; the
      log is not read by the program.
    - [print] calls and the writing of the output file are dropped. *)

From Stdlib Require Import QArith Lqa Ascii String.
From stdpp Require Import gmap strings list fin_maps.

(** ** Exceptions and outcomes *)

Inductive exn_kind :=
  | GenerationError | KeyError | ValueError | IndexError | TypeError | AttributeError.

(** An exception carries the text that [str(e)] yields. *)
Record exn := Exn { exn_class : exn_kind; exn_str : string }.

(** What running a piece of code yields: a value, a raised exception, or
    no answer within the allotted number of loop rounds. *)
Inductive outcome (A : Type) :=
  | Ok (a : A)
  | Raise (e : exn)
  | OutOfFuel.
Arguments Ok {A} a.
Arguments Raise {A} e.
Arguments OutOfFuel {A}.

Definition obind {A B} (o : outcome A) (f : A -> outcome B) : outcome B :=
  match o with
  | Ok a => f a
  | Raise e => Raise e
  | OutOfFuel => OutOfFuel
  end.

(** [try: o  except: h] for code without side effects. *)
Definition otry {A} (o : outcome A) (h : exn -> outcome A) : outcome A :=
  match o with
  | Raise e => h e
  | _ => o
  end.

(** ** Python string methods *)

Module Str.

(** [str.isspace] on one character (code points below 256). *)
Definition isspace (c : ascii) : bool :=
  let n := nat_of_ascii c in
  ((9 <=? n) && (n <=? 13)) || ((28 <=? n) && (n <=? 32))
  || (n =? 133) || (n =? 160).

(** [\d] of the [re] module (code points below 256). *)
Definition isdigit (c : ascii) : bool :=
  let n := nat_of_ascii c in (48 <=? n) && (n <=? 57).

Fixpoint lstrip (s : string) : string :=
  match s with
  | EmptyString => EmptyString
  | String c s' => if isspace c then lstrip s' else s
  end.

Fixpoint rstrip (s : string) : string :=
  match s with
  | EmptyString => EmptyString
  | String c s' =>
      match rstrip s' with
      | EmptyString => if isspace c then EmptyString else String c EmptyString
      | r => String c r
      end
  end.

(** [s.strip()] *)
Definition strip (s : string) : string := rstrip (lstrip s).

(** [s.split(sep)] for a separator of one character. *)
Fixpoint split (sep : ascii) (s : string) : list string :=
  match s with
  | EmptyString => [EmptyString]
  | String c s' =>
      if Ascii.eqb c sep then EmptyString :: split sep s'
      else match split sep s' with
           | cur :: rest => String c cur :: rest
           | [] => [String c EmptyString]
           end
  end.

(** [s.startswith(p)] *)
Definition startswith (s p : string) : bool := String.prefix p s.

(** [s[n:]] for [n >= 0] *)
Fixpoint drop (n : nat) (s : string) : string :=
  match n, s with
  | S k, String _ s' => drop k s'
  | _, _ => s
  end.

(** [s[:n]] for [n >= 0] *)
Fixpoint take (n : nat) (s : string) : string :=
  match n, s with
  | S k, String c s' => String c (take k s')
  | _, _ => EmptyString
  end.

(** [c.isalnum()] (code points below 256). *)
Definition isalnum (c : ascii) : bool :=
  let n := nat_of_ascii c in
  ((48 <=? n) && (n <=? 57)) || ((65 <=? n) && (n <=? 90))
  || ((97 <=? n) && (n <=? 122)) || (n =? 170)
  || ((178 <=? n) && (n <=? 179)) || (n =? 181)
  || ((185 <=? n) && (n <=? 186)) || ((188 <=? n) && (n <=? 190))
  || ((192 <=? n) && (n <=? 214)) || ((216 <=? n) && (n <=? 246))
  || ((248 <=? n) && (n <=? 255)).

(** ["".join(c if p(c) else '' for c in s)] *)
Fixpoint filter (p : ascii -> bool) (s : string) : string :=
  match s with
  | EmptyString => EmptyString
  | String c s' => if p c then String c (filter p s') else filter p s'
  end.

Fixpoint replace_from (old new : string) (skip : nat) (s : string) : string :=
  match s with
  | EmptyString => EmptyString
  | String c s' =>
      match skip with
      | S k => replace_from old new k s'
      | O =>
          if String.prefix old s
          then new +:+ replace_from old new (String.length old - 1) s'
          else String c (replace_from old new 0 s')
      end
  end.

Fixpoint interleave (new s : string) : string :=
  match s with
  | EmptyString => new
  | String c s' => new +:+ String c (interleave new s')
  end.

(** [s.replace(old, new)]: every occurrence, left to right, without
    overlap. *)
Definition replace (old new s : string) : string :=
  match old with
  | EmptyString => interleave new s
  | _ => replace_from old new 0 s
  end.

(** [s.lower()] (code points below 256). *)
Definition lower_char (c : ascii) : ascii :=
  let n := nat_of_ascii c in
  if ((65 <=? n) && (n <=? 90))
     || ((192 <=? n) && (n <=? 222) && negb (n =? 215))
  then ascii_of_nat (n + 32) else c.

Fixpoint lower (s : string) : string :=
  match s with
  | EmptyString => EmptyString
  | String c s' => String (lower_char c) (lower s')
  end.

(** The longest prefix of characters satisfying [p], and the rest. *)
Fixpoint span (p : ascii -> bool) (s : string) : string * string :=
  match s with
  | EmptyString => (EmptyString, EmptyString)
  | String c s' =>
      if p c then let '(a, b) := span p s' in (String c a, b)
      else (EmptyString, s)
  end.

(** The text matched by [\d+\.?\d*] at the start of [s], which starts
    with a digit: the pattern is greedy and never has to back off. *)
Definition match_number (s : string) : string :=
  let '(d1, r) := span isdigit s in
  match r with
  | String "."%char r' => let '(d2, _) := span isdigit r' in d1 +:+ "." +:+ d2
  | _ => d1
  end.

(** [re.search(r'\d+\.?\d*', s)], as [match.group()]. *)
Fixpoint re_search_number (s : string) : option string :=
  match s with
  | EmptyString => None
  | String c s' => if isdigit c then Some (match_number s) else re_search_number s'
  end.

Fixpoint digits_value (acc : N) (s : string) : N :=
  match s with
  | EmptyString => acc
  | String c s' => digits_value (10 * acc + (N_of_ascii c - 48))%N s'
  end.

Definition value_error (s : string) : exn :=
  Exn ValueError ("could not convert string to float: '" +:+ s +:+ "'").

(** [float(s)] on plain decimal numerals [d+], [d+.] and [d+.d*], the
    only texts the feedback parser converts.  Any other text is
    reported as [ValueError]. *)
Definition float (s : string) : outcome Q :=
  let '(d1, r) := span isdigit s in
  match d1, r with
  | EmptyString, _ => Raise (value_error s)
  | _, EmptyString => Ok (inject_Z (Z.of_N (digits_value 0 d1)))
  | _, String "."%char r' =>
      let '(d2, rest) := span isdigit r' in
      match rest with
      | EmptyString =>
          Ok (Qred (Z.of_N (digits_value 0 (d1 +:+ d2))
                    # Z.to_pos (10 ^ Z.of_nat (String.length d2))))
      | _ => Raise (value_error s)
      end
  | _, _ => Raise (value_error s)
  end.

Definition nonempty (s : string) : bool :=
  match s with EmptyString => false | _ => true end.

(** [needle in s] *)
Fixpoint contains (s needle : string) : bool :=
  String.prefix needle s
  || match s with
     | EmptyString => false
     | String _ s' => contains s' needle
     end.

End Str.

(** The line feed character and the string that holds just it. *)
Definition LF : ascii := "010"%char.
Definition NL : string := String LF EmptyString.

(** ** Values and dictionaries *)

(** The values a feedback record holds: a score, the review round, and
    lists of remarks. *)
Inductive value :=
  | VFloat (q : Q)
  | VInt (n : nat)
  | VList (l : list string).

Abbreviation dict := (gmap string value).

Definition key_error (k : string) : exn := Exn KeyError ("'" +:+ k +:+ "'").

(** [d[k]] *)
Definition getitem (d : dict) (k : string) : outcome value :=
  match d !! k with
  | Some v => Ok v
  | None => Raise (key_error k)
  end.

(** [d.get(k, default)] *)
Definition dict_get (d : dict) (k : string) (default : value) : value :=
  match d !! k with
  | Some v => v
  | None => default
  end.

(** [d[k].append(item)] *)
Definition append_item (d : dict) (k item : string) : outcome dict :=
  obind (getitem d k) (fun v =>
    match v with
    | VList l => Ok (<[k := VList (l ++ [item])]> d)
    | _ => Raise (Exn AttributeError "object has no attribute 'append'")
    end).

(** A number used in float arithmetic. *)
Definition as_float (v : value) : outcome Q :=
  match v with
  | VFloat q => Ok q
  | VInt n => Ok (inject_Z (Z.of_nat n))
  | VList _ => Raise (Exn TypeError "unsupported operand type(s)")
  end.

(** ** The feedback parser: [EditorAgent._parse_review] *)

Module Parser.

(** The record the parser starts from. *)
Definition initial_feedback : dict :=
  {[ "score" := VFloat 5;
     "issues" := VList [];
     "suggestions" := VList [];
     "strengths" := VList [] ]}.

(** The parser's two variables: [feedback] and [current_section]. *)
Definition pstate : Type := dict * option string.

(** [and current_section]: [None] and the empty string count as false. *)
Definition section_open (current_section : option string) : option string :=
  match current_section with
  | Some sec => if Str.nonempty sec then Some sec else None
  | None => None
  end.

(** The body of the [try] under [SCORE:]. *)
Definition read_score (feedback : dict) (line : string) : outcome dict :=
  let score_text := Str.strip (Str.replace "SCORE:" "" line) in
  match Str.re_search_number score_text with
  | Some tok =>
      obind (Str.float tok) (fun q => Ok (<["score" := VFloat q]> feedback))
  | None => Ok feedback
  end.

(** One round of [for line in lines]. *)
Definition parse_line (st : pstate) (raw : string) : outcome pstate :=
  let '(feedback, current_section) := st in
  let line := Str.strip raw in
  if Str.startswith line "SCORE:" then
    obind (otry (read_score feedback line) (fun _ => Ok feedback))
          (fun fb => Ok (fb, current_section))
  else if String.eqb line "ISSUES:" then Ok (feedback, Some "issues")
  else if String.eqb line "SUGGESTIONS:" then Ok (feedback, Some "suggestions")
  else if String.eqb line "STRENGTHS:" then Ok (feedback, Some "strengths")
  else if Str.startswith line "- " then
    match section_open current_section with
    | Some sec =>
        let item := Str.strip (Str.drop 2 line) in
        if Str.nonempty item
        then obind (append_item feedback sec item)
                   (fun fb => Ok (fb, current_section))
        else Ok st
    | None => Ok st
    end
  else Ok st.

Fixpoint parse_lines (st : pstate) (lines : list string) : outcome pstate :=
  match lines with
  | [] => Ok st
  | line :: rest => obind (parse_line st line) (fun st' => parse_lines st' rest)
  end.

Definition _parse_review (review_text : string) : outcome dict :=
  let lines := Str.split LF review_text in
  obind (parse_lines (initial_feedback, None) lines) (fun st => Ok (fst st)).

End Parser.

(** ** The state of a run *)

(** A research brief, as [format_research_brief] and the researcher's
    last-resort branch build it. *)
Record ResearchBrief := {
  rb_topic : string;
  findings : string;
  key_points : list string;
  sources : list string;
  timestamp : string
}.

(** The record the SEO agent stores. *)
Record SeoData := {
  keywords : list string;
  seo_topic : string;
  optimized : bool
}.

(** Feedback records live in the heap; the memory bank and the agents
    hold references to them. *)
Abbreviation loc := nat.

(** The fields of [MemoryBank].  [research_data] and [seo_data] start as
    the empty dict, written [None]. *)
Record MemoryBank := {
  style_guide : string;
  research_data : option ResearchBrief;
  drafts : list string;
  seo_data : option SeoData;
  editor_feedback : list loc
}.

(** What a reader of the store sees: the drafts, and the feedback records
    the history refers to. *)
Record Observation := {
  obs_drafts : list string;
  obs_feedback : list dict
}.

(** The heap of feedback records, the memory bank, the number of calls
    made to the generation client, and the observations made after each
    write, latest first. *)
Record World := {
  heap : list dict;
  memory : MemoryBank;
  calls : nat;
  log : list Observation
}.

Definition deref (h : list dict) (l : loc) : dict := default ∅ (h !! l).

Definition observe (h : list dict) (m : MemoryBank) : Observation :=
  {| obs_drafts := drafts m;
     obs_feedback := deref h <$> editor_feedback m |}.

(** Every write to the heap or to the memory bank is followed by an
    observation. *)
Definition write (h : list dict) (m : MemoryBank) (w : World) : World :=
  {| heap := h; memory := m; calls := calls w;
     log := observe h m :: log w |}.

(** ** The monad of the agents: state and exceptions *)

Definition M (A : Type) : Type := World -> outcome A * World.

Definition ret {A} (a : A) : M A := fun w => (Ok a, w).

Definition bind {A B} (m : M A) (f : A -> M B) : M B :=
  fun w =>
    match m w with
    | (Ok a, w') => f a w'
    | (Raise e, w') => (Raise e, w')
    | (OutOfFuel, w') => (OutOfFuel, w')
    end.

Notation "'let*' x ':=' m 'in' k" := (bind m (fun x => k))
  (at level 10, x binder, m at level 100, k at level 200).
Notation "m ';;;' k" := (bind m (fun _ => k))
  (at level 100, k at level 200, right associativity).

(** [try: m  except Exception as e: h e].  What [m] wrote before it
    raised stays written. *)
Definition try_except {A} (m : M A) (h : exn -> M A) : M A :=
  fun w =>
    match m w with
    | (Raise e, w') => h e w'
    | r => r
    end.

(** A computation without side effects, run inside an agent. *)
Definition lift {A} (o : outcome A) : M A := fun w => (o, w).

Definition read_memory {A} (f : MemoryBank -> A) : M A :=
  fun w => (Ok (f (memory w)), w).

Definition update_memory (f : MemoryBank -> MemoryBank) : M unit :=
  fun w => (Ok tt, write (heap w) (f (memory w)) w).

(** A new dict object. *)
Definition alloc (d : dict) : M loc :=
  fun w => (Ok (length (heap w)), write (heap w ++ [d]) (memory w) w).

(** The dict behind a reference. *)
Definition load (l : loc) : M dict :=
  fun w =>
    match heap w !! l with
    | Some d => (Ok d, w)
    | None => (Raise (Exn AttributeError "no such object"), w)
    end.

(** [l[k] = v] *)
Definition setitem (l : loc) (k : string) (v : value) : M unit :=
  let* d := load l in
  fun w => (Ok tt, write (<[l := <[k := v]> d]> (heap w)) (memory w) w).

(** [l[-1]] *)
Definition index_last {A} (l : list A) : outcome A :=
  match last l with
  | Some x => Ok x
  | None => Raise (Exn IndexError "list index out of range")
  end.

(** [l[0]] *)
Definition index_first {A} (l : list A) : outcome A :=
  match l with
  | x :: _ => Ok x
  | [] => Raise (Exn IndexError "list index out of range")
  end.

Definition list_nonempty {A} (l : list A) : bool :=
  match l with [] => false | _ => true end.

(** ** [memory.py]: the shared memory bank *)

Module Memory.

(** [MemoryBank(style_guide)] *)
Definition init (style_guide : string) : MemoryBank :=
  {| style_guide := style_guide;
     research_data := None;
     drafts := [];
     seo_data := None;
     editor_feedback := [] |}.

Definition store_research (data : ResearchBrief) : M unit :=
  update_memory (fun self =>
    {| style_guide := style_guide self;
       research_data := Some data;
       drafts := drafts self;
       seo_data := seo_data self;
       editor_feedback := editor_feedback self |}).

Definition get_research : M (option ResearchBrief) := read_memory research_data.

Definition add_draft (draft : string) : M unit :=
  update_memory (fun self =>
    {| style_guide := style_guide self;
       research_data := research_data self;
       drafts := drafts self ++ [draft];
       seo_data := seo_data self;
       editor_feedback := editor_feedback self |}).

(** [self.drafts[-1] if self.drafts else ""] *)
Definition get_latest_draft : M string :=
  let* ds := read_memory drafts in
  if list_nonempty ds then lift (index_last ds) else ret EmptyString.

Definition get_all_drafts : M (list string) := read_memory drafts.

Definition store_seo_data (data : SeoData) : M unit :=
  update_memory (fun self =>
    {| style_guide := style_guide self;
       research_data := research_data self;
       drafts := drafts self;
       seo_data := Some data;
       editor_feedback := editor_feedback self |}).

Definition get_seo_data : M (option SeoData) := read_memory seo_data.

Definition add_editor_feedback (feedback : loc) : M unit :=
  update_memory (fun self =>
    {| style_guide := style_guide self;
       research_data := research_data self;
       drafts := drafts self;
       seo_data := seo_data self;
       editor_feedback := editor_feedback self ++ [feedback] |}).

(** [self.editor_feedback[-1] if self.editor_feedback else {}] *)
Definition get_latest_feedback : M loc :=
  let* fs := read_memory editor_feedback in
  if list_nonempty fs then lift (index_last fs) else alloc ∅.

Definition get_feedback_count : M nat :=
  read_memory (fun self => length (editor_feedback self)).

Definition clear : M unit :=
  update_memory (fun self => init (style_guide self)).

End Memory.

(** ** The text generation client *)

(** What a call to the client yields: a response, or a failure with its
    reason. *)
Inductive answer (A : Type) :=
  | Answer (a : A)
  | Failure (reason : string).
Arguments Answer {A} a.
Arguments Failure {A} reason.

(** The part of a grounded response the researcher looks at. *)
Record WebChunk := { uri : option string }.

Record GroundingMetadata := {
  search_entry_point : bool;
  grounding_chunks : option (list (option WebChunk))
}.

Record Candidate := {
  parts : list string;
  grounding_metadata : option GroundingMetadata
}.

Record GroundedResponse := { candidates : list Candidate }.

(** The client: the [n]-th call of a run gets the [n]-th answer.
    [generate_content] yields [response.text], taken to be a string;
    [generate_content_search] is the call with the search tool. *)
Record Client := {
  generate_content : nat -> answer string;
  generate_content_search : nat -> answer GroundedResponse
}.

(** The world once one more call has been made. *)
Definition next_call (w : World) : World :=
  {| heap := heap w; memory := memory w; calls := S (calls w); log := log w |}.

Definition call_client {A} (f : nat -> answer A) : M A :=
  fun w =>
    match f (calls w) with
    | Answer a => (Ok a, next_call w)
    | Failure reason => (Raise (Exn GenerationError reason), next_call w)
    end.

(** ** [config.py] *)

Record Config := {
  MAX_EDITOR_ITERATIONS : nat;
  QUALITY_THRESHOLD : Q;
  DEFAULT_STYLE_GUIDE : string
}.

Definition config : Config := {|
  MAX_EDITOR_ITERATIONS := 3;
  QUALITY_THRESHOLD := 7;
  DEFAULT_STYLE_GUIDE := "
Writing Style Guidelines:
- Tone: Professional yet conversational
- Target Audience: Tech-savvy professionals and content creators
- Length: 1200-1800 words
- Structure: Introduction, 3-5 main sections, Conclusion
- Use headers (H2, H3) for organization
- Include bullet points for key takeaways
- Cite sources when mentioning statistics or research
"
|}.

(** ** The helpers imported from [utils] *)

Record Metadata := {
  md_title : string;
  md_date : string;
  md_keywords : list string;
  md_sources : list string
}.

(** The module [utils] is not part of the sources at hand; its functions
    are parameters of the development, taken to return without raising. *)
Record Utils := {
  calculate_quality_score : string -> Q;
  compact_research_context : list string -> string;
  format_research_brief : string -> string -> list string -> ResearchBrief;
  format_output_article : string -> Metadata -> string
}.

Record MetaTags := { mt_title : string; mt_description : string }.

(** The facts [EditorAgent.generate_final_report] puts into its text. *)
Record Report := {
  rp_iterations : nat;
  rp_score : Q;
  rp_approved : bool;
  rp_strengths : list string;
  rp_word_count : nat;
  rp_structure : bool;
  rp_seo_optimized : bool
}.

(** What [run_blog_pipeline] hands to the file system and prints. *)
Record Published := {
  final_draft : string;
  metadata : Metadata;
  final_article : string;
  draft_iterations : nat;
  editor_reviews : nat;
  quality_score : Q;
  report : Report
}.

(** [len(s.split())] *)
Fixpoint count_words_from (inside : bool) (s : string) : nat :=
  match s with
  | EmptyString => 0
  | String c s' =>
      if Str.isspace c then count_words_from false s'
      else (if inside then 0 else 1) + count_words_from true s'
  end.

Definition count_words (s : string) : nat := count_words_from false s.

Section Agents.

Variable client : Client.
Variable cfg : Config.
Variable utils : Utils.

(** *** [agents/researcher.py] *)

(** The sources read off the grounding metadata of a candidate. *)
Definition extract_sources (candidate : Candidate) : list string :=
  match grounding_metadata candidate with
  | Some grounding =>
      (if search_entry_point grounding then ["Google Search"] else [])
      ++ match grounding_chunks grounding with
         | Some chunks =>
             omap (fun chunk =>
                     match chunk with
                     | Some web => Some (default "Web Source" (uri web))
                     | None => None
                     end) (firstn 5 chunks)
         | None => []
         end
  | None => []
  end.

Definition _fallback_research (topic : string) : M ResearchBrief :=
  try_except
    (let* findings := call_client (generate_content client) in
     ret (format_research_brief utils topic findings
            ["Model Training Data (Pre-2023)"]))
    (fun e =>
       ret {| rb_topic := topic;
              findings := "Research on " +:+ topic +:+ " - please provide manual input";
              key_points := [];
              sources := [];
              timestamp := "2025-11-29" |}).

Definition research (topic : string) : M ResearchBrief :=
  try_except
    (let* response := call_client (generate_content_search client) in
     let* candidate := lift (index_first (candidates response)) in
     let findings :=
       foldl (fun acc text => if Str.nonempty text then acc +:+ text else acc)
             EmptyString (parts candidate) in
     let sources := extract_sources candidate in
     let compacted_findings := compact_research_context utils [findings] in
     let research_brief :=
       format_research_brief utils topic compacted_findings sources in
     Memory.store_research research_brief ;;;
     ret research_brief)
    (fun e =>
       let* fallback_brief := _fallback_research topic in
       Memory.store_research fallback_brief ;;;
       ret fallback_brief).

(** *** [agents/writer.py] *)

Definition _create_initial_draft (research : option ResearchBrief)
    (style_guide : string) : M string :=
  let topic :=
    match research with Some r => rb_topic r | None => "Unknown Topic" end in
  try_except
    (let* draft := call_client (generate_content client) in
     ret draft)
    (fun e =>
       ret ("# " +:+ topic +:+ NL +:+ NL
            +:+ "[Draft generation failed: " +:+ exn_str e +:+ "]")).

Definition _revise_draft (feedback : loc) (style_guide : string) : M string :=
  let* current_draft := Memory.get_latest_draft in
  let* research := Memory.get_research in
  let* fb := load feedback in
  try_except
    (let* revised_draft := call_client (generate_content client) in
     ret revised_draft)
    (fun e => ret current_draft).

(** [if editor_feedback:] holds for a dict that is not empty. *)
Definition write_draft (editor_feedback : option loc) : M string :=
  let* research := Memory.get_research in
  let* style_guide := read_memory style_guide in
  match editor_feedback with
  | Some feedback =>
      let* fb := load feedback in
      if bool_decide (size fb = 0)
      then _create_initial_draft research style_guide
      else _revise_draft feedback style_guide
  | None => _create_initial_draft research style_guide
  end.

(** *** [agents/seo_agent.py] *)

Definition _identify_keywords (topic draft : string) : M (list string) :=
  try_except
    (let* text := call_client (generate_content client) in
     let keywords_text := Str.strip text in
     let keywords := Str.strip <$> Str.split ","%char keywords_text in
     ret (firstn 10 keywords))
    (fun e => ret [Str.lower topic; "blog"; "guide"; "tutorial"]).

Definition _optimize_content (draft : string) (keywords : list string)
    (topic : string) : M string :=
  try_except
    (let* optimized := call_client (generate_content client) in
     ret optimized)
    (fun e => ret draft).

Definition optimize (draft topic : string) : M string :=
  let* keywords := _identify_keywords topic draft in
  let* optimized_draft := _optimize_content draft keywords topic in
  Memory.store_seo_data
    {| keywords := keywords; seo_topic := topic; optimized := true |} ;;;
  ret optimized_draft.

Definition meta_line (meta_data : MetaTags) (line : string) : MetaTags :=
  if Str.startswith line "TITLE:" then
    {| mt_title := Str.strip (Str.replace "TITLE:" "" line);
       mt_description := mt_description meta_data |}
  else if Str.startswith line "DESCRIPTION:" then
    {| mt_title := mt_title meta_data;
       mt_description := Str.strip (Str.replace "DESCRIPTION:" "" line) |}
  else meta_data.

Definition generate_meta_tags (draft : string) (keywords : list string)
    (topic : string) : M MetaTags :=
  try_except
    (let* result := call_client (generate_content client) in
     let lines := Str.split LF result in
     ret (foldl meta_line {| mt_title := topic; mt_description := "" |} lines))
    (fun e =>
       ret {| mt_title := topic;
              mt_description :=
                "Learn about " +:+ topic +:+ " in this comprehensive guide." |}).

(** *** [agents/editor.py] *)

Definition _detailed_review (draft : string) : M loc :=
  let* research := Memory.get_research in
  let* style_guide := read_memory style_guide in
  try_except
    (let* review_text := call_client (generate_content client) in
     let* feedback := lift (Parser._parse_review review_text) in
     alloc feedback)
    (fun e =>
       alloc {[ "score" := VFloat 6;
                "issues" := VList ["Review error: " +:+ exn_str e];
                "suggestions" := VList ["Manual review recommended"];
                "strengths" := VList [] ]}).

Definition review (draft : string) : M (bool * loc) :=
  let* count := Memory.get_feedback_count in
  let iteration := count + 1 in
  let basic_score := calculate_quality_score utils draft in
  let* detailed_feedback := _detailed_review draft in
  let* fb := load detailed_feedback in
  let* ai_score := lift (as_float (dict_get fb "score" (VFloat 5))) in
  let final_score := Qred ((basic_score + ai_score) / 2) in
  setitem detailed_feedback "score" (VFloat final_score) ;;;
  setitem detailed_feedback "iteration" (VInt iteration) ;;;
  Memory.add_editor_feedback detailed_feedback ;;;
  let approved := Qle_bool (QUALITY_THRESHOLD cfg) final_score in
  if approved then ret (true, detailed_feedback)
  else if MAX_EDITOR_ITERATIONS cfg <=? iteration
       then ret (true, detailed_feedback)
       else ret (approved, detailed_feedback).

Definition strengths_of (v : value) : outcome (list string) :=
  match v with
  | VList l => Ok l
  | _ => Raise (Exn TypeError "object is not iterable")
  end.

Definition generate_final_report : M Report :=
  let* iterations := Memory.get_feedback_count in
  let* final_feedback := Memory.get_latest_feedback in
  let* fb := load final_feedback in
  let* score := lift (as_float (dict_get fb "score" (VInt 0))) in
  let* strengths := lift (strengths_of (dict_get fb "strengths" (VList ["N/A"]))) in
  let* latest := Memory.get_latest_draft in
  let* seo := Memory.get_seo_data in
  ret {| rp_iterations := iterations;
         rp_score := score;
         rp_approved := Qle_bool (QUALITY_THRESHOLD cfg) score;
         rp_strengths := strengths;
         rp_word_count := count_words latest;
         rp_structure := Str.contains latest "##";
         rp_seo_optimized := match seo with Some _ => true | None => false end |}.

End Agents.

(** ** [main.py]: the pipeline controller *)

Section Pipeline.

Variable client : Client.
Variable cfg : Config.
Variable utils : Utils.

(** One round of the review loop: the body of the [while]. *)
Definition review_round : M bool :=
  let* current_draft := Memory.get_latest_draft in
  let* '(approved, feedback) := review client cfg utils current_draft in
  (if negb approved
   then let* revised_draft := write_draft client (Some feedback) in
        Memory.add_draft revised_draft
   else ret tt) ;;;
  ret approved.

(** [while not approved and iteration < config.MAX_EDITOR_ITERATIONS],
    run for at most [fuel] rounds. *)
Fixpoint review_loop (fuel : nat) (approved : bool) (iteration : nat)
    : M (bool * nat) :=
  if negb approved && (iteration <? MAX_EDITOR_ITERATIONS cfg) then
    match fuel with
    | O => fun w => (OutOfFuel, w)
    | S fuel' =>
        let iteration := iteration + 1 in
        let* approved := review_round in
        review_loop fuel' approved iteration
    end
  else ret (approved, iteration).

(** Stage 5, up to the text handed to the file system. *)
Definition final_output (topic : string) (research_brief : ResearchBrief)
    : M Published :=
  let* final_draft := Memory.get_latest_draft in
  let* seo_data := Memory.get_seo_data in
  let seo_keywords :=
    match seo_data with Some d => keywords d | None => [] end in
  let* meta_tags := generate_meta_tags client final_draft seo_keywords topic in
  let metadata :=
    {| md_title := mt_title meta_tags;
       md_date := "2025-11-29";
       md_keywords := seo_keywords;
       md_sources := sources research_brief |} in
  let final_article := format_output_article utils final_draft metadata in
  let* all_drafts := Memory.get_all_drafts in
  let* reviews := Memory.get_feedback_count in
  let* latest_feedback := Memory.get_latest_feedback in
  let* fb := load latest_feedback in
  let* score := lift (as_float (dict_get fb "score" (VInt 0))) in
  let* report := generate_final_report cfg in
  ret {| final_draft := final_draft;
         metadata := metadata;
         final_article := final_article;
         draft_iterations := length all_drafts;
         editor_reviews := reviews;
         quality_score := score;
         report := report |}.

(** The stages of [run_blog_pipeline], on the memory bank it created.  The
    construction of the four agents, which comes before the [try], is not
    modelled. *)
Definition pipeline (fuel : nat) (topic : string) : M Published :=
  let* research_brief := research client utils topic in
  let* initial_draft := write_draft client None in
  Memory.add_draft initial_draft ;;;
  let* optimized_draft := optimize client initial_draft topic in
  Memory.add_draft optimized_draft ;;;
  let* '(approved, iteration) := review_loop fuel false 0 in
  final_output topic research_brief.

(** [style_guide or config.DEFAULT_STYLE_GUIDE] *)
Definition style_or_default (style_guide : option string) : string :=
  match style_guide with
  | Some s => if Str.nonempty s then s else DEFAULT_STYLE_GUIDE cfg
  | None => DEFAULT_STYLE_GUIDE cfg
  end.

(** The world at the start of a run: a fresh memory bank, no feedback
    record allocated, no call made. *)
Definition initial_world (style_guide : string) : World :=
  {| heap := [];
     memory := Memory.init style_guide;
     calls := 0;
     log := [observe [] (Memory.init style_guide)] |}.

(** [run_blog_pipeline(topic, style_guide)].  An outcome [Raise] is the
    branch that prints the failure and exits. *)
Definition run_blog_pipeline (fuel : nat) (topic : string)
    (style_guide : option string) : outcome Published * World :=
  pipeline fuel topic (initial_world (style_or_default style_guide)).

End Pipeline.

(** ** [main_adk.py]: the name of the output file *)

(** [sanitize_filename(topic)] *)
Definition sanitize_filename (topic : string) : string :=
  let safe_name :=
    Str.filter (fun c => Str.isalnum c || Ascii.eqb c " " || Ascii.eqb c "-") topic in
  let safe_name := Str.lower (Str.replace " " "-" (Str.strip safe_name)) in
  Str.take 100 safe_name.

(** ** Notions used to state the properties *)

(** A line the parser recognises as a label: a [SCORE:] line or one of the
    three section headers. *)
Definition is_header_line (raw : string) : bool :=
  let line := Str.strip raw in
  Str.startswith line "SCORE:"
  || String.eqb line "ISSUES:"
  || String.eqb line "SUGGESTIONS:"
  || String.eqb line "STRENGTHS:".

Definition no_header_lines (review_text : string) : bool :=
  forallb (fun raw => negb (is_header_line raw)) (Str.split LF review_text).

(** A feedback record with the four keys of the parser. *)
Definition mk_feedback (score : Q) (issues suggestions strengths : list string)
    : dict :=
  {[ "score" := VFloat score;
     "issues" := VList issues;
     "suggestions" := VList suggestions;
     "strengths" := VList strengths ]}.

Definition all_digits (s : string) : bool :=
  forallb Str.isdigit (list_ascii_of_string s).

Definition no_digit (s : string) : bool :=
  forallb (fun c => negb (Str.isdigit c)) (list_ascii_of_string s).

(** The text does not go on with a digit. *)
Definition stops_number (s : string) : bool :=
  match s with
  | String c _ => negb (Str.isdigit c)
  | EmptyString => true
  end.

(** The number a decimal numeral [int.frac] denotes. *)
Definition decimal (int frac : string) : Q :=
  Qred (Z.of_N (Str.digits_value 0 (int +:+ frac))
        # Z.to_pos (10 ^ Z.of_nat (String.length frac))).

(** What holds of the parser's variables throughout its loop. *)
Definition pinv (st : Parser.pstate) : Prop :=
  (exists q l1 l2 l3, st.1 = mk_feedback q l1 l2 l3)
  /\ (st.2 = None \/ st.2 = Some "issues"
      \/ st.2 = Some "suggestions" \/ st.2 = Some "strengths").

(** A later observation extends an earlier one: what was stored is still
    there, unchanged and in place, possibly followed by more. *)
Definition extends (o o' : Observation) : Prop :=
  obs_drafts o `prefix_of` obs_drafts o'
  /\ obs_feedback o `prefix_of` obs_feedback o'.

(** A log, latest observation first, in which every observation extends
    the one made before it. *)
Fixpoint chain (l : list Observation) : Prop :=
  match l with
  | [] => True
  | o' :: rest =>
      match rest with
      | [] => True
      | o :: _ => extends o o'
      end /\ chain rest
  end.

(** A feedback record whose score is a number and whose strengths are a
    list, when present: what the final stage reads. *)
Definition well_typed (d : dict) : Prop :=
  (exists q, as_float (dict_get d "score" (VInt 0)) = Ok q)
  /\ (exists l, strengths_of (dict_get d "strengths" (VList ["N/A"])) = Ok l).

(** A world as the agents keep it: the feedback history refers to
    allocated records only, these records are well typed, the log is a
    chain, and its latest entry is what the store shows now. *)
Record wf (w : World) : Prop := {
  wf_refs : Forall (fun l => l < length (heap w)) (editor_feedback (memory w));
  wf_typed : Forall well_typed (obs_feedback (observe (heap w) (memory w)));
  wf_chain : chain (log w);
  wf_head : head (log w) = Some (observe (heap w) (memory w))
}.

(** [wp m post w]: run from [w], [m] ends in a well-formed world whose
    log continues the log of [w], with an outcome and a world that
    satisfy [post]. *)
Definition wp {A} (m : M A) (post : outcome A -> World -> Prop) (w : World) : Prop :=
  wf (m w).2 /\ log w `suffix_of` log (m w).2 /\ post (m w).1 (m w).2.

(** The computation ends normally, with a value and a world that satisfy
    [post]. *)
Definition returns {A} (post : A -> World -> Prop) : outcome A -> World -> Prop :=
  fun o w' => exists a, o = Ok a /\ post a w'.

(** [self.drafts[-1] if self.drafts else ""], as a value. *)
Definition latest_draft (m : MemoryBank) : string := default EmptyString (last (drafts m)).

(** The record [_detailed_review] builds when the client fails. *)
Definition failed_review (reason : string) : dict :=
  {[ "score" := VFloat 6;
     "issues" := VList ["Review error: " +:+ reason];
     "suggestions" := VList ["Manual review recommended"];
     "strengths" := VList [] ]}.

(** The record [_detailed_review] builds from the client's answer. *)
Definition detailed_feedback (a : answer string) : dict :=
  match a with
  | Answer review_text =>
      match Parser._parse_review review_text with
      | Ok fb => fb
      | _ => ∅
      end
  | Failure reason => failed_review reason
  end.

(** The score [review] reads from that record. *)
Definition ai_score (a : answer string) : Q :=
  match as_float (dict_get (detailed_feedback a) "score" (VFloat 5)) with
  | Ok q => q
  | _ => 5
  end.

(** The combined score of a draft, given the client's answer. *)
Definition combined_score (utils : Utils) (draft : string) (a : answer string) : Q :=
  Qred ((calculate_quality_score utils draft + ai_score a) / 2).

(** The record a review stores. *)
Definition reviewed_feedback (utils : Utils) (draft : string) (a : answer string)
    (iteration : nat) : dict :=
  <["iteration" := VInt iteration]>
    (<["score" := VFloat (combined_score utils draft a)]> (detailed_feedback a)).

(** The memory bank after each of its writes. *)
Definition set_research (data : ResearchBrief) (self : MemoryBank) : MemoryBank :=
  {| style_guide := style_guide self;
     research_data := Some data;
     drafts := drafts self;
     seo_data := seo_data self;
     editor_feedback := editor_feedback self |}.

Definition push_draft (draft : string) (self : MemoryBank) : MemoryBank :=
  {| style_guide := style_guide self;
     research_data := research_data self;
     drafts := drafts self ++ [draft];
     seo_data := seo_data self;
     editor_feedback := editor_feedback self |}.

Definition set_seo (data : SeoData) (self : MemoryBank) : MemoryBank :=
  {| style_guide := style_guide self;
     research_data := research_data self;
     drafts := drafts self;
     seo_data := Some data;
     editor_feedback := editor_feedback self |}.

Definition push_feedback (feedback : loc) (self : MemoryBank) : MemoryBank :=
  {| style_guide := style_guide self;
     research_data := research_data self;
     drafts := drafts self;
     seo_data := seo_data self;
     editor_feedback := editor_feedback self ++ [feedback] |}.

(** The brief the researcher returns when both of its calls fail. *)
Definition placeholder_brief (topic : string) : ResearchBrief :=
  {| rb_topic := topic;
     findings := "Research on " +:+ topic +:+ " - please provide manual input";
     key_points := [];
     sources := [];
     timestamp := "2025-11-29" |}.

(** The brief of [_fallback_research], given the client's answer. *)
Definition fallback_brief (utils : Utils) (topic : string) (a : answer string)
    : ResearchBrief :=
  match a with
  | Answer text =>
      format_research_brief utils topic text ["Model Training Data (Pre-2023)"]
  | Failure _ => placeholder_brief topic
  end.

(** The draft the writer returns in place of a first draft it could not get. *)
Definition placeholder_draft (topic reason : string) : string :=
  "# " +:+ topic +:+ NL +:+ NL +:+ "[Draft generation failed: " +:+ reason +:+ "]".

(** [research.get('topic', 'Unknown Topic')] *)
Definition topic_of (research : option ResearchBrief) : string :=
  match research with
  | Some r => rb_topic r
  | None => "Unknown Topic"
  end.

(** What [_create_initial_draft] returns, given the client's answer. *)
Definition initial_draft_text (research : option ResearchBrief) (a : answer string)
    : string :=
  match a with
  | Answer draft => draft
  | Failure reason => placeholder_draft (topic_of research) reason
  end.

(** What [_revise_draft] returns, given the client's answer. *)
Definition revised_draft_text (m : MemoryBank) (a : answer string) : string :=
  match a with
  | Answer draft => draft
  | Failure _ => latest_draft m
  end.

(** The keywords of [_identify_keywords], given the client's answer. *)
Definition keywords_of (topic : string) (a : answer string) : list string :=
  match a with
  | Answer text => firstn 10 (Str.strip <$> Str.split ","%char (Str.strip text))
  | Failure _ => [Str.lower topic; "blog"; "guide"; "tutorial"]
  end.

(** What [_optimize_content] returns, given the client's answer. *)
Definition optimized_text (draft : string) (a : answer string) : string :=
  match a with
  | Answer optimized => optimized
  | Failure _ => draft
  end.

(** The decision of a review. *)
Definition approves (cfg : Config) (utils : Utils) (draft : string)
    (a : answer string) (iteration : nat) : bool :=
  Qle_bool (QUALITY_THRESHOLD cfg) (combined_score utils draft a)
  || (MAX_EDITOR_ITERATIONS cfg <=? iteration).

(** What the final stage publishes, read off the memory bank. *)
Definition published (utils : Utils) (pub : Published) (m : MemoryBank) : Prop :=
  final_draft pub = latest_draft m
  /\ final_article pub
     = format_output_article utils (final_draft pub) (metadata pub)
  /\ draft_iterations pub = length (drafts m)
  /\ editor_reviews pub = length (editor_feedback m)
  /\ rp_iterations (report pub) = length (editor_feedback m).

(** The store when the review loop starts: the brief, the first draft,
    the SEO record and the optimized draft are in, and nothing else has
    changed since [w]. *)
Definition prepared (client : Client) (utils : Utils) (topic : string)
    (brief : ResearchBrief) (w w' : World) : Prop :=
  exists n1 n2 n3,
    let initial_draft := initial_draft_text (Some brief) (generate_content client n1) in
    let seo := {| keywords := keywords_of topic (generate_content client n2);
                  seo_topic := topic;
                  optimized := true |} in
    let optimized_draft := optimized_text initial_draft (generate_content client n3) in
    heap w' = heap w
    /\ memory w'
       = push_draft optimized_draft
           (set_seo seo (push_draft initial_draft (set_research brief (memory w))))
    /\ forall reason,
         generate_content_search client (calls w) = Failure reason ->
         brief = fallback_brief utils topic (generate_content client (S (calls w))).

(** The invariant of the review loop that counts the reviews: [before]
    records were in the history when the loop started, [i] rounds have
    been made, and [approved] is the last decision. *)
Definition counts (cfg : Config) (before : nat) (approved : bool) (i : nat)
    (w : World) : Prop :=
  length (editor_feedback (memory w)) = before + i
  /\ i <= MAX_EDITOR_ITERATIONS cfg
  /\ (approved = false -> i < MAX_EDITOR_ITERATIONS cfg)
  /\ (approved = true -> 1 <= i).

(** Every review of the run scores below the threshold. *)
Definition all_below (client : Client) (cfg : Config) (utils : Utils) : Prop :=
  forall n draft,
    Qle_bool (QUALITY_THRESHOLD cfg)
      (combined_score utils draft (generate_content client n)) = false.

(** The invariant of the loop when every review scores below the
    threshold: approval comes with the last round of the budget. *)
Definition forced (cfg : Config) (approved : bool) (i : nat) (w : World) : Prop :=
  length (editor_feedback (memory w)) = i
  /\ i <= MAX_EDITOR_ITERATIONS cfg
  /\ (approved = true <-> i = MAX_EDITOR_ITERATIONS cfg).

(** The invariant of the loop that bounds the history. *)
Definition bounded (cfg : Config) (approved : bool) (i : nat) (w : World) : Prop :=
  length (editor_feedback (memory w)) = i /\ i <= MAX_EDITOR_ITERATIONS cfg.

(** Every call of the client fails. *)
Definition always_fails (client : Client) : Prop :=
  (forall n, exists reason, generate_content client n = Failure reason)
  /\ (forall n, exists reason, generate_content_search client n = Failure reason).

(** The invariant of the loop when the client always fails: the latest
    draft stays the placeholder of the first draft. *)
Definition stuck (topic : string) (approved : bool) (i : nat) (w : World) : Prop :=
  (exists reason, latest_draft (memory w) = placeholder_draft topic reason)
  /\ research_data (memory w) = Some (placeholder_brief topic).

(** Modelled from the spec: [format_output_article] of the absent module
    [utils].  The published artifact is a leading metadata block followed
    by the body. *)
Definition body_follows_metadata (utils : Utils) : Prop :=
  forall body meta,
    exists block, format_output_article utils body meta = block +:+ body.

(** The world once a first draft is stored in a new memory bank. *)
Definition drafted_world (draft : string) : World :=
  (Memory.add_draft draft (initial_world EmptyString)).2.

(** ** Sample collaborators *)

(** A client whose every call fails. *)
Definition failing_client : Client :=
  {| generate_content := fun _ => Failure "model unavailable";
     generate_content_search := fun _ => Failure "search quota exceeded" |}.

(** A client that gives the same text to every call, and no search
    candidate. *)
Definition constant_client (text : string) : Client :=
  {| generate_content := fun _ => Answer text;
     generate_content_search := fun _ => Answer {| candidates := [] |} |}.

(** Helpers that score every text alike, keep the findings as they are and
    put the title before the body. *)
Definition sample_utils (score : Q) : Utils :=
  {| calculate_quality_score := fun _ => score;
     compact_research_context := fun texts => foldr String.append EmptyString texts;
     format_research_brief := fun topic findings sources =>
       {| rb_topic := topic; findings := findings; key_points := [];
          sources := sources; timestamp := "2025-11-29" |};
     format_output_article := fun body meta => (md_title meta +:+ NL) +:+ body |}.

(** A client that plays the scenario of two reviews: a search answer with
    two findings and three sources, a first draft, keywords, an optimized
    draft, a review that scores 5, a revision, a review that scores 9.4,
    and meta tags. *)
Definition scenario_client : Client :=
  {| generate_content := fun n =>
       match n with
       | 1 => Answer "## Remote work: first draft"
       | 2 => Answer " remote work , home office,flexibility "
       | 3 => Answer "## Remote work: optimized draft"
       | 4 => Answer ("SCORE: 5 out of 10" +:+ NL +:+ "ISSUES:" +:+ NL
                      +:+ "- too short" +:+ NL +:+ "STRENGTHS:" +:+ NL +:+ "- clear")
       | 5 => Answer "## Remote work: revised draft"
       | 6 => Answer ("SCORE: 9.4" +:+ NL +:+ "STRENGTHS:" +:+ NL +:+ "- thorough")
       | 7 => Answer ("TITLE: Benefits of Remote Work" +:+ NL
                      +:+ "DESCRIPTION: Why it works.")
       | _ => Failure "no more answers"
       end;
     generate_content_search := fun _ =>
       Answer {| candidates :=
                   [{| parts := ["Finding A. "; ""; "Finding B."];
                       grounding_metadata :=
                         Some {| search_entry_point := true;
                                 grounding_chunks :=
                                   Some [Some {| uri := Some "https://example.org/a" |};
                                         None;
                                         Some {| uri := None |}] |} |}] |} |}.

(** ** Notions used for the further properties *)

(** Every character of [s] satisfies [p]. *)
Definition all_chars (p : ascii -> bool) (s : string) : bool :=
  forallb p (list_ascii_of_string s).

(** A list item as the parser keeps it: not empty, and without white space
    at either end. *)
Definition clean (item : string) : Prop :=
  Str.strip item = item /\ item <> EmptyString.

(** A line the parser passes over whatever its state: neither a label nor
    a dash item. *)
Definition is_prose_line (raw : string) : bool :=
  negb (is_header_line raw) && negb (Str.startswith (Str.strip raw) "- ").

(** The text has no line feed. *)
Definition one_line (s : string) : bool :=
  all_chars (fun c => negb (Ascii.eqb c LF)) s.

(** The invariant of the parser's loop, with what it keeps of the score
    and of the items. *)
Definition pclean (st : Parser.pstate) : Prop :=
  (exists q l1 l2 l3,
     st.1 = mk_feedback q l1 l2 l3 /\ (0 <= q)%Q
     /\ Forall clean l1 /\ Forall clean l2 /\ Forall clean l3)
  /\ (st.2 = None \/ st.2 = Some "issues"
      \/ st.2 = Some "suggestions" \/ st.2 = Some "strengths").

(** A character of a sanitized file name: a lower-case letter or a digit
    of [isalnum], or a hyphen. *)
Definition safe_char (c : ascii) : bool :=
  (Str.isalnum c && Ascii.eqb (Str.lower_char c) c) || Ascii.eqb c "-".

(** A character that is no path separator, dot or white space. *)
Definition path_neutral (c : ascii) : bool :=
  negb (Ascii.eqb c "/") && negb (Ascii.eqb c "\")
  && negb (Ascii.eqb c ".") && negb (Str.isspace c).

(** A world that holds one empty record, as [{}] passed for a feedback. *)
Definition empty_record_world : World := (alloc ∅ (initial_world EmptyString)).2.

(** What [generate_meta_tags] returns, given the client's answer. *)
Definition meta_tags_of (topic : string) (a : answer string) : MetaTags :=
  match a with
  | Answer result =>
      foldl meta_line {| mt_title := topic; mt_description := "" |}
        (Str.split LF result)
  | Failure _ =>
      {| mt_title := topic;
         mt_description :=
           "Learn about " +:+ topic +:+ " in this comprehensive guide." |}
  end.

(** The text the researcher makes of the parts of a candidate. *)
Definition findings_of (candidate : Candidate) : string :=
  foldl (fun acc text => if Str.nonempty text then acc +:+ text else acc)
        EmptyString (parts candidate).

(** The records of the feedback history carry the numbers 1, 2, 3, ... of
    their rounds, in order. *)
Definition numbered (w : World) : Prop :=
  forall j d,
    obs_feedback (observe (heap w) (memory w)) !! j = Some d ->
    d !! "iteration" = Some (VInt (j + 1)).

(** The invariant of the loop that counts the calls of the client: [c0]
    calls were made when the loop started; a round that approves makes
    one call, a round that sends the draft back makes two. *)
Definition spends (cfg : Config) (c0 : nat) (approved : bool) (i : nat)
    (w : World) : Prop :=
  counts cfg 0 approved i w
  /\ calls w + (if approved then 1 else 0) = c0 + 2 * i.

(** [response.candidates[0]], when the search answers and has a candidate. *)
Definition first_candidate (a : answer GroundedResponse) : option Candidate :=
  match a with
  | Answer response => head (candidates response)
  | Failure _ => None
  end.

(** The calls the researcher makes: one when the search gives a candidate,
    two when it has to fall back. *)
Definition research_cost (a : answer GroundedResponse) : nat :=
  match first_candidate a with Some _ => 1 | None => 2 end.

(** No line of the text starts with the label. *)
Definition no_line_starts (label text : string) : bool :=
  forallb (fun line => negb (Str.startswith line label)) (Str.split LF text).

(** The invariant of the loop that counts the drafts: two drafts were
    stored when the loop started; a round that sends the draft back adds
    one. *)
Definition drafts_grow (cfg : Config) (approved : bool) (i : nat) (w : World)
    : Prop :=
  counts cfg 0 approved i w
  /\ length (drafts (memory w)) + (if approved then 1 else 0) = 2 + i.

(** The default configuration with another budget of reviews. *)
Definition config_of_budget (max_iterations : nat) : Config :=
  {| MAX_EDITOR_ITERATIONS := max_iterations;
     QUALITY_THRESHOLD := QUALITY_THRESHOLD config;
     DEFAULT_STYLE_GUIDE := DEFAULT_STYLE_GUIDE config |}.

(** The section a line opens, when it is one of the three headers. *)
Definition header_section (raw : string) : option string :=
  let line := Str.strip raw in
  if String.eqb line "ISSUES:" then Some "issues"
  else if String.eqb line "SUGGESTIONS:" then Some "suggestions"
  else if String.eqb line "STRENGTHS:" then Some "strengths"
  else None.

(** The section opened most recently by the lines read so far, if any. *)
Definition last_opened (lines : list string) : option string :=
  last (omap header_section lines).

(** The world after a first review whose call has failed. *)
Definition reviewed_world : World :=
  (review failing_client config (sample_utils 5) "# A draft"
     (drafted_world "# A draft")).2.

(** * Properties *)

(** ** The feedback parser *)

(** Equality of two records with the four keys of the parser, key by key. *)
Ltac map_keys k :=
  apply map_eq; intros k;
  destruct (decide (k = "score")) as [->|];
  [|destruct (decide (k = "issues")) as [->|];
    [|destruct (decide (k = "suggestions")) as [->|];
      [|destruct (decide (k = "strengths")) as [->|]]]];
  simplify_map_eq; done.

Section ParserFacts.

Import Parser.

Lemma float_runs (s : string) : Str.float s <> OutOfFuel.
Proof.
  unfold Str.float.
  destruct (Str.span Str.isdigit s) as [d1 r].
  destruct d1; [discriminate|].
  destruct r as [|c r']; [discriminate|].
  destruct (Ascii.eqb_spec c "."%char) as [->|Hc].
  - destruct (Str.span Str.isdigit r') as [d2 rest].
    destruct rest; discriminate.
  - destruct c as [[] [] [] [] [] [] [] []]; try discriminate.
    exfalso. by apply Hc.
Qed.

Lemma read_score_runs (fb : dict) (line : string) :
  exists fb', otry (read_score fb line) (fun _ => Ok fb) = Ok fb'
    /\ (fb' = fb \/ exists q, fb' = <["score" := VFloat q]> fb).
Proof.
  unfold read_score.
  destruct (Str.re_search_number _) as [tok|]; [|by eauto].
  pose proof (float_runs tok) as Hf.
  destruct (Str.float tok) as [q|e|]; simpl; [eauto|eauto|done].
Qed.

Lemma mk_feedback_score q q' l1 l2 l3 :
  <["score" := VFloat q']> (mk_feedback q l1 l2 l3) = mk_feedback q' l1 l2 l3.
Proof. unfold mk_feedback. by rewrite insert_insert_eq. Qed.

Lemma mk_feedback_issues q l1 l1' l2 l3 :
  <["issues" := VList l1']> (mk_feedback q l1 l2 l3) = mk_feedback q l1' l2 l3.
Proof.
  unfold mk_feedback. map_keys k.
Qed.

Lemma mk_feedback_suggestions q l1 l2 l2' l3 :
  <["suggestions" := VList l2']> (mk_feedback q l1 l2 l3) = mk_feedback q l1 l2' l3.
Proof.
  unfold mk_feedback. map_keys k.
Qed.

Lemma mk_feedback_strengths q l1 l2 l3 l3' :
  <["strengths" := VList l3']> (mk_feedback q l1 l2 l3) = mk_feedback q l1 l2 l3'.
Proof.
  unfold mk_feedback. map_keys k.
Qed.

Lemma append_item_runs q l1 l2 l3 sec item :
  sec = "issues" \/ sec = "suggestions" \/ sec = "strengths" ->
  exists l1' l2' l3',
    append_item (mk_feedback q l1 l2 l3) sec item = Ok (mk_feedback q l1' l2' l3').
Proof.
  intros [->|[->| ->]]; unfold append_item, getitem.
  - exists (l1 ++ [item]), l2, l3.
    replace (mk_feedback q l1 l2 l3 !! "issues") with (Some (VList l1)) by done.
    simpl. by rewrite mk_feedback_issues.
  - exists l1, (l2 ++ [item]), l3.
    replace (mk_feedback q l1 l2 l3 !! "suggestions") with (Some (VList l2)) by done.
    simpl. by rewrite mk_feedback_suggestions.
  - exists l1, l2, (l3 ++ [item]).
    replace (mk_feedback q l1 l2 l3 !! "strengths") with (Some (VList l3)) by done.
    simpl. by rewrite mk_feedback_strengths.
Qed.

Lemma parse_line_runs (st : pstate) (raw : string) :
  pinv st -> exists st', parse_line st raw = Ok st' /\ pinv st'.
Proof.
  destruct st as [fb cs]. intros [(q & l1 & l2 & l3 & Hfb) Hcs]. simpl in *. subst fb.
  unfold parse_line. cbv zeta.
  destruct (Str.startswith _ "SCORE:").
  { destruct (read_score_runs (mk_feedback q l1 l2 l3) (Str.strip raw))
      as (fb' & -> & Hfb').
    simpl. eexists; split; [done|]. split; [|done]. simpl.
    destruct Hfb' as [->|[q' ->]]; [by eauto|].
    rewrite mk_feedback_score. by eauto. }
  destruct (String.eqb _ "ISSUES:").
  { eexists; split; [done|]. split; simpl; eauto 10. }
  destruct (String.eqb _ "SUGGESTIONS:").
  { eexists; split; [done|]. split; simpl; eauto 10. }
  destruct (String.eqb _ "STRENGTHS:").
  { eexists; split; [done|]. split; simpl; eauto 10. }
  destruct (Str.startswith _ "- "); [|by (eexists; split; [done|]; split; simpl; eauto 10)].
  destruct (section_open cs) as [sec|] eqn:Hsec;
    [|by (eexists; split; [done|]; split; simpl; eauto 10)].
  destruct (Str.nonempty _);
    [|by (eexists; split; [done|]; split; simpl; eauto 10)].
  assert (sec = "issues" \/ sec = "suggestions" \/ sec = "strengths") as Hs.
  { destruct Hcs as [->|[->|[->| ->]]]; simpl in Hsec; simplify_eq; auto. }
  match goal with
  | |- context [append_item _ _ ?item] =>
      destruct (append_item_runs q l1 l2 l3 sec item Hs) as (l1' & l2' & l3' & ->)
  end.
  simpl. eexists; split; [done|]. split; simpl; eauto 10.
Qed.

Lemma parse_lines_runs (lines : list string) (st : pstate) :
  pinv st -> exists st', parse_lines st lines = Ok st' /\ pinv st'.
Proof.
  revert st. induction lines as [|raw rest IH]; intros st Hst; simpl.
  - eauto.
  - destruct (parse_line_runs st raw Hst) as (st1 & -> & Hst1). simpl. eauto.
Qed.

Lemma pinv_initial : pinv (initial_feedback, None).
Proof. split; simpl; [|by auto]. by exists 5%Q, [], [], []. Qed.

(** The parser answers on every text, with a record of the four keys. *)
Lemma _parse_review_runs (review_text : string) :
  exists q l1 l2 l3, _parse_review review_text = Ok (mk_feedback q l1 l2 l3).
Proof.
  unfold _parse_review.
  destruct (parse_lines_runs (Str.split LF review_text) _ pinv_initial)
    as ([fb cs] & -> & (q & l1 & l2 & l3 & Hfb) & _).
  simpl in *. subst. eauto.
Qed.

Lemma parse_line_skip (fb : dict) (raw : string) :
  is_header_line raw = false -> parse_line (fb, None) raw = Ok (fb, None).
Proof.
  unfold is_header_line, parse_line. intros H.
  repeat (apply orb_false_iff in H as [H ?]).
  rewrite H. repeat match goal with Heq : String.eqb _ _ = false |- _ =>
    rewrite Heq; clear Heq end.
  simpl. by destruct (Str.startswith _ "- ").
Qed.

Lemma parse_lines_skip (fb : dict) (lines : list string) :
  forallb (fun raw => negb (is_header_line raw)) lines = true ->
  parse_lines (fb, None) lines = Ok (fb, None).
Proof.
  induction lines as [|raw rest IH]; cbn [forallb parse_lines]; [done|].
  intros [Hraw Hrest]%andb_true_iff.
  apply negb_true_iff in Hraw.
  rewrite parse_line_skip by done. cbn [obind]. auto.
Qed.

End ParserFacts.

(** C4. The feedback parser answers on every input text, never raising;
    on a text without any recognised label line, and in particular on
    "no recognizable sections", it returns the default record: score 5.0
    and empty lists of issues, suggestions and strengths. *)
Theorem parser_tolerance (review_text : string) :
  (exists feedback, Parser._parse_review review_text = Ok feedback)
  /\ (no_header_lines review_text = true ->
      Parser._parse_review review_text = Ok (mk_feedback 5 [] [] []))
  /\ Parser._parse_review "no recognizable sections" = Ok (mk_feedback 5 [] [] []).
Proof.
  split; [|split].
  - destruct (_parse_review_runs review_text) as (q & l1 & l2 & l3 & H). eauto.
  - intros H. unfold Parser._parse_review.
    by rewrite parse_lines_skip.
  - vm_compute. exact eq_refl.
Qed.

Lemma parser_tolerance_witness :
  Parser._parse_review ("The draft reads well." +:+ NL +:+ "- nothing to add")
  = Ok (mk_feedback 5 [] [] []).
Proof.
  apply (proj1 (proj2 (parser_tolerance
           ("The draft reads well." +:+ NL +:+ "- nothing to add")))).
  vm_compute. reflexivity.
Defined.

(** ** Reading the score and the list items *)

Section ScoreFacts.

Lemma append_nil_l (s : string) : "" +:+ s = s.
Proof. reflexivity. Qed.

Lemma append_cons (c : ascii) (s t : string) :
  String c s +:+ t = String c (s +:+ t).
Proof. reflexivity. Qed.

Lemma append_nil_r (s : string) : s +:+ "" = s.
Proof. induction s as [|c s IH]; [done|]. by rewrite append_cons, IH. Qed.

Lemma span_digits (d rest : string) :
  all_digits d = true -> stops_number rest = true ->
  Str.span Str.isdigit (d +:+ rest) = (d, rest).
Proof.
  unfold all_digits.
  induction d as [|c d IH]; rewrite ?append_nil_l, ?append_cons; intros Hd Hrest.
  - destruct rest as [|c rest]; [done|]. cbn [stops_number Str.span] in *.
    apply negb_true_iff in Hrest. by rewrite Hrest.
  - cbn [list_ascii_of_string forallb] in Hd. apply andb_true_iff in Hd as [Hc Hd].
    cbn [Str.span]. rewrite Hc, IH by done. done.
Qed.

Lemma span_digits_all (d : string) :
  all_digits d = true -> Str.span Str.isdigit d = (d, EmptyString).
Proof.
  intros Hd. pose proof (span_digits d EmptyString Hd eq_refl) as H.
  by rewrite append_nil_r in H.
Qed.

Lemma re_search_skip (pre s : string) :
  no_digit pre = true ->
  Str.re_search_number (pre +:+ s) = Str.re_search_number s.
Proof.
  unfold no_digit.
  induction pre as [|c pre IH]; rewrite ?append_nil_l, ?append_cons; [done|].
  cbn [list_ascii_of_string forallb Str.re_search_number].
  intros [Hc Hpre]%andb_true_iff. apply negb_true_iff in Hc.
  rewrite Hc. auto.
Qed.

Lemma re_search_at_digit (int rest : string) :
  Str.nonempty int = true -> all_digits int = true ->
  Str.re_search_number (int +:+ rest) = Some (Str.match_number (int +:+ rest)).
Proof.
  destruct int as [|c int]; [done|]. intros _ Hd.
  unfold all_digits in Hd. cbn [list_ascii_of_string forallb] in Hd.
  apply andb_true_iff in Hd as [Hc _].
  rewrite append_cons. cbn [Str.re_search_number]. by rewrite Hc.
Qed.

Lemma match_number_fraction (int frac rest : string) :
  all_digits int = true -> all_digits frac = true -> stops_number rest = true ->
  Str.match_number (int +:+ "." +:+ frac +:+ rest) = int +:+ "." +:+ frac.
Proof.
  intros Hint Hfrac Hrest. unfold Str.match_number.
  rewrite span_digits by done. rewrite append_cons, append_nil_l.
  by rewrite span_digits.
Qed.

Lemma match_number_integer (int rest : string) :
  all_digits int = true -> stops_number rest = true ->
  Str.startswith rest "." = false ->
  Str.match_number (int +:+ rest) = int.
Proof.
  intros Hint Hrest Hdot. unfold Str.match_number.
  rewrite span_digits by done.
  destruct rest as [|c rest]; [done|].
  destruct (Ascii.eqb_spec c "."%char) as [->|Hc].
  - by destruct rest.
  - by destruct c as [[] [] [] [] [] [] [] []].
Qed.

Lemma float_fraction (int frac : string) :
  Str.nonempty int = true -> all_digits int = true -> all_digits frac = true ->
  Str.float (int +:+ "." +:+ frac) = Ok (decimal int frac).
Proof.
  intros Hne Hint Hfrac. unfold Str.float.
  rewrite span_digits by done.
  destruct int as [|c int]; [done|].
  rewrite append_cons, append_nil_l. by rewrite span_digits_all.
Qed.

Lemma float_integer (int : string) :
  Str.nonempty int = true -> all_digits int = true ->
  Str.float int = Ok (inject_Z (Z.of_N (Str.digits_value 0 int))).
Proof.
  intros Hne Hint. unfold Str.float.
  rewrite span_digits_all by done. by destruct int.
Qed.

Lemma Qred_integer (z : Z) : Qred (inject_Z z) = inject_Z z.
Proof.
  unfold Qred, inject_Z.
  generalize (Z.ggcd_gcd z 1) (Z.ggcd_correct_divisors z 1).
  destruct (Z.ggcd z 1) as [g [aa bb]]. cbn [fst snd].
  rewrite Z.gcd_1_r. intros -> [Ha Hb].
  assert (aa = z) as -> by lia. by assert (bb = 1%Z) as -> by lia.
Qed.

Lemma decimal_integer (int : string) :
  decimal int "" = inject_Z (Z.of_N (Str.digits_value 0 int)).
Proof.
  unfold decimal. rewrite append_nil_r. cbn [String.length Z.of_nat].
  replace (Z.to_pos (10 ^ 0)) with 1%positive by done.
  apply Qred_integer.
Qed.

Lemma item_line_not_label (item : string) :
  Str.startswith ("- " +:+ item) "SCORE:" = false
  /\ String.eqb ("- " +:+ item) "ISSUES:" = false
  /\ String.eqb ("- " +:+ item) "SUGGESTIONS:" = false
  /\ String.eqb ("- " +:+ item) "STRENGTHS:" = false
  /\ Str.startswith ("- " +:+ item) "- " = true.
Proof. repeat split; by destruct item. Qed.

Lemma parse_line_score_fraction (fb : dict) (cs : option string)
    (raw pre int frac rest : string) :
  Str.startswith (Str.strip raw) "SCORE:" = true ->
  Str.strip (Str.replace "SCORE:" "" (Str.strip raw))
    = pre +:+ int +:+ "." +:+ frac +:+ rest ->
  no_digit pre = true -> Str.nonempty int = true ->
  all_digits int = true -> all_digits frac = true ->
  stops_number rest = true ->
  Parser.parse_line (fb, cs) raw
    = Ok (<["score" := VFloat (decimal int frac)]> fb, cs).
Proof.
  intros Hscore Htext Hpre Hne Hint Hfrac Hrest.
  unfold Parser.parse_line. rewrite Hscore.
  unfold Parser.read_score. rewrite Htext.
  rewrite re_search_skip, re_search_at_digit by done.
  rewrite match_number_fraction, float_fraction by done.
  done.
Qed.

Lemma parse_line_score_integer (fb : dict) (cs : option string)
    (raw pre int rest : string) :
  Str.startswith (Str.strip raw) "SCORE:" = true ->
  Str.strip (Str.replace "SCORE:" "" (Str.strip raw)) = pre +:+ int +:+ rest ->
  no_digit pre = true -> Str.nonempty int = true ->
  all_digits int = true -> stops_number rest = true ->
  Str.startswith rest "." = false ->
  Parser.parse_line (fb, cs) raw
    = Ok (<["score" := VFloat (decimal int "")]> fb, cs).
Proof.
  intros Hscore Htext Hpre Hne Hint Hrest Hdot.
  unfold Parser.parse_line. rewrite Hscore.
  unfold Parser.read_score. rewrite Htext.
  rewrite re_search_skip, re_search_at_digit by done.
  rewrite match_number_integer, float_integer by done.
  by rewrite decimal_integer.
Qed.

Lemma parse_line_label (fb : dict) (cs : option string) (raw : string) :
  (Str.strip raw = "ISSUES:" ->
   Parser.parse_line (fb, cs) raw = Ok (fb, Some "issues"))
  /\ (Str.strip raw = "SUGGESTIONS:" ->
      Parser.parse_line (fb, cs) raw = Ok (fb, Some "suggestions"))
  /\ (Str.strip raw = "STRENGTHS:" ->
      Parser.parse_line (fb, cs) raw = Ok (fb, Some "strengths")).
Proof. unfold Parser.parse_line. repeat split; by intros ->. Qed.

Lemma parse_line_item (fb : dict) (cs : option string) (sec : string)
    (items : list string) (raw item : string) :
  Parser.section_open cs = Some sec ->
  fb !! sec = Some (VList items) ->
  Str.strip raw = "- " +:+ item ->
  Str.nonempty (Str.strip item) = true ->
  Parser.parse_line (fb, cs) raw
    = Ok (<[sec := VList (items ++ [Str.strip item])]> fb, cs).
Proof.
  intros Hsec Hfb Hraw Hitem.
  unfold Parser.parse_line. rewrite Hraw.
  destruct (item_line_not_label item) as (-> & -> & -> & -> & ->).
  rewrite Hsec.
  replace (Str.drop 2 ("- " +:+ item)) with item by done.
  rewrite Hitem. unfold append_item, getitem. by rewrite Hfb.
Qed.

Lemma parse_line_item_dropped (fb : dict) (raw item : string) :
  Str.strip raw = "- " +:+ item ->
  Parser.parse_line (fb, None) raw = Ok (fb, None).
Proof.
  intros Hraw. unfold Parser.parse_line. rewrite Hraw.
  by destruct (item_line_not_label item) as (-> & -> & -> & -> & ->).
Qed.

End ScoreFacts.

(** ** Reasoning about runs *)

Section Observations.

#[local] Instance extends_refl : Reflexive extends.
Proof. by split. Qed.

#[local] Instance extends_trans : Transitive extends.
Proof. intros o1 o2 o3 [? ?] [? ?]. split; by etrans. Qed.

Lemma chain_cons (o : Observation) (l : list Observation) :
  chain l -> (forall o0, head l = Some o0 -> extends o0 o) -> chain (o :: l).
Proof. intros Hl Ho. destruct l as [|o0 l]; split; auto. Qed.

Lemma chain_tail (o : Observation) (l : list Observation) :
  chain (o :: l) -> chain l.
Proof. by intros [_ ?]. Qed.

Lemma chain_head (j : nat) (o1 : Observation) (l : list Observation)
    (o : Observation) :
  chain (o1 :: l) -> (o1 :: l) !! j = Some o -> extends o o1.
Proof.
  revert o1 l. induction j as [|j IH]; intros o1 l Hl Hj.
  - cbn in Hj. by injection Hj as ->.
  - destruct l as [|o2 l]; [done|].
    destruct Hl as [H21 Hl]. trans o2; [|done].
    by apply (IH o2 l).
Qed.

(** In a chain, an observation extends every observation made before. *)
Lemma chain_lookup (l : list Observation) (i j : nat) (o o' : Observation) :
  chain l -> i <= j -> l !! i = Some o' -> l !! j = Some o -> extends o o'.
Proof.
  revert l j. induction i as [|i IH]; intros l j Hl Hij Hi Hj.
  - destruct l as [|o1 l]; [done|]. cbn in Hi. injection Hi as ->.
    by eapply chain_head.
  - destruct j as [|j]; [lia|]. destruct l as [|o1 l]; [done|].
    apply (IH l j); [by eapply chain_tail|lia|done|done].
Qed.

Lemma deref_app (h : list dict) (d : dict) (l : loc) :
  l < length h -> deref (h ++ [d]) l = deref h l.
Proof. intros Hl. unfold deref. by rewrite lookup_app_l. Qed.

Lemma deref_insert_ne (h : list dict) (d : dict) (l l0 : loc) :
  l0 <> l -> deref (<[l := d]> h) l0 = deref h l0.
Proof. intros Hl. unfold deref. by rewrite list_lookup_insert_ne. Qed.

Lemma observe_app (h : list dict) (d : dict) (m : MemoryBank) :
  Forall (fun l => l < length h) (editor_feedback m) ->
  observe (h ++ [d]) m = observe h m.
Proof.
  intros Hrefs. unfold observe. f_equal.
  apply Forall_fmap_ext_1. eapply Forall_impl; [done|].
  intros l Hl. by apply deref_app.
Qed.

Lemma observe_insert (h : list dict) (d : dict) (l : loc) (m : MemoryBank) :
  Forall (fun l0 => l0 <> l) (editor_feedback m) ->
  observe (<[l := d]> h) m = observe h m.
Proof.
  intros Hrefs. unfold observe. f_equal.
  apply Forall_fmap_ext_1. eapply Forall_impl; [done|].
  intros l0 Hl. by apply deref_insert_ne.
Qed.

(** A write keeps the world well formed when the new store extends the
    old one and refers to allocated records only. *)
Lemma wf_write (h : list dict) (m : MemoryBank) (w : World) :
  wf w ->
  Forall (fun l => l < length h) (editor_feedback m) ->
  Forall well_typed (obs_feedback (observe h m)) ->
  extends (observe (heap w) (memory w)) (observe h m) ->
  wf (write h m w).
Proof.
  intros [Hrefs Htyped Hchain Hhead] Hrefs' Htyped' Hext.
  split; cbn [write heap memory log].
  - done.
  - done.
  - apply chain_cons; [done|]. intros o0 Ho0.
    rewrite Hhead in Ho0. by injection Ho0 as <-.
  - done.
Qed.

Lemma wf_next_call (w : World) : wf w -> wf (next_call w).
Proof. by intros [? ? ? ?]. Qed.

Lemma suffix_write (h : list dict) (m : MemoryBank) (w : World) :
  log w `suffix_of` log (write h m w).
Proof. by apply suffix_cons_r. Qed.

End Observations.

(** The three parts of a [wp] goal: the final world is well formed, its
    log continues the initial one, and the postcondition holds. *)
Ltac wp_parts := unfold wp; cbn [fst snd]; split; [|split].

Section Rules.

Context {A B : Type}.

Lemma wp_mono (m : M A) (pre post : outcome A -> World -> Prop) (w : World) :
  wp m pre w ->
  (forall o w', wf w' -> log w `suffix_of` log w' -> pre o w' -> post o w') ->
  wp m post w.
Proof. intros (Hwf & Hsuf & Hpre) Himp. split; [done|]. split; [done|]. by apply Himp. Qed.

Lemma wp_ret (a : A) (post : outcome A -> World -> Prop) (w : World) :
  wf w -> post (Ok a) w -> wp (ret a) post w.
Proof. intros Hwf Hpost. by wp_parts. Qed.

Lemma wp_lift (o : outcome A) (post : outcome A -> World -> Prop) (w : World) :
  wf w -> post o w -> wp (lift o) post w.
Proof. intros Hwf Hpost. by wp_parts. Qed.

Lemma wp_bind (m : M A) (f : A -> M B) (post : outcome B -> World -> Prop)
    (w : World) :
  wp m (fun o w' =>
          match o with
          | Ok a => wp (f a) post w'
          | Raise e => post (Raise e) w'
          | OutOfFuel => post OutOfFuel w'
          end) w ->
  wp (bind m f) post w.
Proof.
  unfold wp, bind. destruct (m w) as [[a|e|] w']; cbn [fst snd]; [|done..].
  intros (_ & Hsuf & Hwf & Hsuf' & Hpost).
  split; [done|]. split; [by etrans|done].
Qed.

Lemma wp_try (m : M A) (h : exn -> M A) (post : outcome A -> World -> Prop)
    (w : World) :
  wp m (fun o w' =>
          match o with
          | Raise e => wp (h e) post w'
          | _ => post o w'
          end) w ->
  wp (try_except m h) post w.
Proof.
  unfold wp, try_except. destruct (m w) as [[a|e|] w']; cbn [fst snd]; [done| |done].
  intros (_ & Hsuf & Hwf & Hsuf' & Hpost).
  split; [done|]. split; [by etrans|done].
Qed.

Lemma wp_read_memory (f : MemoryBank -> A) (post : outcome A -> World -> Prop)
    (w : World) :
  wf w -> post (Ok (f (memory w))) w -> wp (read_memory f) post w.
Proof. intros Hwf Hpost. by wp_parts. Qed.

Lemma wp_call_client (f : nat -> answer A) (post : outcome A -> World -> Prop)
    (w : World) :
  wf w ->
  (forall w', wf w' -> heap w' = heap w -> memory w' = memory w ->
     calls w' = S (calls w) ->
     post (match f (calls w) with
           | Answer a => Ok a
           | Failure reason => Raise (Exn GenerationError reason)
           end) w') ->
  wp (call_client f) post w.
Proof.
  intros Hwf Hpost. unfold wp, call_client.
  pose proof (Hpost (next_call w) (wf_next_call w Hwf) eq_refl eq_refl eq_refl).
  destruct (f (calls w)); cbn [fst snd];
    (split; [by apply wf_next_call|]; split; [done|done]).
Qed.

(** Using what is known of [m] to conclude about it. *)
Lemma wp_use (m : M A) (pre post : outcome A -> World -> Prop) (w : World) :
  wp m pre w ->
  (forall o w', wf w' -> pre o w' -> post o w') ->
  wp m post w.
Proof. intros Hm Himp. eapply wp_mono; [done|]. auto. Qed.

End Rules.

Section StoreRules.

Lemma wp_update_memory (f : MemoryBank -> MemoryBank)
    (post : outcome unit -> World -> Prop) (w : World) :
  wf w ->
  Forall (fun l => l < length (heap w)) (editor_feedback (f (memory w))) ->
  Forall well_typed (obs_feedback (observe (heap w) (f (memory w)))) ->
  extends (observe (heap w) (memory w)) (observe (heap w) (f (memory w))) ->
  (forall w', wf w' -> heap w' = heap w -> memory w' = f (memory w) ->
     calls w' = calls w -> post (Ok tt) w') ->
  wp (update_memory f) post w.
Proof.
  intros Hwf Hrefs Htyped Hext Hpost. unfold wp, update_memory. cbn [fst snd].
  assert (wf (write (heap w) (f (memory w)) w)) by by apply wf_write.
  split; [done|]. split; [apply suffix_write|]. by apply Hpost.
Qed.

Lemma wp_alloc (d : dict) (post : outcome loc -> World -> Prop) (w : World) :
  wf w ->
  (forall w', wf w' -> heap w' = heap w ++ [d] -> memory w' = memory w ->
     calls w' = calls w -> post (Ok (length (heap w))) w') ->
  wp (alloc d) post w.
Proof.
  intros Hwf Hpost. unfold wp, alloc. cbn [fst snd].
  assert (wf (write (heap w ++ [d]) (memory w) w)).
  { apply wf_write; [done| | |].
    - eapply Forall_impl; [apply Hwf|]. intros l Hl. cbn beta in *.
      rewrite length_app. lia.
    - rewrite observe_app; apply Hwf.
    - rewrite observe_app; [done|apply Hwf]. }
  split; [done|]. split; [apply suffix_write|]. by apply Hpost.
Qed.

Lemma wp_load (l : loc) (d : dict) (post : outcome dict -> World -> Prop)
    (w : World) :
  wf w -> heap w !! l = Some d -> post (Ok d) w -> wp (load l) post w.
Proof.
  intros Hwf Hl Hpost. unfold wp, load. rewrite Hl. by wp_parts.
Qed.

Lemma wp_setitem (l : loc) (k : string) (v : value) (d : dict)
    (post : outcome unit -> World -> Prop) (w : World) :
  wf w -> heap w !! l = Some d ->
  Forall (fun l0 => l0 <> l) (editor_feedback (memory w)) ->
  (forall w', wf w' -> heap w' = <[l := <[k := v]> d]> (heap w) ->
     memory w' = memory w -> calls w' = calls w -> post (Ok tt) w') ->
  wp (setitem l k v) post w.
Proof.
  intros Hwf Hl Hfresh Hpost. unfold wp, setitem, bind, load. rewrite Hl.
  cbn [fst snd].
  assert (wf (write (<[l := <[k := v]> d]> (heap w)) (memory w) w)).
  { apply wf_write; [done| | |].
    - rewrite length_insert. apply Hwf.
    - rewrite observe_insert by done. apply Hwf.
    - by rewrite observe_insert. }
  split; [done|]. split; [apply suffix_write|]. by apply Hpost.
Qed.

Lemma wp_store_research (data : ResearchBrief)
    (post : outcome unit -> World -> Prop) (w : World) :
  wf w ->
  (forall w', wf w' -> heap w' = heap w ->
     memory w' = set_research data (memory w) ->
     calls w' = calls w -> post (Ok tt) w') ->
  wp (Memory.store_research data) post w.
Proof.
  intros Hwf Hpost.
  apply wp_update_memory; [done|apply Hwf|apply Hwf|done|done].
Qed.

Lemma wp_store_seo_data (data : SeoData)
    (post : outcome unit -> World -> Prop) (w : World) :
  wf w ->
  (forall w', wf w' -> heap w' = heap w ->
     memory w' = set_seo data (memory w) ->
     calls w' = calls w -> post (Ok tt) w') ->
  wp (Memory.store_seo_data data) post w.
Proof.
  intros Hwf Hpost.
  apply wp_update_memory; [done|apply Hwf|apply Hwf|done|done].
Qed.

Lemma wp_add_draft (draft : string)
    (post : outcome unit -> World -> Prop) (w : World) :
  wf w ->
  (forall w', wf w' -> heap w' = heap w ->
     memory w' = push_draft draft (memory w) ->
     calls w' = calls w -> post (Ok tt) w') ->
  wp (Memory.add_draft draft) post w.
Proof.
  intros Hwf Hpost.
  apply wp_update_memory; [done|apply Hwf|apply Hwf| |done].
  split; cbn; [by apply prefix_app_r|done].
Qed.

Lemma wp_add_editor_feedback (feedback : loc) (d : dict)
    (post : outcome unit -> World -> Prop) (w : World) :
  wf w -> heap w !! feedback = Some d -> well_typed d ->
  (forall w', wf w' -> heap w' = heap w ->
     memory w' = push_feedback feedback (memory w) ->
     calls w' = calls w -> post (Ok tt) w') ->
  wp (Memory.add_editor_feedback feedback) post w.
Proof.
  intros Hwf Hl Hd Hpost. apply wp_update_memory; [done| | | |done].
  - cbn. apply Forall_app. split; [apply Hwf|].
    apply Forall_singleton. by eapply lookup_lt_Some.
  - cbn. rewrite fmap_app. apply Forall_app. split; [apply Hwf|].
    apply Forall_singleton. unfold deref. by rewrite Hl.
  - split; cbn; [done|]. rewrite fmap_app. by apply prefix_app_r.
Qed.

Lemma index_last_nonempty {A} (l : list A) :
  list_nonempty l = true -> exists x, last l = Some x /\ index_last l = Ok x.
Proof.
  intros Hl. unfold index_last.
  destruct (last l) as [x|] eqn:Hlast; [by eauto|].
  apply last_None in Hlast. by subst.
Qed.

(** The accessor of the latest draft never raises. *)
Lemma get_latest_draft_eq (w : World) :
  Memory.get_latest_draft w = (Ok (latest_draft (memory w)), w).
Proof.
  unfold Memory.get_latest_draft, bind, read_memory, latest_draft.
  destruct (list_nonempty (drafts (memory w))) eqn:Hne.
  - destruct (index_last_nonempty _ Hne) as (x & Hx & Hi).
    unfold lift. by rewrite Hi, Hx.
  - by destruct (drafts (memory w)).
Qed.

Lemma wp_get_latest_draft (post : outcome string -> World -> Prop) (w : World) :
  wf w -> post (Ok (latest_draft (memory w))) w ->
  wp Memory.get_latest_draft post w.
Proof.
  intros Hwf Hpost. unfold wp. rewrite get_latest_draft_eq. by wp_parts.
Qed.

(** The accessor of the latest feedback never raises: it yields the
    last record of the history, or a new empty record. *)
Lemma get_latest_feedback_eq (w : World) :
  Memory.get_latest_feedback w
  = match last (editor_feedback (memory w)) with
    | Some l => (Ok l, w)
    | None => (Ok (length (heap w)), write (heap w ++ [∅]) (memory w) w)
    end.
Proof.
  unfold Memory.get_latest_feedback, bind, read_memory.
  destruct (list_nonempty (editor_feedback (memory w))) eqn:Hne.
  - destruct (index_last_nonempty _ Hne) as (x & Hx & Hi).
    unfold lift. by rewrite Hi, Hx.
  - by destruct (editor_feedback (memory w)).
Qed.

Lemma well_typed_empty : well_typed ∅.
Proof. split; by eexists. Qed.

Lemma wp_get_latest_feedback (post : outcome loc -> World -> Prop) (w : World) :
  wf w ->
  (forall w' l d, wf w' -> memory w' = memory w -> calls w' = calls w ->
     heap w' !! l = Some d -> well_typed d ->
     post (Ok l) w') ->
  wp Memory.get_latest_feedback post w.
Proof.
  intros Hwf Hpost.
  destruct (last (editor_feedback (memory w))) as [l|] eqn:Hlast.
  - unfold wp. rewrite get_latest_feedback_eq, Hlast. wp_parts; [done|done|].
    apply last_Some in Hlast as [pre Hpre].
    assert (l ∈ editor_feedback (memory w)) as Hin.
    { rewrite Hpre. apply elem_of_app. right. by apply list_elem_of_singleton. }
    pose proof (proj1 (Forall_forall _ _) (wf_refs w Hwf) l Hin) as Hlt.
    apply lookup_lt_is_Some in Hlt as [d Hd]. cbn beta in Hd.
    apply (Hpost w l d); [done|done|done|done|].
    pose proof (wf_typed w Hwf) as Htyped. cbn [observe obs_feedback] in Htyped.
    rewrite Forall_fmap in Htyped.
    pose proof (proj1 (Forall_forall _ _) Htyped l Hin) as Hl.
    unfold compose, deref in Hl. by rewrite Hd in Hl.
  - unfold wp. rewrite get_latest_feedback_eq, Hlast.
    change (wp (alloc ∅) post w).
    apply wp_alloc; [done|]. intros w' Hwf' Hheap Hmem Hcalls.
    apply (Hpost w' (length (heap w)) ∅); [done|done|done| |].
    + by rewrite Hheap, list_lookup_middle.
    + apply well_typed_empty.
Qed.

End StoreRules.

(** ** The agents *)

(** One step of symbolic execution of an agent. *)
Ltac wp_step :=
  lazymatch goal with
  | |- wp (bind _ _) _ _ => apply wp_bind
  | |- wp (try_except _ _) _ _ => apply wp_try
  | |- wp (ret _) _ _ => apply wp_ret; [assumption|]
  | |- wp (lift _) _ _ => apply wp_lift; [assumption|]
  | |- wp (read_memory _) _ _ => apply wp_read_memory; [assumption|]
  | |- wp Memory.get_research _ _ => apply wp_read_memory; [assumption|]
  | |- wp Memory.get_seo_data _ _ => apply wp_read_memory; [assumption|]
  | |- wp Memory.get_all_drafts _ _ => apply wp_read_memory; [assumption|]
  | |- wp Memory.get_feedback_count _ _ => apply wp_read_memory; [assumption|]
  | |- wp Memory.get_latest_draft _ _ => apply wp_get_latest_draft; [assumption|]
  | |- wp (call_client ?f) _ ?w =>
      apply wp_call_client; [assumption|];
      let w' := fresh "w" in
      intros w' ?Hwf ?Hheap ?Hmem ?Hcalls;
      destruct (f (calls w)) as [?a|?reason] eqn:?Hanswer
  | |- wp (Memory.store_research _) _ _ =>
      apply wp_store_research; [assumption|]; intros ?w ?Hwf ?Hheap ?Hmem ?Hcalls
  | |- wp (Memory.store_seo_data _) _ _ =>
      apply wp_store_seo_data; [assumption|]; intros ?w ?Hwf ?Hheap ?Hmem ?Hcalls
  | |- wp (Memory.add_draft _) _ _ =>
      apply wp_add_draft; [assumption|]; intros ?w ?Hwf ?Hheap ?Hmem ?Hcalls
  | |- wp (alloc _) _ _ =>
      apply wp_alloc; [assumption|]; intros ?w ?Hwf ?Hheap ?Hmem ?Hcalls
  | |- wp Memory.get_latest_feedback _ _ =>
      apply wp_get_latest_feedback; [assumption|];
      intros ?w ?l ?d ?Hwf ?Hmem ?Hcalls ?Hload ?Htyped
  | |- wp (load _) _ _ => eapply wp_load; [assumption|eassumption|]
  end; cbn beta iota.

Section AgentFacts.

Variable client : Client.
Variable cfg : Config.
Variable utils : Utils.

(** The researcher always returns a brief and stores it; when its first
    call fails, the brief is the one of [_fallback_research]. *)
Lemma research_spec (topic : string) (w : World) :
  wf w ->
  wp (research client utils topic)
     (returns (fun brief w' =>
        heap w' = heap w
        /\ memory w' = set_research brief (memory w)
        /\ forall reason,
             generate_content_search client (calls w) = Failure reason ->
             brief = fallback_brief utils topic
                       (generate_content client (S (calls w))))) w.
Proof.
  intros Hwf. unfold research, _fallback_research.
  repeat wp_step.
  - (* the call with the search tool answers *)
    destruct (candidates a) as [|candidate rest]; cbn [index_first].
    + (* no candidate: [IndexError], caught *)
      repeat wp_step; (eexists; split; [done|]);
        (split; [congruence|]); (split; [congruence|]); congruence.
    + repeat wp_step. eexists. split; [done|].
      split; [congruence|]. split; [congruence|]. congruence.
  - (* it fails, the fallback answers *)
    eexists. split; [done|]. split; [congruence|]. split; [congruence|].
    intros r _. by rewrite <- Hcalls, Hanswer0.
  - (* both fail *)
    eexists. split; [done|]. split; [congruence|]. split; [congruence|].
    intros r _. by rewrite <- Hcalls, Hanswer0.
Qed.

(** The writer, asked for a first draft: one call, no write. *)
Lemma write_draft_initial_spec (w : World) :
  wf w ->
  wp (write_draft client None)
     (returns (fun draft w' =>
        draft = initial_draft_text (research_data (memory w))
                  (generate_content client (calls w))
        /\ heap w' = heap w /\ memory w' = memory w
        /\ calls w' = S (calls w))) w.
Proof.
  intros Hwf. unfold write_draft, _create_initial_draft.
  repeat wp_step; (eexists; split; [done|]); by rewrite ?Hanswer.
Qed.

(** The writer, asked to revise after a feedback record: one call, no
    write. *)
Lemma write_draft_revise_spec (feedback : loc) (fb : dict) (w : World) :
  wf w -> heap w !! feedback = Some fb -> size fb <> 0 ->
  wp (write_draft client (Some feedback))
     (returns (fun draft w' =>
        draft = revised_draft_text (memory w)
                  (generate_content client (calls w))
        /\ heap w' = heap w /\ memory w' = memory w
        /\ calls w' = S (calls w))) w.
Proof.
  intros Hwf Hfb Hsize. unfold write_draft, _revise_draft.
  do 5 wp_step. apply (wp_load _ fb); [done|done|].
  rewrite bool_decide_eq_false_2 by done.
  do 5 wp_step. apply (wp_load _ fb); [done|done|].
  repeat wp_step; (eexists; split; [done|]); by rewrite ?Hanswer.
Qed.

(** The SEO agent: two calls, and the SEO record stored. *)
Lemma optimize_spec (draft topic : string) (w : World) :
  wf w ->
  wp (optimize client draft topic)
     (returns (fun optimized_draft w' =>
        optimized_draft
          = optimized_text draft (generate_content client (S (calls w)))
        /\ heap w' = heap w
        /\ memory w'
           = set_seo {| keywords := keywords_of topic
                                      (generate_content client (calls w));
                        seo_topic := topic;
                        optimized := true |} (memory w))) w.
Proof.
  intros Hwf. unfold optimize, _identify_keywords, _optimize_content.
  repeat wp_step; (eexists; split; [done|]);
    rewrite <- ?Hcalls, ?Hanswer0; cbn [keywords_of optimized_text];
    (split; [done|]); split; congruence.
Qed.

Lemma generate_meta_tags_spec (draft : string) (kws : list string)
    (topic : string) (w : World) :
  wf w ->
  wp (generate_meta_tags client draft kws topic)
     (returns (fun tags w' =>
        heap w' = heap w /\ memory w' = memory w
        /\ forall reason,
             generate_content client (calls w) = Failure reason ->
             mt_title tags = topic)) w.
Proof.
  intros Hwf. unfold generate_meta_tags.
  repeat wp_step; (eexists; split; [done|]); (split; [done|]);
    (split; [done|]); [done|]. by intros r _.
Qed.

Lemma detailed_feedback_score (a : answer string) :
  as_float (dict_get (detailed_feedback a) "score" (VFloat 5)) = Ok (ai_score a).
Proof.
  unfold ai_score. destruct a as [text|reason]; cbn [detailed_feedback].
  - destruct (_parse_review_runs text) as (q & l1 & l2 & l3 & ->). done.
  - done.
Qed.

(** The editor's call: a record is allocated, parsed from the answer or
    made up after a failure. *)
Lemma _detailed_review_spec (draft : string) (w : World) :
  wf w ->
  wp (_detailed_review client draft)
     (returns (fun l w' =>
        l = length (heap w)
        /\ heap w' = heap w ++ [detailed_feedback (generate_content client (calls w))]
        /\ memory w' = memory w
        /\ calls w' = S (calls w))) w.
Proof.
  intros Hwf. unfold _detailed_review.
  do 7 wp_step.
  - cbn [detailed_feedback].
    destruct (_parse_review_runs a) as (q & l1 & l2 & l3 & ->).
    repeat wp_step. eexists. split; [done|].
    split; [congruence|]. split; [congruence|]. split; congruence.
  - repeat wp_step. eexists. split; [done|].
    split; [congruence|]. split; [by rewrite Hheap0, Hheap|]. split; congruence.
Qed.

Lemma insert_last (h : list dict) (d d' : dict) :
  <[length h := d']> (h ++ [d]) = h ++ [d'].
Proof.
  rewrite insert_app_r_alt by lia. by rewrite Nat.sub_diag.
Qed.

Lemma lookup_last (h : list dict) (d : dict) :
  (h ++ [d]) !! length h = Some d.
Proof. by rewrite list_lookup_middle. Qed.

Lemma reviewed_feedback_typed (draft : string) (a : answer string) (n : nat) :
  well_typed (reviewed_feedback utils draft a n).
Proof.
  unfold reviewed_feedback, well_typed, dict_get. split.
  - rewrite lookup_insert_ne, lookup_insert_eq by done. by eexists.
  - rewrite !lookup_insert_ne by done.
    destruct a as [text|reason]; cbn [detailed_feedback].
    + destruct (_parse_review_runs text) as (q & l1 & l2 & l3 & ->).
      by eexists.
    + by eexists.
Qed.

(** A review: one call; the record of the review is allocated, completed
    with the combined score and the round, and appended to the history;
    the decision is [approves]. *)
Lemma review_spec (draft : string) (w : World) :
  wf w ->
  wp (review client cfg utils draft)
     (returns (fun r w' =>
        let a := generate_content client (calls w) in
        let iteration := length (editor_feedback (memory w)) + 1 in
        r = (approves cfg utils draft a iteration, length (heap w))
        /\ heap w' = heap w ++ [reviewed_feedback utils draft a iteration]
        /\ memory w' = push_feedback (length (heap w)) (memory w)
        /\ calls w' = S (calls w))) w.
Proof.
  intros Hwf. unfold review.
  do 3 wp_step.
  eapply wp_use; [by apply _detailed_review_spec|].
  intros o w1 Hwf1 (l & -> & -> & Hheap1 & Hmem1 & Hcalls1).
  set (a := generate_content client (calls w)) in *.
  pose (d := detailed_feedback a).
  assert (Forall (fun l0 => l0 <> length (heap w)) (editor_feedback (memory w)))
    as Hfresh.
  { eapply Forall_impl; [apply Hwf|]. intros l0 Hl0. cbn beta in *. lia. }
  wp_step. apply (wp_load _ d); [done|by rewrite Hheap1, lookup_last|].
  wp_step. wp_step. subst d. rewrite detailed_feedback_score.
  wp_step.
  eapply wp_setitem; [done|by rewrite Hheap1, lookup_last|by rewrite Hmem1|].
  intros w2 Hwf2 Hheap2 Hmem2 Hcalls2.
  rewrite Hheap1, insert_last in Hheap2.
  wp_step.
  eapply wp_setitem;
    [done|by rewrite Hheap2, lookup_last|by rewrite Hmem2, Hmem1|].
  intros w3 Hwf3 Hheap3 Hmem3 Hcalls3.
  rewrite Hheap2, insert_last in Hheap3.
  wp_step.
  eapply wp_add_editor_feedback;
    [done|by rewrite Hheap3, lookup_last|by apply reviewed_feedback_typed|].
  intros w4 Hwf4 Hheap4 Hmem4 Hcalls4.
  assert (heap w4 = heap w ++ [reviewed_feedback utils draft a
                                 (length (editor_feedback (memory w)) + 1)]
          /\ memory w4 = push_feedback (length (heap w)) (memory w)
          /\ calls w4 = S (calls w)) as Hfinal.
  { split; [by rewrite Hheap4, Hheap3|]. split; congruence. }
  unfold approves. fold (combined_score utils draft a).
  destruct (Qle_bool _ _); cbn [orb].
  - wp_step. eexists. split; [done|]. by split.
  - destruct (_ <=? _); wp_step; (eexists; split; [done|]); by split.
Qed.

End AgentFacts.

(** ** The controller *)

Section PipelineFacts.

Variable client : Client.
Variable cfg : Config.
Variable utils : Utils.

Lemma generate_final_report_spec (w : World) :
  wf w ->
  wp (generate_final_report cfg)
     (returns (fun rep w' =>
        memory w' = memory w
        /\ rp_iterations rep = length (editor_feedback (memory w)))) w.
Proof.
  intros Hwf. unfold generate_final_report.
  do 6 wp_step.
  destruct Htyped as [[q ->] [l' ->]].
  repeat wp_step. eexists. split; [done|]. by split.
Qed.

Lemma final_output_spec (topic : string) (brief : ResearchBrief) (w : World) :
  wf w ->
  wp (final_output client cfg utils topic brief)
     (returns (fun pub w' =>
        memory w' = memory w /\ published utils pub (memory w))) w.
Proof.
  intros Hwf. unfold final_output.
  do 5 wp_step.
  eapply wp_use; [by apply generate_meta_tags_spec|].
  intros o w1 Hwf1 (tags & -> & Hheap1 & Hmem1 & _).
  do 10 wp_step.
  destruct Htyped as [[q ->] _].
  wp_step.
  eapply wp_use; [by apply generate_final_report_spec|].
  intros o w3 Hwf3 (rep & -> & Hmem3 & Hrep).
  wp_step. eexists. split; [done|]. split; [congruence|].
  unfold published. cbn.
  rewrite Hrep, Hmem, Hmem1. done.
Qed.

Lemma reviewed_feedback_size (draft : string) (a : answer string) (n : nat) :
  size (reviewed_feedback utils draft a n) <> 0.
Proof.
  apply (map_size_ne_0_lookup_2 _ "iteration").
  unfold reviewed_feedback. rewrite lookup_insert_eq. by eexists.
Qed.

(** One round of the loop: a review and, unless it approves, a revision
    appended to the drafts. *)
Lemma review_round_spec (w : World) :
  wf w ->
  wp (review_round client cfg utils)
     (returns (fun approved w' =>
        let a := generate_content client (calls w) in
        let iteration := length (editor_feedback (memory w)) + 1 in
        let draft := latest_draft (memory w) in
        let l := length (heap w) in
        approved = approves cfg utils draft a iteration
        /\ heap w' = heap w ++ [reviewed_feedback utils draft a iteration]
        /\ memory w'
           = if approved then push_feedback l (memory w)
             else push_draft
                    (revised_draft_text (memory w)
                       (generate_content client (S (calls w))))
                    (push_feedback l (memory w)))) w.
Proof.
  intros Hwf. unfold review_round.
  do 3 wp_step.
  eapply wp_use; [by apply review_spec|].
  intros o w1 Hwf1 (r & -> & -> & Hheap1 & Hmem1 & Hcalls1).
  cbn beta iota zeta.
  destruct (approves cfg utils _ _ _) eqn:Happroves; cbn [negb].
  - repeat wp_step. eexists. split; [done|].
    split; [done|]. split; congruence.
  - do 2 wp_step.
    eapply wp_use.
    { eapply write_draft_revise_spec; [done| |apply reviewed_feedback_size].
      rewrite Hheap1. apply lookup_last. }
    intros o w2 Hwf2 (revised & -> & -> & Hheap2 & Hmem2 & Hcalls2).
    repeat wp_step. eexists. split; [done|].
    split; [done|]. split; [congruence|].
    rewrite Hmem, Hmem2, Hmem1, Hcalls1. done.
Qed.

(** The rule of the review loop.  An invariant of the rounds holds when
    the loop returns, and then the draft is approved or the budget is
    used up; the loop returns whenever the fuel covers the budget. *)
Lemma review_loop_rule (Inv : bool -> nat -> World -> Prop) :
  (forall i w, wf w -> i < MAX_EDITOR_ITERATIONS cfg -> Inv false i w ->
     wp (review_round client cfg utils)
        (returns (fun approved' w' => Inv approved' (i + 1) w')) w) ->
  forall fuel approved i w, wf w -> Inv approved i w ->
    wp (review_loop client cfg utils fuel approved i)
       (fun o w' =>
          match o with
          | Ok r => Inv r.1 r.2 w'
                    /\ (r.1 = true \/ MAX_EDITOR_ITERATIONS cfg <= r.2)
          | Raise _ => False
          | OutOfFuel => fuel < MAX_EDITOR_ITERATIONS cfg - i
                         /\ exists b j, Inv b j w'
          end) w.
Proof.
  intros Hround. induction fuel as [|fuel IH]; intros approved i w Hwf Hinv;
    cbn [review_loop]; destruct approved; cbn [negb andb].
  - wp_step. split; [done|by left].
  - destruct (Nat.ltb_spec i (MAX_EDITOR_ITERATIONS cfg)) as [Hlt|Hge].
    + wp_parts; [done|done|]. split; [lia|by eauto].
    + wp_step. split; [done|by right].
  - wp_step. split; [done|by left].
  - destruct (Nat.ltb_spec i (MAX_EDITOR_ITERATIONS cfg)) as [Hlt|Hge].
    + wp_step. eapply wp_use; [by apply Hround|].
      intros o w1 Hwf1 (approved' & -> & Hinv1).
      eapply wp_use; [by apply IH|].
      intros [r| |] w2 Hwf2; [done|done|]. intros [Hfuel Hex].
      split; [lia|done].
    + wp_step. split; [done|by right].
Qed.

(** The rule of the pipeline: the stages before the loop prepare the
    store, the loop keeps its invariant, and the final stage publishes
    what the store then holds. *)
Lemma pipeline_rule (Inv : bool -> nat -> World -> Prop)
    (fuel : nat) (topic : string) (w : World) :
  wf w ->
  (forall i w1, wf w1 -> i < MAX_EDITOR_ITERATIONS cfg -> Inv false i w1 ->
     wp (review_round client cfg utils)
        (returns (fun approved' w' => Inv approved' (i + 1) w')) w1) ->
  (forall brief w1, wf w1 -> prepared client utils topic brief w w1 ->
     Inv false 0 w1) ->
  wp (pipeline client cfg utils fuel topic)
     (fun o w' =>
        match o with
        | Ok pub =>
            exists b n w1,
              Inv b n w1
              /\ (b = true \/ MAX_EDITOR_ITERATIONS cfg <= n)
              /\ memory w' = memory w1
              /\ published utils pub (memory w1)
        | Raise _ => False
        | OutOfFuel => fuel < MAX_EDITOR_ITERATIONS cfg
                       /\ exists b j, Inv b j w'
        end) w.
Proof.
  intros Hwf Hround Hstart. unfold pipeline.
  wp_step. eapply wp_use; [by apply research_spec|].
  intros o w1 Hwf1 (brief & -> & Hheap1 & Hmem1 & Hbrief).
  wp_step. eapply wp_use; [by apply write_draft_initial_spec|].
  intros o w2 Hwf2 (initial_draft & -> & -> & Hheap2 & Hmem2 & Hcalls2).
  wp_step. apply wp_add_draft; [done|]. intros w3 Hwf3 Hheap3 Hmem3 Hcalls3.
  wp_step. eapply wp_use; [by apply optimize_spec|].
  intros o w4 Hwf4 (optimized_draft & -> & -> & Hheap4 & Hmem4).
  wp_step. apply wp_add_draft; [done|]. intros w5 Hwf5 Hheap5 Hmem5 Hcalls5.
  wp_step.
  eapply wp_use; [apply (review_loop_rule Inv Hround); [done|]|].
  { apply (Hstart brief); [done|].
    exists (calls w1), (calls w3), (S (calls w3)). cbn zeta.
    split; [congruence|]. split; [|done].
    rewrite Hmem5, Hmem4, Hmem3, Hmem2, Hmem1. done. }
  intros [[approved n]| |] w6 Hwf6; [|done|].
  - intros [Hinv Hexit]. cbn [fst snd] in *.
    eapply wp_use; [by apply final_output_spec|].
    intros o w7 Hwf7 (pub & -> & Hmem7 & Hpub).
    exists approved, n, w6. done.
  - intros [Hfuel Hex]. split; [lia|done].
Qed.

Lemma wf_initial_world (style_guide : string) : wf (initial_world style_guide).
Proof. split; cbn; by auto. Qed.

End PipelineFacts.

(** ** The review loop ends *)

Section LoopFacts.

Variable client : Client.
Variable cfg : Config.
Variable utils : Utils.

(** What a round does to the history and to the latest draft. *)
Lemma review_round_history (w : World) :
  wf w ->
  wp (review_round client cfg utils)
     (returns (fun approved w' =>
        approved
          = approves cfg utils (latest_draft (memory w))
              (generate_content client (calls w))
              (length (editor_feedback (memory w)) + 1)
        /\ length (editor_feedback (memory w'))
           = length (editor_feedback (memory w)) + 1
        /\ (approved = true -> drafts (memory w') = drafts (memory w))
        /\ (approved = false ->
            drafts (memory w')
            = drafts (memory w)
              ++ [revised_draft_text (memory w)
                    (generate_content client (S (calls w)))]))) w.
Proof.
  intros Hwf. eapply wp_use; [by apply review_round_spec|].
  intros o w' Hwf' (approved & -> & Happ & Hheap & Hmem).
  exists approved. split; [done|]. split; [done|].
  destruct approved; rewrite Hmem; cbn; rewrite length_app; cbn.
  - split; [done|]. split; [done|]. intros; discriminate.
  - split; [done|]. split; [intros; discriminate|done].
Qed.

Lemma counts_round (before i : nat) (w : World) :
  wf w -> i < MAX_EDITOR_ITERATIONS cfg -> counts cfg before false i w ->
  wp (review_round client cfg utils)
     (returns (fun approved' w' => counts cfg before approved' (i + 1) w')) w.
Proof.
  intros Hwf Hi (Hlen & _ & _ & _).
  eapply wp_use; [by apply review_round_history|].
  intros o w' Hwf' (approved & -> & Happ & Hlen' & _).
  exists approved. split; [done|]. unfold counts.
  split; [lia|]. split; [lia|]. split; [|lia].
  intros ->. symmetry in Happ. unfold approves in Happ.
  apply orb_false_iff in Happ as [_ Hmax].
  apply Nat.leb_gt in Hmax. lia.
Qed.

(** From any well-formed world, with a budget of at least one review and
    enough fuel, the loop returns after at most that many reviews, with
    the draft approved. *)
Lemma review_loop_returns (fuel : nat) (w : World) :
  wf w ->
  1 <= MAX_EDITOR_ITERATIONS cfg -> MAX_EDITOR_ITERATIONS cfg <= fuel ->
  exists n w',
    review_loop client cfg utils fuel false 0 w = (Ok (true, n), w')
    /\ 1 <= n <= MAX_EDITOR_ITERATIONS cfg
    /\ length (editor_feedback (memory w'))
       = length (editor_feedback (memory w)) + n
    /\ wf w'.
Proof.
  intros Hwf Hmax Hfuel.
  pose proof (review_loop_rule client cfg utils
                (counts cfg (length (editor_feedback (memory w))))
                (counts_round _) fuel false 0 w Hwf) as Hloop.
  destruct Hloop as (Hwf' & _ & Hpost).
  { unfold counts. split; [lia|]. split; [lia|]. split; [lia|done]. }
  destruct (review_loop client cfg utils fuel false 0 w) as [[[approved n]| |] w'];
    cbn [fst snd] in *; [|done|lia].
  destruct Hpost as [(Hlen & Hn & Hfalse & Htrue) Hexit].
  assert (approved = true) as ->.
  { destruct approved; [done|]. specialize (Hfalse eq_refl).
    destruct Hexit as [?|?]; [done|lia]. }
  exists n, w'. split; [done|]. split; [|done]. split; [by apply Htrue|done].
Qed.

End LoopFacts.

Section RunFacts.

Variable client : Client.
Variable cfg : Config.
Variable utils : Utils.

Lemma prepared_history (topic : string) (brief : ResearchBrief) (w w1 : World) :
  prepared client utils topic brief w w1 ->
  editor_feedback (memory w1) = editor_feedback (memory w)
  /\ heap w1 = heap w
  /\ exists initial_draft optimized_draft,
       drafts (memory w1) = drafts (memory w) ++ [initial_draft; optimized_draft].
Proof.
  intros (n1 & n2 & n3 & Hheap & Hmem & _). cbn zeta in Hmem.
  rewrite Hmem. cbn. split; [done|]. split; [done|].
  do 2 eexists. by rewrite <- app_assoc.
Qed.

(** With a budget of at least one review and enough fuel, the run
    reaches the final stage after at most that many reviews. *)
Lemma pipeline_returns (fuel : nat) (topic : string) (style_guide : option string) :
  1 <= MAX_EDITOR_ITERATIONS cfg -> MAX_EDITOR_ITERATIONS cfg <= fuel ->
  exists pub w',
    run_blog_pipeline client cfg utils fuel topic style_guide = (Ok pub, w')
    /\ 1 <= editor_reviews pub <= MAX_EDITOR_ITERATIONS cfg
    /\ final_draft pub = latest_draft (memory w')
    /\ wf w'.
Proof.
  intros Hmax Hfuel. unfold run_blog_pipeline.
  set (w := initial_world (style_or_default cfg style_guide)).
  pose proof (pipeline_rule client cfg utils (counts cfg 0) fuel topic w
                (wf_initial_world _) (counts_round client cfg utils 0)) as Hrun.
  destruct Hrun as (Hwf' & _ & Hpost).
  { intros brief w1 Hwf1 Hprep.
    apply prepared_history in Hprep as (Hfb & _ & _).
    unfold counts. rewrite Hfb. cbn. split; [done|]. split; [lia|].
    split; [lia|done]. }
  destruct (pipeline client cfg utils fuel topic w) as [[pub| |] w'];
    cbn [fst snd] in *; [|done|lia].
  destruct Hpost as (b & n & w1 & (Hlen & Hn & Hfalse & Htrue) & Hexit & Hmem & Hpub).
  destruct Hpub as (Hdraft & _ & _ & Hreviews & _).
  exists pub, w'. split; [done|]. rewrite Hreviews, Hlen, Hdraft, Hmem.
  split; [|done].
  destruct b; [specialize (Htrue eq_refl); lia|].
  specialize (Hfalse eq_refl). destruct Hexit; [done|lia].
Qed.

(** *** Forced approval *)

Lemma forced_round (i : nat) (w : World) :
  all_below client cfg utils ->
  wf w -> i < MAX_EDITOR_ITERATIONS cfg -> forced cfg false i w ->
  wp (review_round client cfg utils)
     (returns (fun approved' w' => forced cfg approved' (i + 1) w')) w.
Proof.
  intros Hbelow Hwf Hi (Hlen & _ & _).
  eapply wp_use; [by apply review_round_history|].
  intros o w' Hwf' (approved & -> & Happ & Hlen' & _).
  exists approved. split; [done|]. unfold forced.
  split; [lia|]. split; [lia|].
  unfold approves in Happ. rewrite Hbelow in Happ. cbn [orb] in Happ.
  rewrite Happ, Hlen. rewrite Nat.leb_le. lia.
Qed.

Lemma forced_loop (fuel : nat) (w : World) :
  all_below client cfg utils ->
  1 <= MAX_EDITOR_ITERATIONS cfg -> MAX_EDITOR_ITERATIONS cfg <= fuel ->
  wf w -> editor_feedback (memory w) = [] ->
  exists w',
    review_loop client cfg utils fuel false 0 w
      = (Ok (true, MAX_EDITOR_ITERATIONS cfg), w')
    /\ length (editor_feedback (memory w')) = MAX_EDITOR_ITERATIONS cfg.
Proof.
  intros Hbelow Hmax Hfuel Hwf Hempty.
  pose proof (review_loop_rule client cfg utils (forced cfg)
                (fun i w1 Hwf1 => forced_round i w1 Hbelow Hwf1)
                fuel false 0 w Hwf) as Hloop.
  destruct Hloop as (Hwf' & _ & Hpost).
  { unfold forced. rewrite Hempty. cbn. split; [done|]. split; [lia|]. split; [done|lia]. }
  destruct (review_loop client cfg utils fuel false 0 w) as [[[approved n]| |] w'];
    cbn [fst snd] in *; [|done|lia].
  destruct Hpost as [(Hlen & Hn & Hiff) Hexit].
  assert (n = MAX_EDITOR_ITERATIONS cfg) as ->.
  { destruct Hexit as [->|?]; [by apply Hiff|lia]. }
  assert (approved = true) as -> by by apply Hiff.
  by exists w'.
Qed.

Lemma forced_pipeline (fuel : nat) (topic : string) (style_guide : option string) :
  all_below client cfg utils ->
  1 <= MAX_EDITOR_ITERATIONS cfg -> MAX_EDITOR_ITERATIONS cfg <= fuel ->
  exists pub w',
    run_blog_pipeline client cfg utils fuel topic style_guide = (Ok pub, w')
    /\ editor_reviews pub = MAX_EDITOR_ITERATIONS cfg.
Proof.
  intros Hbelow Hmax Hfuel. unfold run_blog_pipeline.
  set (w := initial_world (style_or_default cfg style_guide)).
  pose proof (pipeline_rule client cfg utils (forced cfg) fuel topic w
                (wf_initial_world _)
                (fun i w1 Hwf1 => forced_round i w1 Hbelow Hwf1)) as Hrun.
  destruct Hrun as (Hwf' & _ & Hpost).
  { intros brief w1 Hwf1 Hprep.
    apply prepared_history in Hprep as (Hfb & _ & _).
    unfold forced. rewrite Hfb. cbn. split; [done|]. split; [lia|].
    split; [done|lia]. }
  destruct (pipeline client cfg utils fuel topic w) as [[pub| |] w'];
    cbn [fst snd] in *; [|done|lia].
  destruct Hpost as (b & n & w1 & (Hlen & Hn & Hiff) & Hexit & Hmem & Hpub).
  destruct Hpub as (_ & _ & _ & Hreviews & _).
  exists pub, w'. split; [done|]. rewrite Hreviews, Hlen.
  destruct Hexit as [->|?]; [by apply Hiff|lia].
Qed.

(** *** The history only grows *)

Lemma bounded_round (i : nat) (w : World) :
  wf w -> i < MAX_EDITOR_ITERATIONS cfg -> bounded cfg false i w ->
  wp (review_round client cfg utils)
     (returns (fun approved' w' => bounded cfg approved' (i + 1) w')) w.
Proof.
  intros Hwf Hi (Hlen & _).
  eapply wp_use; [by apply review_round_history|].
  intros o w' Hwf' (approved & -> & Happ & Hlen' & _).
  exists approved. split; [done|]. unfold bounded. lia.
Qed.

(** Whatever the fuel, the run keeps the world well formed and the
    feedback history within the budget. *)
Lemma pipeline_history (fuel : nat) (topic : string) (style_guide : option string) :
  let w := initial_world (style_or_default cfg style_guide) in
  let w' := (run_blog_pipeline client cfg utils fuel topic style_guide).2 in
  wf w'
  /\ log w `suffix_of` log w'
  /\ length (editor_feedback (memory w')) <= MAX_EDITOR_ITERATIONS cfg.
Proof.
  intros w w'. subst w'. unfold run_blog_pipeline. fold w.
  pose proof (pipeline_rule client cfg utils (bounded cfg) fuel topic w
                (wf_initial_world _) bounded_round) as Hrun.
  destruct Hrun as (Hwf' & Hsuffix & Hpost).
  { intros brief w1 Hwf1 Hprep.
    apply prepared_history in Hprep as (Hfb & _ & _).
    unfold bounded. rewrite Hfb. cbn. split; [done|lia]. }
  split; [done|]. split; [done|].
  destruct (pipeline client cfg utils fuel topic w) as [[pub| |] w'];
    cbn [fst snd] in *; [|done|].
  - destruct Hpost as (b & n & w1 & (Hlen & Hn) & _ & Hmem & _).
    rewrite Hmem. lia.
  - destruct Hpost as (_ & b & j & Hlen & Hj). lia.
Qed.

End RunFacts.

(** C1. For any budget of at least one review (3 by default), the review
    loop of the controller makes at most that many calls to the editor's
    review and ends: given fuel for the budget, the loop returns with the
    draft approved after between one and [MAX_EDITOR_ITERATIONS] rounds,
    each of which adds one record to the feedback history, and the run
    reaches the final stage. *)
Theorem review_loop_terminates (client : Client) (cfg : Config) (utils : Utils)
    (fuel : nat) (topic : string) (style_guide : option string) :
  1 <= MAX_EDITOR_ITERATIONS cfg -> MAX_EDITOR_ITERATIONS cfg <= fuel ->
  (forall w, wf w ->
     exists n w',
       review_loop client cfg utils fuel false 0 w = (Ok (true, n), w')
       /\ 1 <= n <= MAX_EDITOR_ITERATIONS cfg
       /\ length (editor_feedback (memory w'))
          = length (editor_feedback (memory w)) + n)
  /\ (exists pub w',
       run_blog_pipeline client cfg utils fuel topic style_guide = (Ok pub, w')
       /\ 1 <= editor_reviews pub <= MAX_EDITOR_ITERATIONS cfg
       /\ final_draft pub = latest_draft (memory w'))
  /\ MAX_EDITOR_ITERATIONS config = 3.
Proof.
  intros Hmax Hfuel. split; [|split; [|done]].
  - intros w Hwf.
    destruct (review_loop_returns client cfg utils fuel w Hwf Hmax Hfuel)
      as (n & w' & Hloop & Hn & Hlen & _).
    by exists n, w'.
  - destruct (pipeline_returns client cfg utils fuel topic style_guide Hmax Hfuel)
      as (pub & w' & Hrun & Hn & Hdraft & _).
    by exists pub, w'.
Qed.

Lemma review_loop_terminates_witness :
  exists pub w',
    run_blog_pipeline (constant_client "SCORE: 3") config (sample_utils 4) 3
      "Benefits of Remote Work" None = (Ok pub, w')
    /\ 1 <= editor_reviews pub <= 3
    /\ final_draft pub = latest_draft (memory w').
Proof.
  apply (review_loop_terminates (constant_client "SCORE: 3") config
           (sample_utils 4) 3 "Benefits of Remote Work" None);
    cbn; lia.
Defined.

Section ReviewFacts.

Variable client : Client.
Variable cfg : Config.
Variable utils : Utils.

(** What a review returns and stores, as equations. *)
Lemma review_returns (draft : string) (w : World) :
  wf w ->
  let a := generate_content client (calls w) in
  let iteration := length (editor_feedback (memory w)) + 1 in
  exists w',
    review client cfg utils draft w
      = (Ok (approves cfg utils draft a iteration, length (heap w)), w')
    /\ heap w' !! length (heap w)
       = Some (reviewed_feedback utils draft a iteration)
    /\ editor_feedback (memory w')
       = editor_feedback (memory w) ++ [length (heap w)]
    /\ drafts (memory w') = drafts (memory w)
    /\ wf w'.
Proof.
  intros Hwf a iteration.
  destruct (review_spec client cfg utils draft w Hwf) as (Hwf' & _ & Hpost).
  destruct (review client cfg utils draft w) as [o w']. cbn [fst snd] in *.
  destruct Hpost as (r & -> & -> & Hheap & Hmem & _).
  exists w'. split; [done|]. rewrite Hheap, Hmem.
  split; [apply lookup_last|]. by split.
Qed.

Lemma approves_iff (draft : string) (a : answer string) (iteration : nat) :
  approves cfg utils draft a iteration = true
  <-> (QUALITY_THRESHOLD cfg <= combined_score utils draft a)%Q
      \/ MAX_EDITOR_ITERATIONS cfg <= iteration.
Proof.
  unfold approves. rewrite orb_true_iff, Qle_bool_iff, Nat.leb_le. done.
Qed.

Lemma combined_score_average (draft : string) (a : answer string) :
  (combined_score utils draft a
   == (calculate_quality_score utils draft + ai_score a) / 2)%Q.
Proof. unfold combined_score. apply Qred_correct. Qed.

Lemma ai_score_parsed (text : string) (fb : dict) (q : Q) :
  Parser._parse_review text = Ok fb -> fb !! "score" = Some (VFloat q) ->
  ai_score (Answer text) = q.
Proof.
  intros Hparse Hscore. unfold ai_score, detailed_feedback, dict_get.
  by rewrite Hparse, Hscore.
Qed.

End ReviewFacts.

(** C2. A review approves the draft exactly when the combined score, the
    plain average of the heuristic score of the draft and the score read
    from the reviewer's answer, reaches the threshold, or when the round
    has reached [MAX_EDITOR_ITERATIONS].  So when every review scores
    below the threshold, the loop makes all the rounds of its budget and
    the last one approves. *)
Theorem review_approval (client : Client) (cfg : Config) (utils : Utils) :
  (forall draft w, wf w ->
     let a := generate_content client (calls w) in
     let iteration := length (editor_feedback (memory w)) + 1 in
     exists w',
       review client cfg utils draft w
         = (Ok (approves cfg utils draft a iteration, length (heap w)), w')
       /\ (approves cfg utils draft a iteration = true
           <-> (QUALITY_THRESHOLD cfg <= combined_score utils draft a)%Q
               \/ MAX_EDITOR_ITERATIONS cfg <= iteration)
       /\ (combined_score utils draft a
           == (calculate_quality_score utils draft + ai_score a) / 2)%Q
       /\ (forall text fb q,
             a = Answer text -> Parser._parse_review text = Ok fb ->
             fb !! "score" = Some (VFloat q) -> ai_score a = q)
       /\ heap w' !! length (heap w)
          = Some (reviewed_feedback utils draft a iteration)
       /\ reviewed_feedback utils draft a iteration !! "score"
          = Some (VFloat (combined_score utils draft a)))
  /\ (forall fuel w,
        all_below client cfg utils ->
        1 <= MAX_EDITOR_ITERATIONS cfg -> MAX_EDITOR_ITERATIONS cfg <= fuel ->
        wf w -> editor_feedback (memory w) = [] ->
        exists w',
          review_loop client cfg utils fuel false 0 w
            = (Ok (true, MAX_EDITOR_ITERATIONS cfg), w')
          /\ length (editor_feedback (memory w')) = MAX_EDITOR_ITERATIONS cfg)
  /\ (forall fuel topic style_guide,
        all_below client cfg utils ->
        1 <= MAX_EDITOR_ITERATIONS cfg -> MAX_EDITOR_ITERATIONS cfg <= fuel ->
        exists pub w',
          run_blog_pipeline client cfg utils fuel topic style_guide = (Ok pub, w')
          /\ editor_reviews pub = MAX_EDITOR_ITERATIONS cfg)
  /\ QUALITY_THRESHOLD config = 7%Q.
Proof.
  split; [|split; [|split; [|done]]].
  - intros draft w Hwf a iteration.
    destruct (review_returns client cfg utils draft w Hwf)
      as (w' & Hreview & Hheap & _).
    exists w'. split; [done|]. split; [apply approves_iff|].
    split; [apply combined_score_average|].
    split; [|split; [done|]].
    + intros text fb q -> Hparse Hscore. by eapply ai_score_parsed.
    + unfold reviewed_feedback.
      by rewrite lookup_insert_ne, lookup_insert_eq.
  - intros fuel w Hbelow Hmax Hfuel Hwf Hempty. by apply forced_loop.
  - intros fuel topic style_guide Hbelow Hmax Hfuel. by apply forced_pipeline.
Qed.

Lemma review_approval_witness :
  (exists w',
     review (constant_client "SCORE: 9") config (sample_utils 6) "A draft."
       (initial_world "")
     = (Ok (approves config (sample_utils 6) "A draft." (Answer "SCORE: 9") 1, 0), w'))
  /\ (exists w',
        review_loop (constant_client "SCORE: 3") config (sample_utils 4) 3 false 0
          (initial_world "") = (Ok (true, 3), w')
        /\ length (editor_feedback (memory w')) = 3)
  /\ (exists pub w',
        run_blog_pipeline (constant_client "SCORE: 3") config (sample_utils 4) 5
          "Benefits of Remote Work" None = (Ok pub, w')
        /\ editor_reviews pub = 3).
Proof.
  split; [|split].
  - destruct (proj1 (review_approval (constant_client "SCORE: 9") config
                       (sample_utils 6)) "A draft." (initial_world "")
                (wf_initial_world "")) as (w' & Hreview & _).
    exists w'. exact Hreview.
  - apply (proj1 (proj2 (review_approval (constant_client "SCORE: 3") config
                           (sample_utils 4)))).
    + intros n draft. reflexivity.
    + cbn. lia.
    + cbn. lia.
    + apply wf_initial_world.
    + reflexivity.
  - apply (proj1 (proj2 (proj2 (review_approval (constant_client "SCORE: 3") config
                                  (sample_utils 4))))).
    + intros n draft. reflexivity.
    + cbn. lia.
    + cbn. lia.
Defined.

(** C3. Throughout a run the drafts and the feedback history only grow at
    the end: of two observations of the store, the later one shows every
    draft and every feedback record of the earlier one, unchanged and at
    the same place, so the lengths never decrease; the observations go
    back to the empty store of the start, the latest one is the store at
    the end, and the history ends with at most
    [MAX_EDITOR_ITERATIONS + 1] records. *)
Theorem history_append_only (client : Client) (cfg : Config) (utils : Utils)
    (fuel : nat) (topic : string) (style_guide : option string) :
  let w := initial_world (style_or_default cfg style_guide) in
  let w' := (run_blog_pipeline client cfg utils fuel topic style_guide).2 in
  (forall i j earlier later,
     i <= j -> log w' !! i = Some later -> log w' !! j = Some earlier ->
     obs_drafts earlier `prefix_of` obs_drafts later
     /\ obs_feedback earlier `prefix_of` obs_feedback later
     /\ length (obs_drafts earlier) <= length (obs_drafts later)
     /\ length (obs_feedback earlier) <= length (obs_feedback later))
  /\ head (log w') = Some (observe (heap w') (memory w'))
  /\ [observe [] (Memory.init (style_or_default cfg style_guide))]
       `suffix_of` log w'
  /\ length (editor_feedback (memory w')) <= MAX_EDITOR_ITERATIONS cfg + 1.
Proof.
  intros w w'.
  destruct (pipeline_history client cfg utils fuel topic style_guide)
    as (Hwf & Hsuffix & Hlen).
  fold w' in Hwf, Hsuffix, Hlen.
  split; [|split; [apply Hwf|split; [done|lia]]].
  intros i j earlier later Hij Hi Hj.
  destruct (chain_lookup (log w') i j earlier later (wf_chain _ Hwf) Hij Hi Hj)
    as [Hdrafts Hfeedback].
  split; [done|]. split; [done|].
  split; by apply prefix_length.
Qed.

Lemma history_append_only_witness :
  let w' := (run_blog_pipeline (constant_client "SCORE: 3") config (sample_utils 4) 3
               "Benefits of Remote Work" None).2 in
  exists earlier later,
    log w' !! 0 = Some later /\ log w' !! 7 = Some earlier
    /\ obs_drafts earlier `prefix_of` obs_drafts later
    /\ obs_feedback earlier `prefix_of` obs_feedback later
    /\ length (obs_drafts earlier) <= length (obs_drafts later)
    /\ length (obs_feedback earlier) <= length (obs_feedback later).
Proof.
  intros w'.
  destruct (log w' !! 0) as [later|] eqn:Hlater; [|by vm_compute in Hlater].
  destruct (log w' !! 7) as [earlier|] eqn:Hearlier; [|by vm_compute in Hearlier].
  exists earlier, later. split; [done|]. split; [done|].
  apply (proj1 (history_append_only (constant_client "SCORE: 3") config
                  (sample_utils 4) 3 "Benefits of Remote Work" None) 0 7);
    [lia|done|done].
Defined.

(** C10. The accessors of the memory bank answer on every state.  With no
    draft stored [get_latest_draft] returns the empty string; with no
    feedback stored [get_latest_feedback] returns a new empty record;
    neither ever raises. *)
Theorem memory_accessors_total (w : World) :
  (exists draft, Memory.get_latest_draft w = (Ok draft, w))
  /\ (drafts (memory w) = [] -> Memory.get_latest_draft w = (Ok EmptyString, w))
  /\ (exists l w', Memory.get_latest_feedback w = (Ok l, w')
                   /\ memory w' = memory w)
  /\ (editor_feedback (memory w) = [] ->
      exists l w',
        Memory.get_latest_feedback w = (Ok l, w')
        /\ heap w' !! l = Some ∅
        /\ memory w' = memory w).
Proof.
  split; [|split; [|split]].
  - rewrite get_latest_draft_eq. by eexists.
  - intros Hempty. rewrite get_latest_draft_eq. unfold latest_draft.
    by rewrite Hempty.
  - rewrite get_latest_feedback_eq.
    destruct (last (editor_feedback (memory w))); by do 2 eexists.
  - intros Hempty. rewrite get_latest_feedback_eq, Hempty. cbn [last].
    do 2 eexists. split; [done|]. split; [|done].
    cbn [heap write]. by rewrite list_lookup_middle.
Qed.

Lemma memory_accessors_total_witness :
  Memory.get_latest_draft (initial_world "") = (Ok EmptyString, initial_world "")
  /\ exists l w',
       Memory.get_latest_feedback (initial_world "") = (Ok l, w')
       /\ heap w' !! l = Some ∅
       /\ memory w' = memory (initial_world "").
Proof.
  split.
  - apply (proj1 (proj2 (memory_accessors_total (initial_world "")))).
    reflexivity.
  - apply (proj2 (proj2 (proj2 (memory_accessors_total (initial_world ""))))).
    reflexivity.
Defined.

(** ** Failures of the generation client *)

Section FailureFacts.

Variable client : Client.
Variable cfg : Config.
Variable utils : Utils.

Lemma prefix_append (needle rest : string) :
  String.prefix needle (needle +:+ rest) = true.
Proof.
  induction needle as [|c needle IH]; [by destruct rest|].
  rewrite append_cons. cbn [String.prefix].
  by destruct (ascii_dec c c).
Qed.

Lemma contains_here (needle rest : string) :
  Str.contains (needle +:+ rest) needle = true.
Proof.
  destruct (needle +:+ rest) eqn:Heq; cbn [Str.contains];
    rewrite <- Heq, prefix_append; done.
Qed.

Lemma contains_later (pre s needle : string) :
  Str.contains s needle = true -> Str.contains (pre +:+ s) needle = true.
Proof.
  intros Hs. induction pre as [|c pre IH]; [done|].
  rewrite append_cons. cbn [Str.contains]. rewrite IH. apply orb_true_r.
Qed.

Lemma placeholder_draft_contains (topic reason : string) :
  Str.contains (placeholder_draft topic reason) reason = true.
Proof.
  unfold placeholder_draft.
  do 5 apply contains_later. apply contains_here.
Qed.

Lemma placeholder_draft_nonempty (topic reason : string) :
  placeholder_draft topic reason <> EmptyString.
Proof. done. Qed.

Lemma append_nonempty (block s : string) :
  s <> EmptyString -> block +:+ s <> EmptyString.
Proof. intros Hs. by destruct block. Qed.

Lemma latest_draft_push (draft : string) (m : MemoryBank) :
  latest_draft (push_draft draft m) = draft.
Proof. unfold latest_draft. cbn. by rewrite last_snoc. Qed.

(** What the researcher returns and stores, as equations. *)
Lemma research_returns (topic : string) (w : World) :
  wf w ->
  exists brief w',
    research client utils topic w = (Ok brief, w')
    /\ research_data (memory w') = Some brief
    /\ drafts (memory w') = drafts (memory w)
    /\ editor_feedback (memory w') = editor_feedback (memory w)
    /\ wf w'
    /\ forall reason,
         generate_content_search client (calls w) = Failure reason ->
         brief = fallback_brief utils topic (generate_content client (S (calls w))).
Proof.
  intros Hwf.
  destruct (research_spec client utils topic w Hwf) as (Hwf' & _ & Hpost).
  destruct (research client utils topic w) as [o w']. cbn [fst snd] in *.
  destruct Hpost as (brief & -> & Hheap & Hmem & Hbrief).
  exists brief, w'. rewrite Hmem. by repeat (split; [done|]).
Qed.

(** What the writer returns, as equations. *)
Lemma write_draft_initial_returns (w : World) :
  wf w ->
  exists w',
    write_draft client None w
      = (Ok (initial_draft_text (research_data (memory w))
               (generate_content client (calls w))), w')
    /\ memory w' = memory w /\ heap w' = heap w.
Proof.
  intros Hwf.
  destruct (write_draft_initial_spec client w Hwf) as (_ & _ & Hpost).
  destruct (write_draft client None w) as [o w']. cbn [fst snd] in *.
  destruct Hpost as (draft & -> & -> & Hheap & Hmem & _).
  by exists w'.
Qed.

Lemma write_draft_revise_returns (feedback : loc) (fb : dict) (w : World) :
  wf w -> heap w !! feedback = Some fb -> size fb <> 0 ->
  exists w',
    write_draft client (Some feedback) w
      = (Ok (revised_draft_text (memory w)
               (generate_content client (calls w))), w')
    /\ memory w' = memory w /\ heap w' = heap w.
Proof.
  intros Hwf Hfb Hsize.
  destruct (write_draft_revise_spec client feedback fb w Hwf Hfb Hsize)
    as (_ & _ & Hpost).
  destruct (write_draft client (Some feedback) w) as [o w']. cbn [fst snd] in *.
  destruct Hpost as (draft & -> & -> & Hheap & Hmem & _).
  by exists w'.
Qed.

(** What a round returns, as equations. *)
Lemma review_round_returns (w : World) :
  wf w ->
  exists w',
    review_round client cfg utils w
      = (Ok (approves cfg utils (latest_draft (memory w))
               (generate_content client (calls w))
               (length (editor_feedback (memory w)) + 1)), w')
    /\ memory w'
       = (if approves cfg utils (latest_draft (memory w))
               (generate_content client (calls w))
               (length (editor_feedback (memory w)) + 1)
          then push_feedback (length (heap w)) (memory w)
          else push_draft
                 (revised_draft_text (memory w)
                    (generate_content client (S (calls w))))
                 (push_feedback (length (heap w)) (memory w)))
    /\ wf w'.
Proof.
  intros Hwf.
  destruct (review_round_spec client cfg utils w Hwf) as (Hwf' & _ & Hpost).
  destruct (review_round client cfg utils w) as [o w']. cbn [fst snd] in *.
  destruct Hpost as (approved & -> & -> & _ & Hmem).
  by exists w'.
Qed.

Lemma _detailed_review_returns (draft : string) (w : World) :
  wf w ->
  exists w',
    _detailed_review client draft w = (Ok (length (heap w)), w')
    /\ heap w' !! length (heap w)
       = Some (detailed_feedback (generate_content client (calls w)))
    /\ memory w' = memory w.
Proof.
  intros Hwf.
  destruct (_detailed_review_spec client draft w Hwf) as (_ & _ & Hpost).
  destruct (_detailed_review client draft w) as [o w']. cbn [fst snd] in *.
  destruct Hpost as (l & -> & -> & Hheap & Hmem & _).
  exists w'. rewrite Hheap. split; [done|]. split; [apply lookup_last|done].
Qed.

Lemma stuck_round (topic : string) (i : nat) (w : World) :
  always_fails client ->
  wf w -> i < MAX_EDITOR_ITERATIONS cfg -> stuck topic false i w ->
  wp (review_round client cfg utils)
     (returns (fun approved' w' => stuck topic approved' (i + 1) w')) w.
Proof.
  intros [Hfails _] Hwf Hi [[reason Hdraft] Hresearch].
  eapply wp_use; [by apply review_round_spec|].
  intros o w' Hwf' (approved & -> & _ & _ & Hmem).
  exists approved. split; [done|]. unfold stuck. rewrite Hmem.
  destruct approved.
  - split; [by exists reason|done].
  - destruct (Hfails (S (calls w))) as [r ->]. cbn [revised_draft_text].
    rewrite latest_draft_push. split; [by exists reason|done].
Qed.

(** When every call fails, the run still publishes: the placeholder of
    the first draft. *)
Lemma failing_pipeline (fuel : nat) (topic : string) (style_guide : option string) :
  always_fails client -> MAX_EDITOR_ITERATIONS cfg <= fuel ->
  exists pub w' reason,
    run_blog_pipeline client cfg utils fuel topic style_guide = (Ok pub, w')
    /\ final_draft pub = placeholder_draft topic reason
    /\ final_article pub
       = format_output_article utils (final_draft pub) (metadata pub)
    /\ research_data (memory w') = Some (placeholder_brief topic).
Proof.
  intros Hfails Hfuel. unfold run_blog_pipeline.
  set (w := initial_world (style_or_default cfg style_guide)).
  pose proof (pipeline_rule client cfg utils (stuck topic) fuel topic w
                (wf_initial_world _)
                (fun i w1 Hwf1 => stuck_round topic i w1 Hfails Hwf1)) as Hrun.
  destruct Hrun as (Hwf' & _ & Hpost).
  { intros brief w1 Hwf1 (n1 & n2 & n3 & _ & Hmem & Hbrief).
    cbn zeta in Hmem. destruct Hfails as [Hgen Hsearch].
    destruct (Hsearch (calls w)) as [r0 Hr0].
    specialize (Hbrief r0 Hr0).
    destruct (Hgen (S (calls w))) as [r1 Hr1]. rewrite Hr1 in Hbrief.
    cbn [fallback_brief] in Hbrief. subst brief.
    destruct (Hgen n1) as [r2 Hr2]. destruct (Hgen n3) as [r3 Hr3].
    rewrite Hr2, Hr3 in Hmem. cbn [initial_draft_text optimized_text topic_of] in Hmem.
    unfold stuck. rewrite Hmem, latest_draft_push.
    split; [by exists r2|done]. }
  destruct (pipeline client cfg utils fuel topic w) as [[pub| |] w'];
    cbn [fst snd] in *; [|done|lia].
  destruct Hpost as (b & n & w1 & ([reason Hdraft] & Hresearch) & _ & Hmem & Hpub).
  destruct Hpub as (Hfinal & Harticle & _).
  exists pub, w', reason. split; [done|]. rewrite Hmem.
  split; [congruence|]. by split.
Qed.

End FailureFacts.

(** C6, as stated, fails on the code: the placeholder brief does not
    carry the reason of the failure.  Here both calls of the researcher
    fail, one with "search quota exceeded" and one with "model
    unavailable"; the findings of the brief it returns mention neither. *)
Lemma placeholder_findings_omit_reason :
  exists w',
    research failing_client (sample_utils 5) "AI" (initial_world "")
      = (Ok (placeholder_brief "AI"), w')
    /\ findings (placeholder_brief "AI")
       = "Research on AI - please provide manual input"
    /\ Str.contains (findings (placeholder_brief "AI")) "model unavailable" = false
    /\ Str.contains (findings (placeholder_brief "AI")) "search quota exceeded" = false.
Proof. eexists. split; [reflexivity|]. split; [reflexivity|]. by split. Qed.

(** C6, amended.  The research stage never raises: it always returns a
    brief and stores it.  When the call with the search tool fails it
    makes the plain call of [_fallback_research]; when that fails too it
    returns the placeholder brief, whose findings are the fixed notice
    "Research on <topic> - please provide manual input".  When every call
    of the client fails, the run, given fuel for the review budget, still
    reaches the final stage and publishes a non-empty draft, the
    placeholder of the first draft; the article made of it is non-empty
    as soon as [format_output_article] puts the body after the metadata. *)
Theorem research_never_aborts (client : Client) (cfg : Config) (utils : Utils)
    (topic : string) :
  (forall w, wf w ->
     exists brief w',
       research client utils topic w = (Ok brief, w')
       /\ research_data (memory w') = Some brief
       /\ forall reason,
            generate_content_search client (calls w) = Failure reason ->
            (forall text,
               generate_content client (S (calls w)) = Answer text ->
               brief = format_research_brief utils topic text
                         ["Model Training Data (Pre-2023)"])
            /\ (forall reason',
                  generate_content client (S (calls w)) = Failure reason' ->
                  brief = placeholder_brief topic))
  /\ findings (placeholder_brief topic)
     = "Research on " +:+ topic +:+ " - please provide manual input"
  /\ (forall fuel style_guide,
        always_fails client -> MAX_EDITOR_ITERATIONS cfg <= fuel ->
        exists pub w' reason,
          run_blog_pipeline client cfg utils fuel topic style_guide = (Ok pub, w')
          /\ final_draft pub = placeholder_draft topic reason
          /\ final_draft pub <> EmptyString
          /\ final_article pub
             = format_output_article utils (final_draft pub) (metadata pub)
          /\ (body_follows_metadata utils -> final_article pub <> EmptyString)
          /\ research_data (memory w') = Some (placeholder_brief topic)).
Proof.
  split; [|split; [done|]].
  - intros w Hwf.
    destruct (research_returns client utils topic w Hwf)
      as (brief & w' & Hrun & Hstored & _ & _ & _ & Hbrief).
    exists brief, w'. split; [done|]. split; [done|].
    intros reason Hreason. specialize (Hbrief reason Hreason).
    split.
    + intros text Htext. by rewrite Htext in Hbrief.
    + intros reason' Hreason'. by rewrite Hreason' in Hbrief.
  - intros fuel style_guide Hfails Hfuel.
    destruct (failing_pipeline client cfg utils fuel topic style_guide Hfails Hfuel)
      as (pub & w' & reason & Hrun & Hdraft & Harticle & Hresearch).
    assert (final_draft pub <> EmptyString) as Hne.
    { rewrite Hdraft. apply placeholder_draft_nonempty. }
    exists pub, w', reason. split; [done|]. split; [done|].
    split; [done|]. split; [done|]. split; [|done].
    intros Hbody. destruct (Hbody (final_draft pub) (metadata pub)) as [block Hblock].
    rewrite Harticle, Hblock. by apply append_nonempty.
Qed.

Lemma research_never_aborts_witness :
  (exists brief w',
     research failing_client (sample_utils 5) "AI" (initial_world "")
       = (Ok brief, w')
     /\ research_data (memory w') = Some brief)
  /\ exists pub w' reason,
       run_blog_pipeline failing_client config (sample_utils 5) 3 "AI" None
         = (Ok pub, w')
       /\ final_draft pub = placeholder_draft "AI" reason
       /\ final_draft pub <> EmptyString
       /\ final_article pub <> EmptyString.
Proof.
  split.
  - destruct (proj1 (research_never_aborts failing_client config (sample_utils 5) "AI")
                (initial_world "") (wf_initial_world ""))
      as (brief & w' & Hrun & Hstored & _).
    exists brief, w'. exact (conj Hrun Hstored).
  - destruct (proj2 (proj2 (research_never_aborts failing_client config
                              (sample_utils 5) "AI")) 3 None)
      as (pub & w' & reason & Hrun & Hdraft & Hne & _ & Harticle & _).
    + split; intros n; by eexists.
    + cbn. lia.
    + exists pub, w', reason.
      refine (conj Hrun (conj Hdraft (conj Hne (Harticle _)))).
      intros body meta. eexists. reflexivity.
Defined.

(** C7, as stated, fails on the code: a failed review does not always
    send the draft back.  Here the client fails, the heuristic score of
    the draft is 9, the round is the first of three, and the review
    approves: the average of 9 and 6 reaches the threshold 7, and no
    revision is made. *)
Lemma failed_review_can_approve :
  exists w',
    review_round failing_client config (sample_utils 9) (drafted_world "# A draft")
      = (Ok true, w')
    /\ drafts (memory w') = drafts (memory (drafted_world "# A draft"))
    /\ length (editor_feedback (memory (drafted_world "# A draft"))) + 1
       < MAX_EDITOR_ITERATIONS config.
Proof.
  eexists. split; [vm_compute; reflexivity|]. split; [reflexivity|]. cbn. lia.
Qed.

(** C7, amended.  When the call of the review fails, [_detailed_review]
    makes up a record with score 6.0, one issue that names the failure
    and no strengths.  The review averages that 6.0 with the heuristic
    score of the draft, so the round sends the draft back for one more
    revision exactly when this average is below the threshold (with the
    default threshold 7.0: when the heuristic score is below 8.0) and the
    budget of rounds is not used up; otherwise it approves and makes no
    revision. *)
Theorem failed_review_policy (client : Client) (cfg : Config) (utils : Utils)
    (w : World) (reason : string) :
  wf w -> generate_content client (calls w) = Failure reason ->
  let draft := latest_draft (memory w) in
  let iteration := length (editor_feedback (memory w)) + 1 in
  let score := combined_score utils draft (Failure reason) in
  (exists w1,
     _detailed_review client draft w = (Ok (length (heap w)), w1)
     /\ heap w1 !! length (heap w) = Some (failed_review reason))
  /\ failed_review reason !! "score" = Some (VFloat 6)
  /\ failed_review reason !! "issues" = Some (VList ["Review error: " +:+ reason])
  /\ failed_review reason !! "strengths" = Some (VList [])
  /\ (score == (calculate_quality_score utils draft + 6) / 2)%Q
  /\ (exists approved w',
        review_round client cfg utils w = (Ok approved, w')
        /\ (approved = false
            <-> (score < QUALITY_THRESHOLD cfg)%Q
                /\ iteration < MAX_EDITOR_ITERATIONS cfg)
        /\ (approved = false ->
            drafts (memory w')
            = drafts (memory w)
              ++ [revised_draft_text (memory w)
                    (generate_content client (S (calls w)))])
        /\ (approved = true -> drafts (memory w') = drafts (memory w)))
  /\ ((QUALITY_THRESHOLD cfg == 7)%Q ->
      (score < QUALITY_THRESHOLD cfg)%Q
      <-> (calculate_quality_score utils draft < 8)%Q).
Proof.
  intros Hwf Hfail draft iteration score.
  assert (score == (calculate_quality_score utils draft + 6) / 2)%Q as Hscore.
  { subst score. by rewrite combined_score_average. }
  split; [|split; [done|split; [done|split; [done|split; [done|split]]]]].
  - destruct (_detailed_review_returns client draft w Hwf) as (w1 & Hrun & Hheap & _).
    exists w1. by rewrite Hfail in Hheap.
  - destruct (review_round_returns client cfg utils w Hwf) as (w' & Hrun & Hmem & _).
    rewrite Hfail in Hrun, Hmem. fold draft iteration in Hrun, Hmem.
    exists (approves cfg utils draft (Failure reason) iteration), w'.
    split; [done|]. split; [|split].
    + unfold approves. fold score.
      rewrite orb_false_iff, Nat.leb_gt.
      rewrite <- not_true_iff_false, Qle_bool_iff.
      split; intros [Hlow Hit]; (split; [|done]).
      * by apply Qnot_le_lt.
      * by apply Qlt_not_le.
    + intros Happ. rewrite Happ in Hmem. by rewrite Hmem.
    + intros Happ. rewrite Happ in Hmem. by rewrite Hmem.
  - intros Hthreshold. rewrite Hthreshold, Hscore.
    unfold Qdiv. change (/ 2)%Q with (1 # 2)%Q. split; intros H; lra.
Qed.

Lemma failed_review_policy_witness :
  exists approved w',
    review_round failing_client config (sample_utils 5) (drafted_world "# A draft")
      = (Ok approved, w')
    /\ (approved = false
        <-> (combined_score (sample_utils 5) "# A draft" (Failure "model unavailable")
             < QUALITY_THRESHOLD config)%Q
            /\ 1 < MAX_EDITOR_ITERATIONS config).
Proof.
  assert (wf (drafted_world "# A draft")) as Hwf.
  { apply (wp_add_draft "# A draft" (fun _ _ => True) (initial_world ""));
      [apply wf_initial_world|done]. }
  destruct (failed_review_policy failing_client config (sample_utils 5)
              (drafted_world "# A draft") "model unavailable" Hwf eq_refl)
    as (_ & _ & _ & _ & _ & (approved & w' & Hrun & Hiff & _) & _).
  exists approved, w'. exact (conj Hrun Hiff).
Defined.

(** C8, as stated, fails on the code: a revision that fails does add an
    entry to the drafts.  Here every call fails: the review scores
    (5 + 6) / 2 = 5.5 and sends the draft back, the revision fails and
    returns the latest draft, and the controller appends it, so that the
    one draft of the memory bank is there twice. *)
Lemma failed_revision_adds_entry :
  exists w',
    review_round failing_client config (sample_utils 5) (drafted_world "# A draft")
      = (Ok false, w')
    /\ drafts (memory (drafted_world "# A draft")) = ["# A draft"]
    /\ drafts (memory w') = ["# A draft"; "# A draft"].
Proof.
  eexists. split; [vm_compute; reflexivity|]. split; reflexivity.
Qed.

(** C8, amended.  When the call of the writer fails during a revision,
    [write_draft] returns the latest draft of the memory bank, unchanged,
    and writes nothing itself.  The controller appends what it returns
    all the same: a round whose revision fails adds one entry to the
    drafts, a copy of the latest one, so the latest draft stays what it
    was.  When the call fails on the first draft, [write_draft] returns a
    placeholder draft that contains the error. *)
Theorem draft_failure_policy (client : Client) (cfg : Config) (utils : Utils)
    (w : World) (reason : string) :
  wf w -> generate_content client (calls w) = Failure reason ->
  (forall feedback fb,
     heap w !! feedback = Some fb -> size fb <> 0 ->
     exists w',
       write_draft client (Some feedback) w = (Ok (latest_draft (memory w)), w')
       /\ memory w' = memory w
       /\ heap w' = heap w
       /\ latest_draft (push_draft (latest_draft (memory w)) (memory w'))
          = latest_draft (memory w))
  /\ (exists w',
        write_draft client None w
          = (Ok (placeholder_draft (topic_of (research_data (memory w))) reason), w')
        /\ memory w' = memory w
        /\ Str.contains
             (placeholder_draft (topic_of (research_data (memory w))) reason)
             reason = true)
  /\ (forall w0 reason0,
        wf w0 -> generate_content client (S (calls w0)) = Failure reason0 ->
        exists approved w',
          review_round client cfg utils w0 = (Ok approved, w')
          /\ (approved = false ->
              drafts (memory w')
              = drafts (memory w0) ++ [latest_draft (memory w0)]
              /\ latest_draft (memory w') = latest_draft (memory w0))).
Proof.
  intros Hwf Hfail. split; [|split].
  - intros feedback fb Hfb Hsize.
    destruct (write_draft_revise_returns client feedback fb w Hwf Hfb Hsize)
      as (w' & Hrun & Hmem & Hheap).
    rewrite Hfail in Hrun. cbn [revised_draft_text] in Hrun.
    exists w'. split; [done|]. split; [done|]. split; [done|].
    apply latest_draft_push.
  - destruct (write_draft_initial_returns client w Hwf) as (w' & Hrun & Hmem & _).
    rewrite Hfail in Hrun. cbn [initial_draft_text] in Hrun.
    exists w'. split; [done|]. split; [done|]. apply placeholder_draft_contains.
  - intros w0 reason0 Hwf0 Hfail0.
    destruct (review_round_returns client cfg utils w0 Hwf0) as (w' & Hrun & Hmem & _).
    rewrite Hfail0 in Hmem. cbn [revised_draft_text] in Hmem.
    eexists _, w'. split; [done|].
    intros Happ. rewrite Happ in Hmem. rewrite Hmem.
    split; [done|]. apply latest_draft_push.
Qed.

Lemma draft_failure_policy_witness :
  (exists w',
     write_draft failing_client (Some 0) reviewed_world
       = (Ok (latest_draft (memory reviewed_world)), w')
     /\ memory w' = memory reviewed_world
     /\ heap w' = heap reviewed_world)
  /\ (exists w',
        write_draft failing_client None reviewed_world
          = (Ok (placeholder_draft
                   (topic_of (research_data (memory reviewed_world)))
                   "model unavailable"), w')
        /\ memory w' = memory reviewed_world
        /\ Str.contains
             (placeholder_draft
                (topic_of (research_data (memory reviewed_world)))
                "model unavailable")
             "model unavailable" = true)
  /\ (exists approved w',
        review_round failing_client config (sample_utils 5)
          (drafted_world "# A draft") = (Ok approved, w')
        /\ (approved = false ->
            drafts (memory w')
            = drafts (memory (drafted_world "# A draft"))
              ++ [latest_draft (memory (drafted_world "# A draft"))]
            /\ latest_draft (memory w')
               = latest_draft (memory (drafted_world "# A draft")))).
Proof.
  assert (wf (drafted_world "# A draft")) as Hdrafted.
  { apply (wp_add_draft "# A draft" (fun _ _ => True) (initial_world ""));
      [apply wf_initial_world|done]. }
  assert (wf reviewed_world) as Hreviewed.
  { apply (review_spec failing_client config (sample_utils 5) "# A draft"
             (drafted_world "# A draft") Hdrafted). }
  destruct (draft_failure_policy failing_client config (sample_utils 5)
              reviewed_world "model unavailable" Hreviewed eq_refl)
    as (Hrevision & Hfirst & Hround).
  split; [|split].
  - destruct (Hrevision 0
                (reviewed_feedback (sample_utils 5) "# A draft"
                   (Failure "model unavailable") 1))
      as (w' & Hrun & Hmem & Hheap & _).
    + vm_compute. exact eq_refl.
    + apply reviewed_feedback_size.
    + exists w'. exact (conj Hrun (conj Hmem Hheap)).
  - exact Hfirst.
  - exact (Hround (drafted_world "# A draft") "model unavailable" Hdrafted eq_refl).
Defined.

(** ** A run with two reviews *)

(** Topic "Benefits of Remote Work", threshold 7.0, at most three rounds,
    heuristic score 5: the first review scores (5 + 5) / 2 = 5 and sends
    the draft back, the second scores (5 + 9.4) / 2 = 7.2 and approves.
    The run makes eight calls and ends with two feedback records and three
    drafts; the title of the meta tags heads the metadata. *)
Example two_reviews_scenario :
  let run := run_blog_pipeline scenario_client config (sample_utils 5) 3
               "Benefits of Remote Work" None in
  match run.1 with
  | Ok pub =>
      Some (editor_reviews pub, draft_iterations pub, final_draft pub,
            quality_score pub, md_title (metadata pub),
            md_keywords (metadata pub), md_sources (metadata pub),
            calls run.2)
  | _ => None
  end
  = Some (2, 3, "## Remote work: revised draft", (36 # 5)%Q,
          "Benefits of Remote Work",
          ["remote work"; "home office"; "flexibility"],
          ["Google Search"; "https://example.org/a"; "Web Source"], 8).
Proof. vm_compute. exact eq_refl. Qed.

(** * Further properties *)

(** ** String methods *)

Section StringFacts.

Lemma all_chars_cons (p : ascii -> bool) (c : ascii) (s : string) :
  all_chars p (String c s) = p c && all_chars p s.
Proof. reflexivity. Qed.

Lemma all_chars_app (p : ascii -> bool) (s t : string) :
  all_chars p (s +:+ t) = all_chars p s && all_chars p t.
Proof.
  induction s as [|c s IH]; [done|].
  rewrite append_cons, !all_chars_cons, IH. by rewrite andb_assoc.
Qed.

Lemma all_chars_impl (p q : ascii -> bool) (s : string) :
  (forall c, p c = true -> q c = true) ->
  all_chars p s = true -> all_chars q s = true.
Proof.
  intros Hpq. induction s as [|c s IH]; [done|].
  rewrite !all_chars_cons. intros [Hc Hs]%andb_true_iff.
  by rewrite (Hpq c Hc), IH.
Qed.

Lemma lstrip_all_chars (p : ascii -> bool) (s : string) :
  all_chars p s = true -> all_chars p (Str.lstrip s) = true.
Proof.
  induction s as [|c s IH]; [done|]. cbn [Str.lstrip].
  destruct (Str.isspace c); [|done].
  rewrite all_chars_cons. intros [_ Hs]%andb_true_iff. auto.
Qed.

Lemma rstrip_all_chars (p : ascii -> bool) (s : string) :
  all_chars p s = true -> all_chars p (Str.rstrip s) = true.
Proof.
  induction s as [|c s IH]; [done|]. cbn [Str.rstrip].
  rewrite all_chars_cons. intros [Hc Hs]%andb_true_iff.
  specialize (IH Hs). destruct (Str.rstrip s) as [|d r].
  - destruct (Str.isspace c); [done|]. by rewrite all_chars_cons, Hc.
  - by rewrite all_chars_cons, Hc, IH.
Qed.

Lemma strip_all_chars (p : ascii -> bool) (s : string) :
  all_chars p s = true -> all_chars p (Str.strip s) = true.
Proof. intros Hs. by apply rstrip_all_chars, lstrip_all_chars. Qed.

Lemma drop_all_chars (p : ascii -> bool) (n : nat) (s : string) :
  all_chars p s = true -> all_chars p (Str.drop n s) = true.
Proof.
  revert s. induction n as [|n IH]; intros s; [by destruct s|].
  destruct s as [|c s]; [done|]. cbn [Str.drop].
  rewrite all_chars_cons. intros [_ Hs]%andb_true_iff. auto.
Qed.

Lemma take_all_chars (p : ascii -> bool) (n : nat) (s : string) :
  all_chars p s = true -> all_chars p (Str.take n s) = true.
Proof.
  revert s. induction n as [|n IH]; intros s; [by destruct s|].
  destruct s as [|c s]; [done|]. cbn [Str.take].
  rewrite !all_chars_cons. intros [Hc Hs]%andb_true_iff.
  by rewrite Hc, IH.
Qed.

(** Removing every occurrence of a text brings in no new character. *)
Lemma remove_all_chars (p : ascii -> bool) (old : string) (skip : nat) (s : string) :
  all_chars p s = true ->
  all_chars p (Str.replace_from old EmptyString skip s) = true.
Proof.
  revert skip. induction s as [|c s IH]; intros skip; [done|].
  rewrite all_chars_cons. intros [Hc Hs]%andb_true_iff.
  cbn [Str.replace_from]. destruct skip as [|skip]; [|by apply IH].
  destruct (String.prefix old (String c s)).
  - rewrite append_nil_l. by apply IH.
  - rewrite all_chars_cons, Hc. by apply IH.
Qed.

Lemma lstrip_head (s : string) (c : ascii) (r : string) :
  Str.lstrip s = String c r -> Str.isspace c = false.
Proof.
  induction s as [|d s IH]; [done|]. cbn [Str.lstrip].
  destruct (Str.isspace d) eqn:Hd; [done|]. by intros [= <- _].
Qed.

Lemma rstrip_rstrip (s : string) : Str.rstrip (Str.rstrip s) = Str.rstrip s.
Proof.
  induction s as [|c s IH]; [done|]. cbn [Str.rstrip].
  destruct (Str.rstrip s) as [|d r] eqn:Hr.
  - destruct (Str.isspace c) eqn:Hc; [done|]. cbn [Str.rstrip]. by rewrite Hc.
  - cbn [Str.rstrip] in *. by rewrite IH.
Qed.

Lemma rstrip_head (c : ascii) (s : string) :
  Str.isspace c = false -> exists r, Str.rstrip (String c s) = String c r.
Proof.
  intros Hc. cbn [Str.rstrip]. destruct (Str.rstrip s); rewrite ?Hc; by eexists.
Qed.

(** [strip] does nothing to a text it has produced. *)
Lemma strip_strip (s : string) : Str.strip (Str.strip s) = Str.strip s.
Proof.
  unfold Str.strip.
  destruct (Str.lstrip s) as [|c r] eqn:Hl; [done|].
  pose proof (lstrip_head s c r Hl) as Hc.
  destruct (rstrip_head c r Hc) as [r' Hr]. rewrite Hr.
  cbn [Str.lstrip]. rewrite Hc, <- Hr. apply rstrip_rstrip.
Qed.

Lemma span_app (p : ascii -> bool) (s : string) :
  exists a b,
    Str.span p s = (a, b) /\ s = a +:+ b /\ all_chars p a = true
    /\ match b with String c _ => p c = false | EmptyString => True end.
Proof.
  induction s as [|c s (a & b & Hspan & -> & Ha & Hb)].
  - by exists EmptyString, EmptyString.
  - cbn [Str.span]. destruct (p c) eqn:Hc.
    + rewrite Hspan. exists (String c a), b.
      rewrite all_chars_cons, Hc, Ha. done.
    + exists EmptyString, (String c (a +:+ b)). done.
Qed.

Lemma stops_number_of (b : string) :
  match b with String c _ => Str.isdigit c = false | EmptyString => True end ->
  stops_number b = true.
Proof. destruct b as [|c b]; [done|]. cbn. by intros ->. Qed.

End StringFacts.

(** ** The parser, on every text *)

Section ParserExtras.

Import Parser.

Lemma decimal_nonneg (int frac : string) : (0 <= decimal int frac)%Q.
Proof.
  unfold decimal. rewrite Qred_correct. unfold Qle. cbn. lia.
Qed.

Lemma match_not_dot {A} (x y : A) (d : ascii) :
  d <> "."%char -> match d with "."%char => x | _ => y end = y.
Proof. intros Hd. by destruct d as [[] [] [] [] [] [] [] []]. Qed.

(** The number found on a line always converts: the [except] under
    [SCORE:] has nothing to catch, and the score is not negative. *)
Lemma number_converts (s tok : string) :
  Str.re_search_number s = Some tok ->
  exists q, Str.float tok = Ok q /\ (0 <= q)%Q.
Proof.
  induction s as [|c s IH]; [done|]. cbn [Str.re_search_number].
  destruct (Str.isdigit c) eqn:Hc; [|done]. intros [= <-].
  unfold Str.match_number.
  destruct (span_app Str.isdigit (String c s)) as (int & r & Hspan & Heq & Hint & Hr).
  rewrite Hspan.
  assert (Str.nonempty int = true) as Hne.
  { destruct int; [|done]. rewrite append_nil_l in Heq. subst r.
    by rewrite Hc in Hr. }
  destruct r as [|d r'].
  { rewrite float_integer by done. eexists. split; [done|].
    rewrite <- decimal_integer. apply decimal_nonneg. }
  destruct (Ascii.eqb_spec d "."%char) as [->|Hd].
  - destruct (span_app Str.isdigit r') as (frac & rest & Hspan' & _ & Hfrac & _).
    rewrite Hspan'. rewrite float_fraction by done.
    eexists. split; [done|]. apply decimal_nonneg.
  - rewrite match_not_dot by done.
    rewrite float_integer by done. eexists. split; [done|].
    rewrite <- decimal_integer. apply decimal_nonneg.
Qed.

(** The body of the [try] under [SCORE:] never raises. *)
Lemma read_score_returns (fb : dict) (line : string) :
  read_score fb line = Ok fb
  \/ exists q, (0 <= q)%Q /\ read_score fb line = Ok (<["score" := VFloat q]> fb).
Proof.
  unfold read_score.
  destruct (Str.re_search_number _) as [tok|] eqn:Htok; [|by left].
  destruct (number_converts _ tok Htok) as (q & -> & Hq).
  right. by exists q.
Qed.

Lemma strip_clean (s : string) :
  Str.nonempty (Str.strip s) = true -> clean (Str.strip s).
Proof.
  intros Hne. split; [apply strip_strip|]. by destruct (Str.strip s).
Qed.

Lemma parse_line_clean (st : pstate) (raw : string) :
  pclean st -> exists st', parse_line st raw = Ok st' /\ pclean st'.
Proof.
  destruct st as [fb cs].
  intros [(q & l1 & l2 & l3 & Hfb & Hq & H1 & H2 & H3) Hcs]. cbn [fst snd] in *.
  subst fb. unfold parse_line. cbv zeta.
  destruct (Str.startswith _ "SCORE:").
  { destruct (read_score_returns (mk_feedback q l1 l2 l3) (Str.strip raw))
      as [->|(q' & Hq' & ->)]; cbn [otry obind].
    - eexists; split; [done|]. split; [|done]. cbn [fst]. by exists q, l1, l2, l3.
    - eexists; split; [done|]. split; [|done]. cbn [fst].
      rewrite mk_feedback_score. by exists q', l1, l2, l3. }
  destruct (String.eqb _ "ISSUES:").
  { eexists; split; [done|]. split; cbn [fst snd]; [by exists q, l1, l2, l3|auto]. }
  destruct (String.eqb _ "SUGGESTIONS:").
  { eexists; split; [done|]. split; cbn [fst snd]; [by exists q, l1, l2, l3|auto]. }
  destruct (String.eqb _ "STRENGTHS:").
  { eexists; split; [done|]. split; cbn [fst snd]; [by exists q, l1, l2, l3|auto]. }
  destruct (Str.startswith _ "- ");
    [|by (eexists; split; [done|]; split; cbn [fst snd]; [by exists q, l1, l2, l3|auto])].
  destruct (section_open cs) as [sec|] eqn:Hsec;
    [|by (eexists; split; [done|]; split; cbn [fst snd]; [by exists q, l1, l2, l3|auto])].
  destruct (Str.nonempty _) eqn:Hitem;
    [|by (eexists; split; [done|]; split; cbn [fst snd]; [by exists q, l1, l2, l3|auto])].
  apply strip_clean in Hitem.
  assert (sec = "issues" \/ sec = "suggestions" \/ sec = "strengths") as Hs.
  { destruct Hcs as [->|[->|[->| ->]]]; cbn in Hsec; simplify_eq; auto. }
  unfold append_item, getitem.
  destruct Hs as [->|[->| ->]].
  - replace (mk_feedback q l1 l2 l3 !! "issues") with (Some (VList l1)) by done.
    cbn [obind]. rewrite mk_feedback_issues.
    eexists; split; [done|]. split; [|done]. cbn [fst].
    exists q, (l1 ++ [Str.strip (Str.drop 2 (Str.strip raw))]), l2, l3.
    repeat (split; [done|]). split; [|done].
    apply Forall_app. split; [done|]. by apply Forall_singleton.
  - replace (mk_feedback q l1 l2 l3 !! "suggestions") with (Some (VList l2)) by done.
    cbn [obind]. rewrite mk_feedback_suggestions.
    eexists; split; [done|]. split; [|done]. cbn [fst].
    exists q, l1, (l2 ++ [Str.strip (Str.drop 2 (Str.strip raw))]), l3.
    repeat (split; [done|]). split; [|done].
    apply Forall_app. split; [done|]. by apply Forall_singleton.
  - replace (mk_feedback q l1 l2 l3 !! "strengths") with (Some (VList l3)) by done.
    cbn [obind]. rewrite mk_feedback_strengths.
    eexists; split; [done|]. split; [|done]. cbn [fst].
    exists q, l1, l2, (l3 ++ [Str.strip (Str.drop 2 (Str.strip raw))]).
    repeat (split; [done|]).
    apply Forall_app. split; [done|]. by apply Forall_singleton.
Qed.

Lemma parse_lines_clean (lines : list string) (st : pstate) :
  pclean st -> exists st', parse_lines st lines = Ok st' /\ pclean st'.
Proof.
  revert st. induction lines as [|raw rest IH]; intros st Hst; cbn [parse_lines].
  - eauto.
  - destruct (parse_line_clean st raw Hst) as (st1 & -> & Hst1). cbn [obind]. eauto.
Qed.

Lemma parse_lines_app (st : pstate) (lines1 lines2 : list string) :
  parse_lines st (lines1 ++ lines2)
  = obind (parse_lines st lines1) (fun st' => parse_lines st' lines2).
Proof.
  revert st. induction lines1 as [|raw rest IH]; intros st; [done|].
  cbn [app parse_lines]. destruct (parse_line st raw) as [st'| |]; cbn [obind]; auto.
Qed.

Lemma parse_line_prose (st : pstate) (raw : string) :
  is_prose_line raw = true -> parse_line st raw = Ok st.
Proof.
  unfold is_prose_line, is_header_line, parse_line. destruct st as [fb cs].
  intros [Hhead Hitem]%andb_true_iff.
  apply negb_true_iff in Hhead, Hitem.
  repeat (apply orb_false_iff in Hhead as [Hhead ?]).
  rewrite Hhead. repeat match goal with Heq : String.eqb _ _ = false |- _ =>
    rewrite Heq; clear Heq end.
  cbv zeta. by rewrite Hitem.
Qed.

Lemma split_nonempty (sep : ascii) (s : string) : Str.split sep s <> [].
Proof.
  induction s as [|c s IH]; [done|]. cbn [Str.split].
  destruct (Ascii.eqb c sep); [done|]. by destruct (Str.split sep s).
Qed.

(** Splitting at a separator splits the two sides. *)
Lemma split_app (sep : ascii) (a b : string) :
  Str.split sep (a +:+ String sep b) = Str.split sep a ++ Str.split sep b.
Proof.
  induction a as [|c a IH].
  - rewrite append_nil_l. cbn [Str.split]. by rewrite Ascii.eqb_refl.
  - rewrite append_cons. cbn [Str.split]. rewrite IH.
    destruct (Ascii.eqb c sep); [done|].
    pose proof (split_nonempty sep a) as Hne.
    by destruct (Str.split sep a).
Qed.

Lemma split_one_line (s : string) : one_line s = true -> Str.split LF s = [s].
Proof.
  unfold one_line. induction s as [|c s IH]; [done|].
  rewrite all_chars_cons. intros [Hc Hs]%andb_true_iff.
  apply negb_true_iff in Hc. cbn [Str.split]. rewrite Hc, IH; done.
Qed.

End ParserExtras.

(** X1. Whatever the text, the parser returns a record with exactly the
    four keys [score], [issues], [suggestions] and [strengths]; the score
    is a number that is not negative, and every item of the three lists
    is non-empty and has no white space at its ends. *)
Theorem parser_result_shape (review_text : string) :
  exists q issues suggestions strengths,
    Parser._parse_review review_text
      = Ok (mk_feedback q issues suggestions strengths)
    /\ dom (mk_feedback q issues suggestions strengths)
       = ({[ "score"; "issues"; "suggestions"; "strengths" ]} : gset string)
    /\ (0 <= q)%Q
    /\ Forall clean issues /\ Forall clean suggestions /\ Forall clean strengths.
Proof.
  unfold Parser._parse_review.
  destruct (parse_lines_clean (Str.split LF review_text) (Parser.initial_feedback, None))
    as ([fb cs] & -> & (q & l1 & l2 & l3 & Hfb & Hq & H1 & H2 & H3) & _).
  { split; [|by left]. exists 5%Q, [], [], []. by repeat split. }
  cbn [fst snd obind] in *. subst fb.
  exists q, l1, l2, l3. split; [done|]. split; [|done].
  unfold mk_feedback. rewrite !dom_insert_L, dom_singleton_L. set_solver.
Qed.

(** X2. On a [SCORE:] line the number that the pattern finds always
    converts: reading the score never raises, so the [except] around it
    has nothing to catch; the line leaves the record as it is or sets its
    score to a number that is not negative. *)
Theorem score_reading_never_raises (feedback : dict) (line : string) :
  Parser.read_score feedback line = Ok feedback
  \/ exists q, (0 <= q)%Q
       /\ Parser.read_score feedback line = Ok (<["score" := VFloat q]> feedback).
Proof. apply read_score_returns. Qed.

(** X3. A line that is neither a label nor a dash item is passed over
    wherever it stands: the review with such a line between two parts
    parses to the same record as the review without it. *)
Theorem prose_line_ignored (before prose after : string) :
  one_line prose = true -> is_prose_line prose = true ->
  Parser._parse_review (before +:+ NL +:+ prose +:+ NL +:+ after)
  = Parser._parse_review (before +:+ NL +:+ after).
Proof.
  intros Hone Hprose. unfold Parser._parse_review, NL.
  rewrite !append_cons, !append_nil_l.
  rewrite !split_app, (split_one_line prose) by done.
  rewrite !parse_lines_app.
  destruct (Parser.parse_lines _ (Str.split LF before)) as [st| |]; cbn [obind]; [|done..].
  cbn [app Parser.parse_lines]. by rewrite parse_line_prose.
Qed.

Lemma prose_line_ignored_witness :
  Parser._parse_review
    ("SCORE: 8" +:+ NL +:+ "Overall a solid article." +:+ NL +:+ "ISSUES:")
  = Parser._parse_review ("SCORE: 8" +:+ NL +:+ "ISSUES:").
Proof.
  apply (prose_line_ignored "SCORE: 8" "Overall a solid article." "ISSUES:");
    reflexivity.
Defined.

(** X4. A [SCORE:] line without any digit changes nothing: the score read
    before, or the default, is kept. *)
Theorem score_line_without_number (st : Parser.pstate) (raw : string) :
  Str.startswith (Str.strip raw) "SCORE:" = true -> no_digit raw = true ->
  Parser.parse_line st raw = Ok st.
Proof.
  intros Hscore Hraw. destruct st as [fb cs].
  unfold Parser.parse_line. rewrite Hscore. unfold Parser.read_score.
  assert (no_digit (Str.strip (Str.replace "SCORE:" "" (Str.strip raw))) = true)
    as Hnone.
  { apply strip_all_chars. apply remove_all_chars. by apply strip_all_chars. }
  pose proof (re_search_skip _ EmptyString Hnone) as Hsearch.
  rewrite append_nil_r in Hsearch. rewrite Hsearch. done.
Qed.

Lemma score_line_without_number_witness :
  Parser.parse_line (mk_feedback (17 # 2) [] [] [], Some "issues") "SCORE: n/a"
  = Ok (mk_feedback (17 # 2) [] [] [], Some "issues").
Proof.
  apply (score_line_without_number
           (mk_feedback (17 # 2) [] [] [], Some "issues") "SCORE: n/a");
    reflexivity.
Defined.

(** ** The name of the output file *)

Section FilenameFacts.

Lemma filter_all_chars (p : ascii -> bool) (s : string) :
  all_chars p (Str.filter p s) = true.
Proof.
  induction s as [|c s IH]; [done|]. cbn [Str.filter].
  destruct (p c) eqn:Hc; [|done]. by rewrite all_chars_cons, Hc.
Qed.

Lemma filter_fixed (p : ascii -> bool) (s : string) :
  all_chars p s = true -> Str.filter p s = s.
Proof.
  induction s as [|c s IH]; [done|].
  rewrite all_chars_cons. intros [Hc Hs]%andb_true_iff.
  cbn [Str.filter]. by rewrite Hc, IH.
Qed.

Lemma prefix_space (c : ascii) (s : string) :
  String.prefix " " (String c s) = Ascii.eqb c " ".
Proof.
  cbn [String.prefix]. destruct (ascii_dec " " c) as [<-|Hc].
  - by destruct s.
  - symmetry. apply Ascii.eqb_neq. congruence.
Qed.

(** Putting hyphens for spaces leaves the other characters. *)
Lemma hyphens_all_chars (p q : ascii -> bool) (s : string) :
  (forall c, p c = true -> Ascii.eqb c " " = false -> q c = true) ->
  q "-"%char = true ->
  all_chars p s = true -> all_chars q (Str.replace " " "-" s) = true.
Proof.
  intros Hpq Hq. unfold Str.replace.
  induction s as [|c s IH]; [done|].
  rewrite all_chars_cons. intros [Hc Hs]%andb_true_iff.
  cbn [Str.replace_from]. rewrite prefix_space.
  destruct (Ascii.eqb c " ") eqn:Hsp.
  - cbn [String.length Nat.sub]. rewrite append_cons, append_nil_l.
    by rewrite all_chars_cons, Hq, IH.
  - by rewrite all_chars_cons, Hpq, IH.
Qed.

Lemma hyphens_fixed (s : string) :
  all_chars (fun c => negb (Ascii.eqb c " ")) s = true ->
  Str.replace " " "-" s = s.
Proof.
  unfold Str.replace. induction s as [|c s IH]; [done|].
  rewrite all_chars_cons. intros [Hc Hs]%andb_true_iff.
  apply negb_true_iff in Hc.
  cbn [Str.replace_from]. by rewrite prefix_space, Hc, IH.
Qed.

Lemma lower_all_chars (p q : ascii -> bool) (s : string) :
  (forall c, p c = true -> q (Str.lower_char c) = true) ->
  all_chars p s = true -> all_chars q (Str.lower s) = true.
Proof.
  intros Hpq. induction s as [|c s IH]; [done|].
  rewrite all_chars_cons. intros [Hc Hs]%andb_true_iff.
  cbn [Str.lower]. by rewrite all_chars_cons, Hpq, IH.
Qed.

Lemma lower_fixed (s : string) :
  all_chars (fun c => Ascii.eqb (Str.lower_char c) c) s = true ->
  Str.lower s = s.
Proof.
  induction s as [|c s IH]; [done|].
  rewrite all_chars_cons. intros [Hc Hs]%andb_true_iff.
  apply Ascii.eqb_eq in Hc. cbn [Str.lower]. by rewrite Hc, IH.
Qed.

Lemma lstrip_fixed (s : string) :
  all_chars (fun c => negb (Str.isspace c)) s = true -> Str.lstrip s = s.
Proof.
  destruct s as [|c s]; [done|].
  rewrite all_chars_cons. intros [Hc _]%andb_true_iff.
  apply negb_true_iff in Hc. cbn [Str.lstrip]. by rewrite Hc.
Qed.

Lemma rstrip_fixed (s : string) :
  all_chars (fun c => negb (Str.isspace c)) s = true -> Str.rstrip s = s.
Proof.
  induction s as [|c s IH]; [done|].
  rewrite all_chars_cons. intros [Hc Hs]%andb_true_iff.
  apply negb_true_iff in Hc. cbn [Str.rstrip]. rewrite IH by done.
  destruct s; by rewrite ?Hc.
Qed.

Lemma strip_fixed (s : string) :
  all_chars (fun c => negb (Str.isspace c)) s = true -> Str.strip s = s.
Proof.
  intros Hs. unfold Str.strip. by rewrite lstrip_fixed, rstrip_fixed.
Qed.

Lemma take_length (n : nat) (s : string) : String.length (Str.take n s) <= n.
Proof.
  revert s. induction n as [|n IH]; intros s; [by destruct s|].
  destruct s as [|c s]; cbn [Str.take String.length]; [lia|].
  specialize (IH s). lia.
Qed.

Lemma take_fixed (n : nat) (s : string) :
  String.length s <= n -> Str.take n s = s.
Proof.
  revert s. induction n as [|n IH]; intros s; destruct s as [|c s];
    cbn [Str.take String.length]; intros Hlen; [done|lia|done|].
  rewrite IH; [done|lia].
Qed.

Lemma kept_then_safe (c : ascii) :
  Str.isalnum c || Ascii.eqb c "-" = true -> safe_char (Str.lower_char c) = true.
Proof. destruct c as [[] [] [] [] [] [] [] []]; by vm_compute. Qed.

Lemma safe_char_facts (c : ascii) :
  safe_char c = true ->
  (Str.isalnum c || Ascii.eqb c " " || Ascii.eqb c "-") = true
  /\ negb (Str.isspace c) = true
  /\ negb (Ascii.eqb c " ") = true
  /\ Ascii.eqb (Str.lower_char c) c = true
  /\ path_neutral c = true.
Proof. destruct c as [[] [] [] [] [] [] [] []]; by vm_compute. Qed.

Lemma sanitize_filename_chars (topic : string) :
  all_chars safe_char (sanitize_filename topic) = true.
Proof.
  unfold sanitize_filename. apply take_all_chars.
  apply (lower_all_chars (fun c => Str.isalnum c || Ascii.eqb c "-")).
  { apply kept_then_safe. }
  apply (hyphens_all_chars
           (fun c => Str.isalnum c || Ascii.eqb c " " || Ascii.eqb c "-")).
  - intros c Hc Hsp. rewrite Hsp, orb_false_r in Hc. done.
  - done.
  - apply strip_all_chars, filter_all_chars.
Qed.

Lemma lstrip_spaces (s : string) :
  all_chars Str.isspace s = true -> Str.lstrip s = EmptyString.
Proof.
  induction s as [|c s IH]; [done|].
  rewrite all_chars_cons. intros [Hc Hs]%andb_true_iff.
  cbn [Str.lstrip]. by rewrite Hc, IH.
Qed.

End FilenameFacts.

(** X5. The name [sanitize_filename] makes of a topic has at most 100
    characters, each a lower-case letter, a digit or a hyphen, so it holds
    no path separator, dot or white space; sanitizing it again changes
    nothing. *)
Theorem sanitize_filename_safe (topic : string) :
  String.length (sanitize_filename topic) <= 100
  /\ all_chars safe_char (sanitize_filename topic) = true
  /\ all_chars path_neutral (sanitize_filename topic) = true
  /\ sanitize_filename (sanitize_filename topic) = sanitize_filename topic.
Proof.
  pose proof (sanitize_filename_chars topic) as Hsafe.
  assert (String.length (sanitize_filename topic) <= 100) as Hlen.
  { apply take_length. }
  split; [done|]. split; [done|]. split.
  - eapply all_chars_impl; [|done]. intros c Hc. by apply safe_char_facts.
  - set (name := sanitize_filename topic) in *. unfold sanitize_filename.
    rewrite filter_fixed.
    2: { eapply all_chars_impl; [|exact Hsafe]. intros c Hc. by apply safe_char_facts. }
    rewrite strip_fixed.
    2: { eapply all_chars_impl; [|exact Hsafe]. intros c Hc. by apply safe_char_facts. }
    rewrite hyphens_fixed.
    2: { eapply all_chars_impl; [|exact Hsafe]. intros c Hc. by apply safe_char_facts. }
    rewrite lower_fixed.
    2: { eapply all_chars_impl; [|exact Hsafe]. intros c Hc. by apply safe_char_facts. }
    by apply take_fixed.
Qed.

(** X6. A topic without any letter, digit or hyphen gives the empty name,
    and the file is then called ".md". *)
Theorem sanitize_filename_empty (topic : string) :
  all_chars (fun c => negb (Str.isalnum c || Ascii.eqb c "-")) topic = true ->
  sanitize_filename topic = EmptyString.
Proof.
  intros Htopic. unfold sanitize_filename.
  assert (all_chars Str.isspace
            (Str.filter (fun c => Str.isalnum c || Ascii.eqb c " " || Ascii.eqb c "-")
               topic) = true) as Hspaces.
  { induction topic as [|c topic IH]; [done|].
    rewrite all_chars_cons in Htopic. apply andb_true_iff in Htopic as [Hc Htopic].
    cbn [Str.filter].
    destruct (Ascii.eqb_spec c " ") as [->|Hsp].
    - cbn. by apply IH.
    - apply negb_true_iff, orb_false_iff in Hc as [Ha Hd].
      rewrite Ha, Hd. cbn. by apply IH. }
  unfold Str.strip. by rewrite lstrip_spaces.
Qed.

Lemma sanitize_filename_empty_witness : sanitize_filename "?! (...) /" = EmptyString.
Proof. apply sanitize_filename_empty. reflexivity. Defined.

(** ** The editor's records *)

Section RecordFacts.

Variable client : Client.
Variable cfg : Config.
Variable utils : Utils.

Lemma bind_run {A B} (m : M A) (f : A -> M B) (w w1 : World) (a : A) :
  m w = (Ok a, w1) -> bind m f w = f a w1.
Proof. unfold bind. by intros ->. Qed.

Lemma load_run (l : loc) (d : dict) (w : World) :
  heap w !! l = Some d -> load l w = (Ok d, w).
Proof. unfold load. by intros ->. Qed.

(** The report, from the latest record of the history. *)
Lemma generate_final_report_run (w : World) (l : loc) (d : dict) (q : Q)
    (strengths : list string) :
  last (editor_feedback (memory w)) = Some l -> heap w !! l = Some d ->
  as_float (dict_get d "score" (VInt 0)) = Ok q ->
  strengths_of (dict_get d "strengths" (VList ["N/A"])) = Ok strengths ->
  generate_final_report cfg w
  = (Ok {| rp_iterations := length (editor_feedback (memory w));
           rp_score := q;
           rp_approved := Qle_bool (QUALITY_THRESHOLD cfg) q;
           rp_strengths := strengths;
           rp_word_count := count_words (latest_draft (memory w));
           rp_structure := Str.contains (latest_draft (memory w)) "##";
           rp_seo_optimized :=
             match seo_data (memory w) with Some _ => true | None => false end |},
     w).
Proof.
  intros Hlast Hd Hq Hs. unfold generate_final_report.
  erewrite bind_run by reflexivity.
  erewrite bind_run by (rewrite get_latest_feedback_eq, Hlast; reflexivity).
  erewrite bind_run by (by apply load_run).
  erewrite bind_run by (unfold lift; rewrite Hq; reflexivity).
  erewrite bind_run by (unfold lift; rewrite Hs; reflexivity).
  erewrite bind_run by apply get_latest_draft_eq.
  erewrite bind_run by reflexivity.
  reflexivity.
Qed.

End RecordFacts.

(** X7. The record a review returns is the one it has appended to the
    history: [get_latest_feedback] then yields the same reference, and
    [get_feedback_count] the number of the round.  That record holds the
    combined score under [score] and the number of the round under
    [iteration]; its other keys are those of the record built from the
    reviewer's answer. *)
Theorem review_stores_record (client : Client) (cfg : Config) (utils : Utils)
    (draft : string) (w : World) :
  wf w ->
  let a := generate_content client (calls w) in
  let iteration := length (editor_feedback (memory w)) + 1 in
  exists approved w' d,
    review client cfg utils draft w = (Ok (approved, length (heap w)), w')
    /\ Memory.get_latest_feedback w' = (Ok (length (heap w)), w')
    /\ Memory.get_feedback_count w' = (Ok iteration, w')
    /\ heap w' !! length (heap w) = Some d
    /\ d !! "score" = Some (VFloat (combined_score utils draft a))
    /\ d !! "iteration" = Some (VInt iteration)
    /\ forall k, k <> "score" -> k <> "iteration" ->
         d !! k = detailed_feedback a !! k.
Proof.
  intros Hwf a iteration.
  destruct (review_returns client cfg utils draft w Hwf)
    as (w' & Hreview & Hheap & Hfb & _ & _).
  exists (approves cfg utils draft a iteration), w',
    (reviewed_feedback utils draft a iteration).
  split; [done|]. split; [|split; [|split; [done|]]].
  - rewrite get_latest_feedback_eq, Hfb, last_snoc. done.
  - unfold Memory.get_feedback_count, read_memory.
    rewrite Hfb, length_app. done.
  - unfold reviewed_feedback. split; [|split].
    + by rewrite lookup_insert_ne, lookup_insert_eq.
    + by rewrite lookup_insert_eq.
    + intros k Hscore Hit. by rewrite !lookup_insert_ne.
Qed.

Lemma review_stores_record_witness :
  exists approved w' d,
    review (constant_client "SCORE: 9") config (sample_utils 6) "A draft."
      (initial_world "") = (Ok (approved, 0), w')
    /\ Memory.get_latest_feedback w' = (Ok 0, w')
    /\ heap w' !! 0 = Some d
    /\ d !! "iteration" = Some (VInt 1).
Proof.
  destruct (review_stores_record (constant_client "SCORE: 9") config
              (sample_utils 6) "A draft." (initial_world "")
              (wf_initial_world ""))
    as (approved & w' & d & Hreview & Hlatest & _ & Hd & _ & Hit & _).
  exists approved, w', d. exact (conj Hreview (conj Hlatest (conj Hd Hit))).
Defined.

(** X8. The final report takes its status from the score alone.  After a
    review that approves only because the budget of rounds is used up, the
    score being below the threshold, the report says that the article is
    not approved, with that score and the number of the round. *)
Theorem forced_approval_reported_as_failure (client : Client) (cfg : Config)
    (utils : Utils) (draft : string) (w : World) :
  wf w ->
  let a := generate_content client (calls w) in
  let iteration := length (editor_feedback (memory w)) + 1 in
  Qle_bool (QUALITY_THRESHOLD cfg) (combined_score utils draft a) = false ->
  MAX_EDITOR_ITERATIONS cfg <= iteration ->
  exists w' rep,
    review client cfg utils draft w = (Ok (true, length (heap w)), w')
    /\ generate_final_report cfg w' = (Ok rep, w')
    /\ rp_approved rep = false
    /\ rp_score rep = combined_score utils draft a
    /\ rp_iterations rep = iteration.
Proof.
  intros Hwf a iteration Hlow Hmax.
  destruct (review_returns client cfg utils draft w Hwf)
    as (w' & Hreview & Hheap & Hfb & _ & _).
  fold a iteration in Hreview, Hheap.
  assert (approves cfg utils draft a iteration = true) as Happ.
  { unfold approves. rewrite Hlow. by apply Nat.leb_le. }
  rewrite Happ in Hreview.
  assert (exists strengths,
            strengths_of (dict_get (reviewed_feedback utils draft a iteration)
                            "strengths" (VList ["N/A"])) = Ok strengths)
    as [strengths Hstrengths] by apply reviewed_feedback_typed.
  eexists w', _. split; [done|]. split.
  - eapply (generate_final_report_run cfg w' (length (heap w))).
    + by rewrite Hfb, last_snoc.
    + done.
    + unfold reviewed_feedback, dict_get.
      by rewrite lookup_insert_ne, lookup_insert_eq.
    + done.
  - cbn [rp_approved rp_score rp_iterations]. split; [done|]. split; [done|].
    rewrite Hfb, length_app. done.
Qed.

Lemma forced_approval_reported_as_failure_witness :
  exists w' rep,
    review (constant_client "SCORE: 3") (config_of_budget 1) (sample_utils 4)
      "A draft." (initial_world "") = (Ok (true, 0), w')
    /\ generate_final_report (config_of_budget 1) w' = (Ok rep, w')
    /\ rp_approved rep = false.
Proof.
  destruct (forced_approval_reported_as_failure (constant_client "SCORE: 3")
              (config_of_budget 1) (sample_utils 4) "A draft." (initial_world "")
              (wf_initial_world "") eq_refl)
    as (w' & rep & Hreview & Hreport & Happ & _).
  - cbn. lia.
  - exists w', rep. exact (conj Hreview (conj Hreport Happ)).
Defined.

(** X9. On an empty history the report falls back on the defaults of its
    reads: no round, score 0, the one strength "N/A", and a status that
    compares 0 with the threshold; the memory bank is left as it is. *)
Theorem report_on_empty_history (cfg : Config) (w : World) :
  editor_feedback (memory w) = [] ->
  exists rep w',
    generate_final_report cfg w = (Ok rep, w')
    /\ memory w' = memory w
    /\ rp_iterations rep = 0
    /\ rp_score rep = 0%Q
    /\ rp_strengths rep = ["N/A"]
    /\ rp_approved rep = Qle_bool (QUALITY_THRESHOLD cfg) 0.
Proof.
  intros Hempty. unfold generate_final_report.
  erewrite bind_run by reflexivity.
  erewrite bind_run by (rewrite get_latest_feedback_eq, Hempty; reflexivity).
  erewrite bind_run.
  2: { apply load_run. cbn [heap write]. apply list_lookup_middle. done. }
  erewrite bind_run by reflexivity.
  erewrite bind_run by reflexivity.
  erewrite bind_run by apply get_latest_draft_eq.
  erewrite bind_run by reflexivity.
  eexists _, _. split; [reflexivity|]. cbn. by rewrite Hempty.
Qed.

Lemma report_on_empty_history_witness :
  exists rep w',
    generate_final_report config (initial_world "") = (Ok rep, w')
    /\ rp_iterations rep = 0
    /\ rp_strengths rep = ["N/A"]
    /\ rp_approved rep = false.
Proof.
  destruct (report_on_empty_history config (initial_world "") eq_refl)
    as (rep & w' & Hrun & _ & Hit & _ & Hstrengths & Happ).
  exists rep, w'. exact (conj Hrun (conj Hit (conj Hstrengths Happ))).
Defined.

(** ** The writer *)

(** X10. An empty feedback record counts as no feedback: [write_draft]
    then writes a first draft, as it does without any feedback. *)
Theorem write_draft_empty_feedback (client : Client) (feedback : loc) (w : World) :
  heap w !! feedback = Some ∅ ->
  write_draft client (Some feedback) w = write_draft client None w.
Proof.
  intros Hempty. unfold write_draft.
  erewrite !bind_run by reflexivity.
  erewrite bind_run by (by apply load_run).
  done.
Qed.

Lemma write_draft_empty_feedback_witness :
  write_draft failing_client (Some 0) empty_record_world
  = write_draft failing_client None empty_record_world.
Proof. apply write_draft_empty_feedback. reflexivity. Defined.

(** X11. [write_draft] makes one call of the client and writes nothing: the
    heap and the memory bank are left as they are, so it is the controller
    that appends the draft.  When the client answers, the text is
    returned as it is. *)
Theorem write_draft_only_calls (client : Client) (editor_feedback : option loc)
    (w : World) :
  wf w ->
  match editor_feedback with
  | Some feedback => is_Some (heap w !! feedback)
  | None => True
  end ->
  exists draft w',
    write_draft client editor_feedback w = (Ok draft, w')
    /\ heap w' = heap w /\ memory w' = memory w /\ calls w' = S (calls w)
    /\ forall text, generate_content client (calls w) = Answer text -> draft = text.
Proof.
  intros Hwf Hfeedback.
  assert (wp (write_draft client editor_feedback)
            (returns (fun draft w' =>
               heap w' = heap w /\ memory w' = memory w /\ calls w' = S (calls w)
               /\ forall text,
                    generate_content client (calls w) = Answer text -> draft = text))
            w) as (_ & _ & Hpost).
  { destruct editor_feedback as [feedback|].
    - destruct Hfeedback as [fb Hfb].
      destruct (decide (size fb = 0)) as [Hsize|Hsize].
      + unfold write_draft, _create_initial_draft.
        do 5 wp_step. apply (wp_load _ fb); [done|done|].
        rewrite bool_decide_eq_true_2 by done.
        repeat wp_step; (eexists; split; [done|]); repeat (split; [done|]);
          congruence.
      + eapply wp_use; [by eapply write_draft_revise_spec|].
        intros o w' _ (draft & -> & -> & Hheap & Hmem & Hcalls).
        eexists. split; [done|]. repeat (split; [done|]).
        by intros text ->.
    - eapply wp_use; [by apply write_draft_initial_spec|].
      intros o w' _ (draft & -> & -> & Hheap & Hmem & Hcalls).
      eexists. split; [done|]. repeat (split; [done|]).
      by intros text ->. }
  destruct (write_draft client editor_feedback w) as [o w']. cbn [fst snd] in *.
  destruct Hpost as (draft & -> & Hpost). by exists draft, w'.
Qed.

Lemma write_draft_only_calls_witness :
  exists draft w',
    write_draft (constant_client "## A first draft") None (initial_world "")
      = (Ok draft, w')
    /\ memory w' = memory (initial_world "")
    /\ calls w' = 1.
Proof.
  destruct (write_draft_only_calls (constant_client "## A first draft") None
              (initial_world "") (wf_initial_world "") I)
    as (draft & w' & Hrun & _ & Hmem & Hcalls & _).
  exists draft, w'. exact (conj Hrun (conj Hmem Hcalls)).
Defined.

(** ** The calls of the client *)

Section CallFacts.

Variable client : Client.
Variable cfg : Config.
Variable utils : Utils.

Lemma wp_both {A} (m : M A) (P Q : A -> World -> Prop) (w : World) :
  wp m (returns P) w -> wp m (returns Q) w ->
  wp m (returns (fun a w' => P a w' /\ Q a w')) w.
Proof.
  intros (Hwf & Hsuf & a & Ha & HP) (_ & _ & b & Hb & HQ).
  split; [done|]. split; [done|]. exists a. split; [done|].
  rewrite Ha in Hb. injection Hb as <-. done.
Qed.

Lemma wp_returns {A} (m : M A) (P : A -> World -> Prop) (w : World) :
  wp m (returns P) w -> exists a w', m w = (Ok a, w') /\ wf w' /\ P a w'.
Proof.
  intros (Hwf & _ & a & Ha & HP). destruct (m w) as [o w']. cbn [fst snd] in *.
  subst o. by exists a, w'.
Qed.

(** The researcher, with its calls: the brief comes from the first
    candidate of the search when there is one, and from the fallback
    otherwise. *)
Lemma research_calls (topic : string) (w : World) :
  wf w ->
  wp (research client utils topic)
     (returns (fun brief w' =>
        heap w' = heap w
        /\ memory w' = set_research brief (memory w)
        /\ calls w'
           = calls w + research_cost (generate_content_search client (calls w))
        /\ brief
           = match first_candidate (generate_content_search client (calls w)) with
             | Some candidate =>
                 format_research_brief utils topic
                   (compact_research_context utils [findings_of candidate])
                   (extract_sources candidate)
             | None =>
                 fallback_brief utils topic (generate_content client (S (calls w)))
             end)) w.
Proof.
  intros Hwf. unfold research, _fallback_research, research_cost.
  repeat wp_step; cbn [first_candidate].
  - destruct (candidates a) as [|candidate rest]; cbn [index_first head].
    + repeat wp_step; (eexists; split; [done|]);
        (split; [congruence|]); (split; [congruence|]);
        (split; [lia|]); by rewrite <- Hcalls, Hanswer0.
    + repeat wp_step. eexists. split; [done|].
      split; [congruence|]. split; [congruence|]. split; [lia|done].
  - eexists. split; [done|]. split; [congruence|]. split; [congruence|].
    split; [lia|]. by rewrite <- Hcalls, Hanswer0.
  - eexists. split; [done|]. split; [congruence|]. split; [congruence|].
    split; [lia|]. by rewrite <- Hcalls, Hanswer0.
Qed.

Lemma optimize_calls (draft topic : string) (w : World) :
  wf w ->
  wp (optimize client draft topic)
     (returns (fun optimized_draft w' =>
        optimized_draft
          = optimized_text draft (generate_content client (S (calls w)))
        /\ heap w' = heap w
        /\ memory w'
           = set_seo {| keywords := keywords_of topic
                                      (generate_content client (calls w));
                        seo_topic := topic;
                        optimized := true |} (memory w)
        /\ calls w' = S (S (calls w)))) w.
Proof.
  intros Hwf. unfold optimize, _identify_keywords, _optimize_content.
  repeat wp_step; (eexists; split; [done|]);
    rewrite <- ?Hcalls, ?Hanswer0; cbn [keywords_of optimized_text];
    (split; [done|]); (split; [congruence|]); split; congruence.
Qed.

Lemma generate_meta_tags_calls (draft : string) (kws : list string)
    (topic : string) (w : World) :
  wf w ->
  wp (generate_meta_tags client draft kws topic)
     (returns (fun tags w' =>
        tags = meta_tags_of topic (generate_content client (calls w))
        /\ heap w' = heap w /\ memory w' = memory w
        /\ calls w' = S (calls w))) w.
Proof.
  intros Hwf. unfold generate_meta_tags.
  repeat wp_step; (eexists; split; [done|]); by rewrite ?Hanswer.
Qed.

Lemma generate_final_report_calls (w : World) :
  wf w ->
  wp (generate_final_report cfg)
     (returns (fun rep w' => memory w' = memory w /\ calls w' = calls w)) w.
Proof.
  intros Hwf. unfold generate_final_report.
  do 6 wp_step.
  destruct Htyped as [[q ->] [l' ->]].
  repeat wp_step. eexists. split; [done|]. by split.
Qed.

Lemma final_output_calls (topic : string) (brief : ResearchBrief) (w : World) :
  wf w ->
  wp (final_output client cfg utils topic brief)
     (returns (fun pub w' => calls w' = S (calls w))) w.
Proof.
  intros Hwf. unfold final_output.
  do 5 wp_step.
  eapply wp_use; [by apply generate_meta_tags_calls|].
  intros o w1 Hwf1 (tags & -> & _ & Hheap1 & Hmem1 & Hcalls1).
  do 10 wp_step.
  destruct Htyped as [[q ->] _].
  wp_step.
  eapply wp_use; [by apply generate_final_report_calls|].
  intros o w3 Hwf3 (rep & -> & Hmem3 & Hcalls3).
  wp_step. eexists. split; [done|]. congruence.
Qed.

(** A round makes one call when it approves, and two when it sends the
    draft back. *)
Lemma review_round_calls (w : World) :
  wf w ->
  wp (review_round client cfg utils)
     (returns (fun (approved : bool) w' =>
        calls w' = calls w + (if approved then 1 else 2))) w.
Proof.
  intros Hwf. unfold review_round.
  do 3 wp_step.
  eapply wp_use; [by apply review_spec|].
  intros o w1 Hwf1 (r & -> & -> & Hheap1 & Hmem1 & Hcalls1).
  cbn beta iota zeta.
  destruct (approves cfg utils _ _ _) eqn:Happroves; cbn [negb].
  - repeat wp_step. eexists. split; [done|]. cbv iota. lia.
  - do 2 wp_step.
    eapply wp_use.
    { eapply write_draft_revise_spec; [done| |apply reviewed_feedback_size].
      rewrite Hheap1. apply lookup_last. }
    intros o w2 Hwf2 (revised & -> & -> & Hheap2 & Hmem2 & Hcalls2).
    repeat wp_step. eexists. split; [done|]. cbv iota. lia.
Qed.

Lemma spends_round (c0 i : nat) (w : World) :
  wf w -> i < MAX_EDITOR_ITERATIONS cfg -> spends cfg c0 false i w ->
  wp (review_round client cfg utils)
     (returns (fun approved' w' => spends cfg c0 approved' (i + 1) w')) w.
Proof.
  intros Hwf Hi [Hcounts Hcalls].
  eapply wp_use.
  { apply wp_both; [by apply (counts_round client cfg utils 0 i)|].
    by apply review_round_calls. }
  intros o w' Hwf' (approved & -> & Hcounts' & Hcalls').
  exists approved. split; [done|]. split; [done|].
  destruct approved; lia.
Qed.

Lemma drafts_round (i : nat) (w : World) :
  wf w -> i < MAX_EDITOR_ITERATIONS cfg -> drafts_grow cfg false i w ->
  wp (review_round client cfg utils)
     (returns (fun approved' w' => drafts_grow cfg approved' (i + 1) w')) w.
Proof.
  intros Hwf Hi [Hcounts Hdrafts].
  eapply wp_use.
  { apply wp_both; [by apply (counts_round client cfg utils 0 i)|].
    by apply review_round_history. }
  intros o w' Hwf' (approved & -> & Hcounts' & _ & _ & Hsame & Hmore).
  exists approved. split; [done|]. split; [done|].
  destruct approved.
  - rewrite Hsame by done. lia.
  - rewrite Hmore by done. rewrite length_app. cbn [length]. lia.
Qed.

(** The calls of a run that reaches its end. *)
Lemma pipeline_calls (fuel : nat) (topic : string) (w : World) :
  wf w -> editor_feedback (memory w) = [] ->
  1 <= MAX_EDITOR_ITERATIONS cfg -> MAX_EDITOR_ITERATIONS cfg <= fuel ->
  wp (pipeline client cfg utils fuel topic)
     (returns (fun pub w' =>
        1 <= editor_reviews pub <= MAX_EDITOR_ITERATIONS cfg
        /\ calls w'
           = calls w + research_cost (generate_content_search client (calls w))
             + 3 + 2 * editor_reviews pub)) w.
Proof.
  intros Hwf Hempty Hmax Hfuel. unfold pipeline.
  wp_step. eapply wp_use; [by apply research_calls|].
  intros o w1 Hwf1 (brief & -> & Hheap1 & Hmem1 & Hcalls1 & _).
  wp_step. eapply wp_use; [by apply write_draft_initial_spec|].
  intros o w2 Hwf2 (initial_draft & -> & -> & Hheap2 & Hmem2 & Hcalls2).
  wp_step. apply wp_add_draft; [done|]. intros w3 Hwf3 Hheap3 Hmem3 Hcalls3.
  wp_step. eapply wp_use; [by apply optimize_calls|].
  intros o w4 Hwf4 (optimized_draft & -> & -> & Hheap4 & Hmem4 & Hcalls4).
  wp_step. apply wp_add_draft; [done|]. intros w5 Hwf5 Hheap5 Hmem5 Hcalls5.
  wp_step.
  eapply wp_use;
    [apply (review_loop_rule client cfg utils (spends cfg (calls w5))
              (spends_round (calls w5))); [done|]|].
  { split; [|lia]. unfold counts.
    rewrite Hmem5, Hmem4, Hmem3, Hmem2, Hmem1. cbn. rewrite Hempty. cbn.
    split; [done|]. split; [lia|]. split; [lia|done]. }
  intros [[approved n]| |] w6 Hwf6; [|done|intros [? _]; lia].
  intros [[(Hlen & Hn & Hfalse & Htrue) Hspent] Hexit]. cbn [fst snd] in *.
  assert (approved = true) as ->.
  { destruct approved; [done|]. specialize (Hfalse eq_refl).
    destruct Hexit as [?|?]; [done|lia]. }
  specialize (Htrue eq_refl).
  eapply wp_use.
  { apply wp_both; [by apply final_output_spec|by apply final_output_calls]. }
  intros o w7 Hwf7 (pub & -> & (Hmem7 & Hpub) & Hcalls7).
  destruct Hpub as (_ & _ & _ & Hreviews & _).
  exists pub. split; [done|]. rewrite Hreviews, Hlen. split; [lia|]. lia.
Qed.

(** The history after a round: the records it held, and the record of
    the round. *)
Lemma review_round_records (w : World) :
  wf w ->
  wp (review_round client cfg utils)
     (returns (fun approved w' =>
        obs_feedback (observe (heap w') (memory w'))
        = obs_feedback (observe (heap w) (memory w))
          ++ [reviewed_feedback utils (latest_draft (memory w))
                (generate_content client (calls w))
                (length (editor_feedback (memory w)) + 1)])) w.
Proof.
  intros Hwf. eapply wp_use; [by apply review_round_spec|].
  intros o w' Hwf' (approved & -> & Happ & Hheap & Hmem).
  exists approved. split; [done|]. cbn [observe obs_feedback].
  assert (editor_feedback (memory w')
          = editor_feedback (memory w) ++ [length (heap w)]) as ->.
  { rewrite Hmem. by destruct approved. }
  rewrite Hheap, fmap_app. f_equal.
  - apply Forall_fmap_ext_1. eapply Forall_impl; [apply Hwf|].
    intros l Hl. by apply deref_app.
  - cbn. unfold deref. by rewrite lookup_last.
Qed.

Lemma numbered_round (i : nat) (w : World) :
  wf w -> i < MAX_EDITOR_ITERATIONS cfg -> numbered w ->
  wp (review_round client cfg utils)
     (returns (fun approved' w' => numbered w')) w.
Proof.
  intros Hwf _ Hnum.
  eapply wp_use; [by apply review_round_records|].
  intros o w' Hwf' (approved & -> & Hrecords).
  exists approved. split; [done|]. unfold numbered. rewrite Hrecords.
  intros j d Hj. apply lookup_app_Some in Hj as [Hj|[Hlen Hj]].
  - by apply Hnum.
  - apply list_lookup_singleton_Some in Hj as [Hj <-].
    unfold reviewed_feedback. rewrite lookup_insert_eq.
    cbn [observe obs_feedback] in *. rewrite length_fmap in *.
    do 2 f_equal. lia.
Qed.

End CallFacts.

(** ** The researcher *)

Section ResearchFacts.

Lemma omap_length_le {A B} (f : A -> option B) (l : list A) :
  length (omap f l) <= length l.
Proof.
  induction l as [|x l IH]; [done|]. cbn. destruct (f x); cbn; lia.
Qed.

Lemma extract_sources_length (candidate : Candidate) :
  length (extract_sources candidate) <= 6.
Proof.
  unfold extract_sources.
  destruct (grounding_metadata candidate) as [grounding|]; [|cbn; lia].
  rewrite length_app.
  assert (length (if search_entry_point grounding
                  then ["Google Search"] else []) <= 1) as Hentry.
  { destruct (search_entry_point grounding); cbn; lia. }
  destruct (grounding_chunks grounding) as [chunks|]; [|cbn; lia].
  pose proof (omap_length_le
                (fun chunk : option WebChunk =>
                   match chunk with
                   | Some web => Some (default "Web Source" (uri web))
                   | None => None
                   end) (firstn 5 chunks)) as Hchunks.
  rewrite length_take in Hchunks. lia.
Qed.

End ResearchFacts.

(** ** The SEO agent *)

Section SeoFacts.

Lemma keywords_of_length (topic : string) (a : answer string) :
  1 <= length (keywords_of topic a) <= 10.
Proof.
  destruct a as [text|reason]; cbn [keywords_of]; [|cbn; lia].
  rewrite length_take, length_fmap.
  pose proof (split_nonempty ","%char (Str.strip text)) as Hsplit.
  destruct (Str.split ","%char (Str.strip text)); [done|]. cbn [length]. lia.
Qed.

Lemma keywords_of_stripped (topic text : string) :
  Forall (fun kw => Str.strip kw = kw) (keywords_of topic (Answer text)).
Proof.
  cbn [keywords_of]. apply Forall_take, Forall_fmap, Forall_forall.
  intros kw _. apply strip_strip.
Qed.

Lemma meta_fold_title (lines : list string) (acc : MetaTags) :
  forallb (fun line => negb (Str.startswith line "TITLE:")) lines = true ->
  mt_title (foldl meta_line acc lines) = mt_title acc.
Proof.
  revert acc. induction lines as [|line lines IH]; intros acc Hlines; [done|].
  cbn [forallb foldl] in *. apply andb_true_iff in Hlines as [Hline Hlines].
  apply negb_true_iff in Hline.
  rewrite IH by done. unfold meta_line. rewrite Hline.
  by destruct (Str.startswith line "DESCRIPTION:").
Qed.

Lemma meta_fold_description (lines : list string) (acc : MetaTags) :
  forallb (fun line => negb (Str.startswith line "DESCRIPTION:")) lines = true ->
  mt_description (foldl meta_line acc lines) = mt_description acc.
Proof.
  revert acc. induction lines as [|line lines IH]; intros acc Hlines; [done|].
  cbn [forallb foldl] in *. apply andb_true_iff in Hlines as [Hline Hlines].
  apply negb_true_iff in Hline.
  rewrite IH by done. unfold meta_line. rewrite Hline.
  by destruct (Str.startswith line "TITLE:").
Qed.

End SeoFacts.

(** X12. [optimize] always returns a text and stores an SEO record for
    the topic, whatever the client does, and leaves the drafts alone.  The
    record holds between one and ten keywords: when the first call
    answers, the first ten pieces of the stripped answer cut at the
    commas, each stripped of the white space at its ends; when it fails,
    the four fallback keywords.  The text returned is the answer of the
    second call, or the draft unchanged when that call fails. *)
Theorem optimize_keywords (client : Client) (draft topic : string) (w : World) :
  wf w ->
  exists text w' kws,
    optimize client draft topic w = (Ok text, w')
    /\ seo_data (memory w')
       = Some {| keywords := kws; seo_topic := topic; optimized := true |}
    /\ drafts (memory w') = drafts (memory w)
    /\ 1 <= length kws <= 10
    /\ (forall answer, generate_content client (calls w) = Answer answer ->
          kws = firstn 10 (Str.strip <$> Str.split ","%char (Str.strip answer))
          /\ Forall (fun kw => Str.strip kw = kw) kws)
    /\ (forall reason, generate_content client (calls w) = Failure reason ->
          kws = [Str.lower topic; "blog"; "guide"; "tutorial"])
    /\ (forall optimized,
          generate_content client (S (calls w)) = Answer optimized ->
          text = optimized)
    /\ (forall reason, generate_content client (S (calls w)) = Failure reason ->
          text = draft).
Proof.
  intros Hwf.
  destruct (wp_returns _ _ _ (optimize_calls client draft topic w Hwf))
    as (text & w' & Hrun & _ & Htext & _ & Hmem & _).
  exists text, w', (keywords_of topic (generate_content client (calls w))).
  split; [done|]. rewrite Hmem. cbn [set_seo seo_data drafts].
  split; [done|]. split; [done|]. split; [apply keywords_of_length|].
  split; [|split; [|split]].
  - intros answer ->. split; [done|]. apply keywords_of_stripped.
  - by intros reason ->.
  - intros optimized Hanswer. by rewrite Htext, Hanswer.
  - intros reason Hfail. by rewrite Htext, Hfail.
Qed.

Lemma optimize_keywords_witness :
  exists text w' kws,
    optimize (constant_client " remote work , home office") "A draft." "Topic"
      (initial_world "") = (Ok text, w')
    /\ seo_data (memory w')
       = Some {| keywords := kws; seo_topic := "Topic"; optimized := true |}
    /\ 1 <= length kws <= 10
    /\ kws = firstn 10 (Str.strip <$> Str.split ","%char
                          (Str.strip " remote work , home office"))
    /\ text = " remote work , home office".
Proof.
  destruct (optimize_keywords (constant_client " remote work , home office")
              "A draft." "Topic" (initial_world "") (wf_initial_world ""))
    as (text & w' & kws & Hrun & Hseo & _ & Hlen & Hkws & _ & Htext & _).
  exists text, w', kws.
  exact (conj Hrun (conj Hseo (conj Hlen
           (conj (proj1 (Hkws _ eq_refl)) (Htext _ eq_refl))))).
Defined.

(** X13. [generate_meta_tags] always returns tags and writes nothing.  The
    title is the topic unless a line of the answer starts with [TITLE:],
    and also when the call fails; the description is empty unless a line
    of the answer starts with [DESCRIPTION:], and a fixed sentence about
    the topic when the call fails. *)
Theorem meta_tags_defaults (client : Client) (draft : string)
    (keywords : list string) (topic : string) (w : World) :
  wf w ->
  exists tags w',
    generate_meta_tags client draft keywords topic w = (Ok tags, w')
    /\ memory w' = memory w
    /\ match generate_content client (calls w) with
       | Answer result =>
           (no_line_starts "TITLE:" result = true -> mt_title tags = topic)
           /\ (no_line_starts "DESCRIPTION:" result = true ->
               mt_description tags = EmptyString)
       | Failure _ =>
           mt_title tags = topic
           /\ mt_description tags
              = "Learn about " +:+ topic +:+ " in this comprehensive guide."
       end.
Proof.
  intros Hwf.
  destruct (wp_returns _ _ _
              (generate_meta_tags_calls client draft keywords topic w Hwf))
    as (tags & w' & Hrun & _ & -> & _ & Hmem & _).
  exists (meta_tags_of topic (generate_content client (calls w))), w'.
  split; [done|]. split; [done|].
  destruct (generate_content client (calls w)) as [result|reason];
    cbn [meta_tags_of]; [|done].
  split; intros Hlines.
  - by rewrite meta_fold_title.
  - by rewrite meta_fold_description.
Qed.

Lemma meta_tags_defaults_witness :
  exists tags w',
    generate_meta_tags (constant_client "An answer without labels") "A draft."
      [] "Topic" (initial_world "") = (Ok tags, w')
    /\ mt_title tags = "Topic"
    /\ mt_description tags = EmptyString.
Proof.
  destruct (meta_tags_defaults (constant_client "An answer without labels")
              "A draft." [] "Topic" (initial_world "") (wf_initial_world ""))
    as (tags & w' & Hrun & _ & Htitle & Hdescription).
  exists tags, w'.
  exact (conj Hrun (conj (Htitle eq_refl) (Hdescription eq_refl))).
Defined.

(** ** The researcher *)

(** X14. When the search answers with a candidate, [research] makes one
    call and no more: the brief is formatted from the texts of the first
    candidate, empty parts left out, and from its sources, and it is
    stored.  The sources are at most six, "Google Search" and five chunks,
    and none when the candidate has no grounding metadata. *)
Theorem research_from_search (client : Client) (utils : Utils) (topic : string)
    (w : World) (response : GroundedResponse) (candidate : Candidate)
    (rest : list Candidate) :
  wf w ->
  generate_content_search client (calls w) = Answer response ->
  candidates response = candidate :: rest ->
  exists w',
    research client utils topic w
    = (Ok (format_research_brief utils topic
             (compact_research_context utils [findings_of candidate])
             (extract_sources candidate)), w')
    /\ research_data (memory w')
       = Some (format_research_brief utils topic
                 (compact_research_context utils [findings_of candidate])
                 (extract_sources candidate))
    /\ calls w' = S (calls w)
    /\ length (extract_sources candidate) <= 6
    /\ (grounding_metadata candidate = None -> extract_sources candidate = []).
Proof.
  intros Hwf Hanswer Hcandidates.
  destruct (wp_returns _ _ _ (research_calls client utils topic w Hwf))
    as (brief & w' & Hrun & _ & _ & Hmem & Hcalls & ->).
  rewrite Hanswer in *. unfold research_cost in *. cbn [first_candidate] in *.
  rewrite Hcandidates in *. cbn [head] in *.
  exists w'. split; [done|]. rewrite Hmem. split; [done|]. split; [lia|].
  split; [apply extract_sources_length|].
  intros Hnone. unfold extract_sources. by rewrite Hnone.
Qed.

Lemma research_from_search_witness :
  exists w' brief,
    research scenario_client (sample_utils 6) "Remote work" (initial_world "")
    = (Ok brief, w')
    /\ research_data (memory w') = Some brief
    /\ calls w' = 1.
Proof.
  destruct (research_from_search scenario_client (sample_utils 6) "Remote work"
              (initial_world "") _ _ _ (wf_initial_world "") eq_refl eq_refl)
    as (w' & Hrun & Hmem & Hcalls & _).
  exists w'. eexists. exact (conj Hrun (conj Hmem Hcalls)).
Defined.

(** X15. When the search answers without any candidate, reading the first
    candidate fails inside the [try]: [research] falls back on a second,
    plain call, exactly as when the search itself fails, and stores the
    brief of the fallback. *)
Theorem research_without_candidate (client : Client) (utils : Utils)
    (topic : string) (w : World) (response : GroundedResponse) :
  wf w ->
  generate_content_search client (calls w) = Answer response ->
  candidates response = [] ->
  exists w',
    research client utils topic w
    = (Ok (fallback_brief utils topic (generate_content client (S (calls w)))), w')
    /\ research_data (memory w')
       = Some (fallback_brief utils topic (generate_content client (S (calls w))))
    /\ calls w' = S (S (calls w)).
Proof.
  intros Hwf Hanswer Hcandidates.
  destruct (wp_returns _ _ _ (research_calls client utils topic w Hwf))
    as (brief & w' & Hrun & _ & _ & Hmem & Hcalls & ->).
  rewrite Hanswer in *. unfold research_cost in *. cbn [first_candidate] in *.
  rewrite Hcandidates in *. cbn [head] in *.
  exists w'. split; [done|]. rewrite Hmem. split; [done|]. lia.
Qed.

Lemma research_without_candidate_witness :
  exists w',
    research (constant_client "What the model knows.") (sample_utils 6) "Topic"
      (initial_world "")
    = (Ok (fallback_brief (sample_utils 6) "Topic" (Answer "What the model knows.")),
       w')
    /\ calls w' = 2.
Proof.
  destruct (research_without_candidate (constant_client "What the model knows.")
              (sample_utils 6) "Topic" (initial_world "") _
              (wf_initial_world "") eq_refl eq_refl)
    as (w' & Hrun & _ & Hcalls).
  exists w'. exact (conj Hrun Hcalls).
Defined.

(** ** The run as a whole *)

(** X16. A run that has a budget of at least one review, and fuel for it,
    makes a number of calls of the client that its reviews determine: one
    or two for the research, three for the first draft and its
    optimization, two for every review but the last, one for the last, and
    one for the meta tags.  So it makes at least 6 calls and at most
    [2 * MAX_EDITOR_ITERATIONS + 5]. *)
Theorem pipeline_call_budget (client : Client) (cfg : Config) (utils : Utils)
    (fuel : nat) (topic : string) (style_guide : option string) :
  1 <= MAX_EDITOR_ITERATIONS cfg -> MAX_EDITOR_ITERATIONS cfg <= fuel ->
  exists pub w',
    run_blog_pipeline client cfg utils fuel topic style_guide = (Ok pub, w')
    /\ calls w'
       = research_cost (generate_content_search client 0)
         + 3 + 2 * editor_reviews pub
    /\ 6 <= calls w' <= 2 * MAX_EDITOR_ITERATIONS cfg + 5.
Proof.
  intros Hmax Hfuel. unfold run_blog_pipeline.
  destruct (wp_returns _ _ _
              (pipeline_calls client cfg utils fuel topic
                 (initial_world (style_or_default cfg style_guide))
                 (wf_initial_world _) eq_refl Hmax Hfuel))
    as (pub & w' & Hrun & _ & Hreviews & Hcalls).
  exists pub, w'. split; [done|]. cbn [calls initial_world] in Hcalls.
  split; [done|]. rewrite Hcalls. unfold research_cost.
  destruct (first_candidate _); lia.
Qed.

Lemma pipeline_call_budget_witness :
  exists pub w',
    run_blog_pipeline (constant_client "SCORE: 3") config (sample_utils 4) 3
      "Benefits of Remote Work" None = (Ok pub, w')
    /\ calls w'
       = research_cost (generate_content_search (constant_client "SCORE: 3") 0)
         + 3 + 2 * editor_reviews pub
    /\ 6 <= calls w' <= 2 * MAX_EDITOR_ITERATIONS config + 5.
Proof.
  apply (pipeline_call_budget (constant_client "SCORE: 3") config
           (sample_utils 4) 3 "Benefits of Remote Work" None);
    cbn; lia.
Defined.

(** X17. A run that reaches its end has stored one draft more than it has
    made reviews: the first draft, the optimized draft, and a revision
    after every review but the last. *)
Theorem drafts_one_more_than_reviews (client : Client) (cfg : Config)
    (utils : Utils) (fuel : nat) (topic : string) (style_guide : option string) :
  1 <= MAX_EDITOR_ITERATIONS cfg -> MAX_EDITOR_ITERATIONS cfg <= fuel ->
  exists pub w',
    run_blog_pipeline client cfg utils fuel topic style_guide = (Ok pub, w')
    /\ draft_iterations pub = editor_reviews pub + 1
    /\ length (drafts (memory w')) = length (editor_feedback (memory w')) + 1.
Proof.
  intros Hmax Hfuel. unfold run_blog_pipeline.
  set (w := initial_world (style_or_default cfg style_guide)).
  pose proof (pipeline_rule client cfg utils (drafts_grow cfg) fuel topic w
                (wf_initial_world _) (drafts_round client cfg utils)) as Hrun.
  destruct Hrun as (Hwf' & _ & Hpost).
  { intros brief w1 Hwf1 Hprep.
    apply prepared_history in Hprep as (Hfb & _ & d1 & d2 & Hdrafts).
    unfold drafts_grow, counts. rewrite Hfb, Hdrafts. cbn.
    split; [|done]. split; [done|]. split; [lia|]. split; [lia|done]. }
  destruct (pipeline client cfg utils fuel topic w) as [[pub| |] w'];
    cbn [fst snd] in *; [|done|lia].
  destruct Hpost
    as (b & n & w1 & ((Hlen & Hn & Hfalse & Htrue) & Hdrafts) & Hexit & Hmem & Hpub).
  destruct Hpub as (_ & _ & Hiterations & Hreviews & _).
  assert (b = true) as ->.
  { destruct b; [done|]. specialize (Hfalse eq_refl).
    destruct Hexit as [?|?]; [done|lia]. }
  exists pub, w'. split; [done|]. rewrite Hiterations, Hreviews, Hmem. lia.
Qed.

Lemma drafts_one_more_than_reviews_witness :
  exists pub w',
    run_blog_pipeline (constant_client "SCORE: 3") config (sample_utils 4) 3
      "Benefits of Remote Work" None = (Ok pub, w')
    /\ draft_iterations pub = editor_reviews pub + 1
    /\ length (drafts (memory w')) = length (editor_feedback (memory w')) + 1.
Proof.
  apply (drafts_one_more_than_reviews (constant_client "SCORE: 3") config
           (sample_utils 4) 3 "Benefits of Remote Work" None);
    cbn; lia.
Defined.

(** X18. The review loop numbers the records of the history: when the
    records stored so far carry the numbers 1, 2, ... of their places,
    so do the records stored when the loop returns, because a review
    numbers its record after the length of the history, not after the
    counter of the loop. *)
Theorem review_loop_numbers_history (client : Client) (cfg : Config)
    (utils : Utils) (fuel : nat) (w : World) :
  wf w -> numbered w -> MAX_EDITOR_ITERATIONS cfg <= fuel ->
  exists r w',
    review_loop client cfg utils fuel false 0 w = (Ok r, w')
    /\ numbered w'.
Proof.
  intros Hwf Hnum Hfuel.
  pose proof (review_loop_rule client cfg utils (fun _ _ w1 => numbered w1)
                (numbered_round client cfg utils) fuel false 0 w Hwf Hnum)
    as (_ & _ & Hpost).
  destruct (review_loop client cfg utils fuel false 0 w) as [[r| |] w'];
    cbn [fst snd] in *; [|done|lia].
  exists r, w'. split; [done|]. apply Hpost.
Qed.

Lemma review_loop_numbers_history_witness :
  exists r w',
    review_loop (constant_client "SCORE: 3") config (sample_utils 4) 3 false 0
      (initial_world "") = (Ok r, w')
    /\ numbered w'.
Proof.
  apply (review_loop_numbers_history (constant_client "SCORE: 3") config
           (sample_utils 4) 3 (initial_world "") (wf_initial_world "")).
  - intros j d Hj. cbn in Hj. by rewrite lookup_nil in Hj.
  - cbn. lia.
Defined.

(** ** The memory bank *)

(** X19. What is written to the memory bank is what is read back: a draft
    added is the latest draft and the last of all drafts; a feedback
    record added is the latest feedback, the same object, and is counted;
    a brief or an SEO record stored replaces the one before; and [clear]
    gives the bank of a new [MemoryBank] with the same style guide. *)
Theorem memory_round_trips (w : World) :
  (forall draft,
     let w1 := (Memory.add_draft draft w).2 in
     Memory.get_latest_draft w1 = (Ok draft, w1)
     /\ Memory.get_all_drafts w1 = (Ok (drafts (memory w) ++ [draft]), w1))
  /\ (forall feedback,
        let w1 := (Memory.add_editor_feedback feedback w).2 in
        Memory.get_latest_feedback w1 = (Ok feedback, w1)
        /\ Memory.get_feedback_count w1
           = (Ok (S (length (editor_feedback (memory w)))), w1))
  /\ (forall first second,
        let w2 := (Memory.store_research second
                     (Memory.store_research first w).2).2 in
        Memory.get_research w2 = (Ok (Some second), w2))
  /\ (forall first second,
        let w2 := (Memory.store_seo_data second
                     (Memory.store_seo_data first w).2).2 in
        Memory.get_seo_data w2 = (Ok (Some second), w2))
  /\ memory (Memory.clear w).2 = Memory.init (style_guide (memory w)).
Proof.
  split; [|split; [|split; [|split]]].
  - intros draft w1. split; [|done].
    rewrite get_latest_draft_eq. unfold latest_draft. subst w1. cbn.
    by rewrite last_snoc.
  - intros feedback w1. split.
    + rewrite get_latest_feedback_eq. subst w1. cbn. by rewrite last_snoc.
    + subst w1. unfold Memory.get_feedback_count, read_memory. cbn.
      rewrite length_app. cbn. do 3 f_equal. lia.
  - done.
  - done.
  - done.
Qed.

(** X20. [get_latest_feedback] hands out the stored record itself, not a
    copy: what is written through the reference it returns is read by the
    next call.  On an empty history every call returns a new empty
    record, so that what was written through the first is not seen
    through the second. *)
Theorem latest_feedback_is_shared (k : string) (v : value) (w : World) :
  wf w ->
  exists d w',
    (let* feedback := Memory.get_latest_feedback in
     setitem feedback k v ;;;
     let* again := Memory.get_latest_feedback in
     load again) w = (Ok d, w')
    /\ memory w' = memory w
    /\ match last (editor_feedback (memory w)) with
       | Some l => d = <[k := v]> (deref (heap w) l)
       | None => d = ∅
       end.
Proof.
  intros Hwf.
  destruct (last (editor_feedback (memory w))) as [l|] eqn:Hlast.
  - assert (l < length (heap w)) as Hl.
    { apply last_Some in Hlast as [pre Hpre].
      apply (proj1 (Forall_forall _ _) (wf_refs w Hwf)).
      rewrite Hpre. apply elem_of_app. right. by apply list_elem_of_singleton. }
    apply lookup_lt_is_Some in Hl as [d Hd].
    erewrite bind_run by (rewrite get_latest_feedback_eq, Hlast; reflexivity).
    erewrite bind_run.
    2: { unfold setitem. erewrite bind_run by (by apply load_run). reflexivity. }
    erewrite bind_run.
    2: { rewrite get_latest_feedback_eq. cbn [memory write]. rewrite Hlast.
         reflexivity. }
    eexists _, _. split.
    + apply load_run. cbn [heap write]. apply list_lookup_insert_eq.
      by eapply lookup_lt_Some.
    + split; [done|]. unfold deref. by rewrite Hd.
  - erewrite bind_run by (rewrite get_latest_feedback_eq, Hlast; reflexivity).
    erewrite bind_run.
    2: { unfold setitem. erewrite bind_run.
         2: { apply load_run. cbn [heap write]. apply lookup_last. }
         reflexivity. }
    erewrite bind_run.
    2: { rewrite get_latest_feedback_eq. cbn [memory write heap]. rewrite Hlast.
         reflexivity. }
    eexists _, _. split.
    + apply load_run. cbn [heap write]. apply lookup_last.
    + done.
Qed.

Lemma latest_feedback_is_shared_witness :
  exists d w',
    (let* feedback := Memory.get_latest_feedback in
     setitem feedback "score" (VInt 9) ;;;
     let* again := Memory.get_latest_feedback in
     load again) (initial_world "") = (Ok d, w')
    /\ memory w' = memory (initial_world "")
    /\ d = ∅.
Proof.
  exact (latest_feedback_is_shared "score" (VInt 9) (initial_world "")
           (wf_initial_world "")).
Defined.

(** ** The parser's sections *)

Section SectionFacts.

Import Parser.

(** A [SCORE:] line is none of the three headers. *)
Lemma score_not_header (line : string) :
  Str.startswith line "SCORE:" = true ->
  String.eqb line "ISSUES:" = false
  /\ String.eqb line "SUGGESTIONS:" = false
  /\ String.eqb line "STRENGTHS:" = false.
Proof.
  intros Hscore.
  repeat split; apply not_true_is_false; intros ->%String.eqb_eq;
    by vm_compute in Hscore.
Qed.

(** The section a line leaves open: the one it opens, or else the one
    that was open. *)
Lemma parse_line_section (st st' : pstate) (raw : string) :
  parse_line st raw = Ok st' ->
  st'.2 = match header_section raw with Some sec => Some sec | None => st.2 end.
Proof.
  destruct st as [fb cs]. unfold parse_line, header_section. cbv zeta.
  destruct (Str.startswith (Str.strip raw) "SCORE:") eqn:Hscore.
  { destruct (score_not_header _ Hscore) as (-> & -> & ->).
    destruct (otry _ _); cbn [obind]; [|done..]. by intros [= <-]. }
  destruct (String.eqb _ "ISSUES:"); [by intros [= <-]|].
  destruct (String.eqb _ "SUGGESTIONS:"); [by intros [= <-]|].
  destruct (String.eqb _ "STRENGTHS:"); [by intros [= <-]|].
  destruct (Str.startswith _ "- "); [|by intros [= <-]].
  destruct (section_open cs); [|by intros [= <-]].
  destruct (Str.nonempty _); [|by intros [= <-]].
  destruct (append_item _ _ _); cbn [obind]; [|done..]. by intros [= <-].
Qed.

Lemma last_opened_cons (raw : string) (lines : list string) :
  last_opened (raw :: lines)
  = match last_opened lines with
    | Some sec => Some sec
    | None => header_section raw
    end.
Proof.
  unfold last_opened. cbn [omap list_omap].
  destruct (header_section raw) as [sec|]; [|by destruct (last _)].
  by rewrite last_cons.
Qed.

(** The section open after some lines: the one opened most recently, or
    else the one that was open before them. *)
Lemma parse_lines_section (lines : list string) (st st' : pstate) :
  parse_lines st lines = Ok st' ->
  st'.2 = match last_opened lines with Some sec => Some sec | None => st.2 end.
Proof.
  revert st. induction lines as [|raw rest IH]; intros st; cbn [parse_lines].
  - by intros [= <-].
  - destruct (parse_line st raw) as [st1| |] eqn:Hline; cbn [obind]; [|done..].
    intros Hrest. rewrite (IH _ Hrest), last_opened_cons.
    destruct (last_opened rest); [done|]. by apply parse_line_section.
Qed.

(** The parse of a text and one more line. *)
Lemma _parse_review_snoc (t raw : string) :
  one_line raw = true ->
  _parse_review (t +:+ NL +:+ raw)
  = obind (parse_lines (initial_feedback, None) (Str.split LF t))
      (fun st => obind (parse_line st raw) (fun st' => Ok st'.1)).
Proof.
  intros Hraw. unfold _parse_review, NL.
  rewrite append_cons, append_nil_l, split_app, (split_one_line raw) by done.
  rewrite parse_lines_app.
  destruct (parse_lines _ (Str.split LF t)) as [st| |]; cbn [obind]; [|done..].
  cbn [parse_lines]. by destruct (parse_line st raw).
Qed.

(** The state of the parser after a text. *)
Lemma _parse_review_state (t : string) (fb : dict) :
  _parse_review t = Ok fb ->
  parse_lines (initial_feedback, None) (Str.split LF t)
  = Ok (fb, last_opened (Str.split LF t)).
Proof.
  unfold _parse_review.
  destruct (parse_lines _ (Str.split LF t)) as [[fb' cs]| |] eqn:Hlines;
    cbn [obind fst]; [|done..].
  intros [= ->]. apply parse_lines_section in Hlines. cbn [snd] in Hlines.
  rewrite Hlines. by destruct (last_opened _).
Qed.

Lemma _parse_review_line (t raw : string) (fb fb' : dict) :
  one_line raw = true -> _parse_review t = Ok fb ->
  parse_line (fb, last_opened (Str.split LF t)) raw
    = Ok (fb', last_opened (Str.split LF t)) ->
  _parse_review (t +:+ NL +:+ raw) = Ok fb'.
Proof.
  intros Hraw Ht Hline.
  rewrite _parse_review_snoc, (_parse_review_state t fb) by done.
  cbn [obind]. by rewrite Hline.
Qed.

End SectionFacts.

(** C5. On a [SCORE:] line the parser takes the first number of the line
    (digits, with an optional fraction), whatever text follows it; a line
    [ISSUES:], [SUGGESTIONS:] or [STRENGTHS:] opens that section; a line
    that starts with a dash and a space adds its text to the section
    opened last.  This holds of one line read in any state of the parser,
    and of the parser as a whole: after any text, a [SCORE:] line sets the
    score of the record to its first number, and a dash item is added to
    the list of the section that the text has opened most recently,
    whichever sections it opened before, or dropped when the text has
    opened none.  The review "SCORE: 8.5/10", "ISSUES:", "- too short"
    yields the score 8.5 and the one issue "too short". *)
Theorem parser_numeric_extraction :
  (forall fb cs raw pre int frac rest,
      Str.startswith (Str.strip raw) "SCORE:" = true ->
      Str.strip (Str.replace "SCORE:" "" (Str.strip raw))
        = pre +:+ int +:+ "." +:+ frac +:+ rest ->
      no_digit pre = true -> Str.nonempty int = true ->
      all_digits int = true -> all_digits frac = true ->
      stops_number rest = true ->
      Parser.parse_line (fb, cs) raw
        = Ok (<["score" := VFloat (decimal int frac)]> fb, cs))
  /\ (forall fb cs raw pre int rest,
      Str.startswith (Str.strip raw) "SCORE:" = true ->
      Str.strip (Str.replace "SCORE:" "" (Str.strip raw)) = pre +:+ int +:+ rest ->
      no_digit pre = true -> Str.nonempty int = true ->
      all_digits int = true -> stops_number rest = true ->
      Str.startswith rest "." = false ->
      Parser.parse_line (fb, cs) raw
        = Ok (<["score" := VFloat (decimal int "")]> fb, cs))
  /\ (forall fb cs raw,
      (Str.strip raw = "ISSUES:" ->
       Parser.parse_line (fb, cs) raw = Ok (fb, Some "issues"))
      /\ (Str.strip raw = "SUGGESTIONS:" ->
          Parser.parse_line (fb, cs) raw = Ok (fb, Some "suggestions"))
      /\ (Str.strip raw = "STRENGTHS:" ->
          Parser.parse_line (fb, cs) raw = Ok (fb, Some "strengths")))
  /\ (forall (fb : dict) cs sec items raw item,
      Parser.section_open cs = Some sec ->
      fb !! sec = Some (VList items) ->
      Str.strip raw = "- " +:+ item ->
      Str.nonempty (Str.strip item) = true ->
      Parser.parse_line (fb, cs) raw
        = Ok (<[sec := VList (items ++ [Str.strip item])]> fb, cs))
  /\ (forall t raw pre int frac rest q l1 l2 l3,
      one_line raw = true ->
      Str.startswith (Str.strip raw) "SCORE:" = true ->
      Str.strip (Str.replace "SCORE:" "" (Str.strip raw))
        = pre +:+ int +:+ "." +:+ frac +:+ rest ->
      no_digit pre = true -> Str.nonempty int = true ->
      all_digits int = true -> all_digits frac = true ->
      stops_number rest = true ->
      Parser._parse_review t = Ok (mk_feedback q l1 l2 l3) ->
      Parser._parse_review (t +:+ NL +:+ raw)
        = Ok (mk_feedback (decimal int frac) l1 l2 l3))
  /\ (forall t raw pre int rest q l1 l2 l3,
      one_line raw = true ->
      Str.startswith (Str.strip raw) "SCORE:" = true ->
      Str.strip (Str.replace "SCORE:" "" (Str.strip raw)) = pre +:+ int +:+ rest ->
      no_digit pre = true -> Str.nonempty int = true ->
      all_digits int = true -> stops_number rest = true ->
      Str.startswith rest "." = false ->
      Parser._parse_review t = Ok (mk_feedback q l1 l2 l3) ->
      Parser._parse_review (t +:+ NL +:+ raw)
        = Ok (mk_feedback (decimal int "") l1 l2 l3))
  /\ (forall t raw item q l1 l2 l3,
      one_line raw = true ->
      Str.strip raw = "- " +:+ item ->
      Str.nonempty (Str.strip item) = true ->
      Parser._parse_review t = Ok (mk_feedback q l1 l2 l3) ->
      (last_opened (Str.split LF t) = Some "issues" ->
       Parser._parse_review (t +:+ NL +:+ raw)
         = Ok (mk_feedback q (l1 ++ [Str.strip item]) l2 l3))
      /\ (last_opened (Str.split LF t) = Some "suggestions" ->
          Parser._parse_review (t +:+ NL +:+ raw)
            = Ok (mk_feedback q l1 (l2 ++ [Str.strip item]) l3))
      /\ (last_opened (Str.split LF t) = Some "strengths" ->
          Parser._parse_review (t +:+ NL +:+ raw)
            = Ok (mk_feedback q l1 l2 (l3 ++ [Str.strip item])))
      /\ (last_opened (Str.split LF t) = None ->
          Parser._parse_review (t +:+ NL +:+ raw)
            = Ok (mk_feedback q l1 l2 l3)))
  /\ (forall t,
      last_opened (Str.split LF t) = None
      \/ last_opened (Str.split LF t) = Some "issues"
      \/ last_opened (Str.split LF t) = Some "suggestions"
      \/ last_opened (Str.split LF t) = Some "strengths")
  /\ Parser._parse_review
       ("SCORE: 8.5/10" +:+ NL +:+ "ISSUES:" +:+ NL +:+ "- too short")
     = Ok (mk_feedback (17 # 2) ["too short"] [] []).
Proof.
  split; [|split; [|split; [|split; [|split; [|split; [|split; [|split]]]]]]].
  - intros. by apply (parse_line_score_fraction fb cs raw pre int frac rest).
  - intros. by apply (parse_line_score_integer fb cs raw pre int rest).
  - intros. apply parse_line_label.
  - intros. by apply parse_line_item.
  - intros t raw pre int frac rest q l1 l2 l3 Hone Hscore Htext Hpre Hne Hint
      Hfrac Hrest Ht.
    apply (_parse_review_line t raw _ _ Hone Ht).
    rewrite <- (mk_feedback_score q (decimal int frac)).
    by apply (parse_line_score_fraction _ _ raw pre int frac rest).
  - intros t raw pre int rest q l1 l2 l3 Hone Hscore Htext Hpre Hne Hint Hrest
      Hdot Ht.
    apply (_parse_review_line t raw _ _ Hone Ht).
    rewrite <- (mk_feedback_score q (decimal int "")).
    by apply (parse_line_score_integer _ _ raw pre int rest).
  - intros t raw item q l1 l2 l3 Hone Hraw Hitem Ht.
    split; [|split; [|split]]; intros Hsec;
      apply (_parse_review_line t raw _ _ Hone Ht); rewrite Hsec.
    + rewrite <- (mk_feedback_issues q l1 (l1 ++ [Str.strip item]) l2 l3).
      by apply parse_line_item.
    + rewrite <- (mk_feedback_suggestions q l1 l2 (l2 ++ [Str.strip item]) l3).
      by apply parse_line_item.
    + rewrite <- (mk_feedback_strengths q l1 l2 l3 (l3 ++ [Str.strip item])).
      by apply parse_line_item.
    + by apply (parse_line_item_dropped _ raw item).
  - intros t. unfold last_opened.
    destruct (last (omap header_section (Str.split LF t))) as [sec|] eqn:Hlast;
      [|by left]. right.
    apply last_Some_elem_of, list_elem_of_omap in Hlast as (raw & _ & Hsec).
    unfold header_section in Hsec.
    repeat (destruct (String.eqb _ _); [injection Hsec as <-; by auto|]).
    done.
  - vm_compute. exact eq_refl.
Qed.

Lemma parser_numeric_extraction_witness :
  Parser.parse_line (mk_feedback 5 [] [] [], Some "issues") "  SCORE: about 7.25 out of 10 "
    = Ok (<["score" := VFloat (decimal "7" "25")]> (mk_feedback 5 [] [] []), Some "issues")
  /\ Parser.parse_line (mk_feedback 5 [] [] [], None) "SCORE: 9/10"
    = Ok (<["score" := VFloat (decimal "9" "")]> (mk_feedback 5 [] [] []), None)
  /\ Parser.parse_line (mk_feedback 5 [] [] [], None) " STRENGTHS: "
    = Ok (mk_feedback 5 [] [] [], Some "strengths")
  /\ Parser.parse_line (mk_feedback 5 ["dull title"] [] [], Some "issues") " -  too short "
    = Ok (<["issues" := VList (["dull title"] ++ [Str.strip " too short"])]>
            (mk_feedback 5 ["dull title"] [] []), Some "issues")
  /\ Parser._parse_review
       (("ISSUES:" +:+ NL +:+ "- too short") +:+ NL +:+ "SCORE: about 7.25 out of 10")
     = Ok (mk_feedback (decimal "7" "25") ["too short"] [] [])
  /\ Parser._parse_review
       (("ISSUES:" +:+ NL +:+ "- too short" +:+ NL +:+ "STRENGTHS:") +:+ NL
        +:+ "- clear")
     = Ok (mk_feedback 5 ["too short"] [] ([] ++ [Str.strip "clear"])).
Proof.
  destruct parser_numeric_extraction
    as (Hfrac & Hint & Hhead & Hitem & Hscore & _ & Hfiled & _).
  split; [|split; [|split; [|split; [|split]]]].
  - apply (Hfrac _ _ _ "about " "7" "25" " out of 10"); reflexivity.
  - apply (Hint _ _ _ "" "9" "/10"); reflexivity.
  - apply (proj2 (proj2 (Hhead (mk_feedback 5 [] [] []) None " STRENGTHS: "))).
    reflexivity.
  - apply (Hitem _ _ _ ["dull title"] _ " too short"); reflexivity.
  - apply (Hscore _ _ "about " "7" "25" " out of 10" 5%Q ["too short"] [] []);
      reflexivity.
  - apply (Hfiled ("ISSUES:" +:+ NL +:+ "- too short" +:+ NL +:+ "STRENGTHS:")
             "- clear" "clear" 5%Q ["too short"] [] []); reflexivity.
Defined.
